(** * InCoDev: the Dice application loop and its element resolvers

    A shallow embedding of the browser-automation core of the repository
    (the [dice_assistant] step modules, the [DiceAssistant] controller, the
    APS form filler and the application tracker) together with the
    properties its specification states about them.

    Conventions of the embedding.
    - The Selenium driver is an interface ([webdriver]): every call the
      Python code makes on [driver] or on a [WebElement] is a field.  Reads
      are functions of the browser state, commands return a new state, and
      both may raise.
    - Python exceptions are explicit ([res]); a failing command still leaves
      its state change behind, as in Python.
    - Dictionaries returned by the step functions are [gmap string value].
    - [print], [logger] calls and [time.sleep] have no counterpart: the page
      is taken not to change between two driver calls. *)

From Stdlib Require Import ZArith String Ascii List Lia.
From Stdlib Require Import DecimalString Sorted.
From stdpp Require Import base gmap strings list.

#[local] Set Warnings "-register-all,-clear-no-such-hyp".
#[local] Open Scope string_scope.

(** ** Python values *)

Inductive value : Type :=
  | VNone
  | VBool (b : bool)
  | VInt (z : Z)
  | VStr (s : string)
  | VList (l : list value)
  | VDict (d : gmap string value).

(** Python truthiness ([if x:], [x and y], [not x]). *)
Definition truthy (v : value) : bool :=
  match v with
  | VNone => false
  | VBool b => b
  | VInt z => negb (Z.eqb z 0)
  | VStr s => negb (String.eqb s "")
  | VList l => match l with [] => false | _ => true end
  | VDict d => negb (bool_decide (d = ∅))
  end.

Definition truthy_str (s : string) : bool := negb (String.eqb s "").

(** ** Strings: the operations the sources use *)

(** [needle in hay]. *)
Fixpoint str_in (needle hay : string) : bool :=
  String.prefix needle hay ||
  match hay with
  | EmptyString => false
  | String _ hay' => str_in needle hay'
  end.

(** [c.lower()] on the ASCII range. *)
Definition lower_ascii (c : ascii) : ascii :=
  let n := nat_of_ascii c in
  if (65 <=? n)%nat && (n <=? 90)%nat then ascii_of_nat (n + 32) else c.

Fixpoint lower (s : string) : string :=
  match s with
  | EmptyString => EmptyString
  | String c s' => String (lower_ascii c) (lower s')
  end.

Definition is_space (c : ascii) : bool :=
  let n := nat_of_ascii c in
  (n =? 32)%nat || ((9 <=? n)%nat && (n <=? 13)%nat).

Fixpoint lstrip (s : string) : string :=
  match s with
  | EmptyString => EmptyString
  | String c s' => if is_space c then lstrip s' else s
  end.

Fixpoint rstrip (s : string) : string :=
  match s with
  | EmptyString => EmptyString
  | String c s' =>
      match rstrip s' with
      | EmptyString => if is_space c then EmptyString else String c EmptyString
      | r => String c r
      end
  end.

Definition strip (s : string) : string := rstrip (lstrip s).

(** [any(term in s for term in terms)]. *)
Definition any_in (terms : list string) (s : string) : bool :=
  existsb (fun t => str_in t s) terms.

(** ** Exceptions and results *)

Inductive exn : Type :=
  | TimeoutException
  | NoSuchElementException
  | StaleElementReferenceException
  | WebDriverException
  | AttributeError
  | TypeError
  | KeyError
  | IndexError
  | UnboundLocalError
  | DatabaseError.

Inductive res (A : Type) : Type :=
  | Ok (a : A)
  | Raise (e : exn).
Arguments Ok {A} a.
Arguments Raise {A} e.

Definition is_ok {A} (r : res A) : bool :=
  match r with Ok _ => true | Raise _ => false end.

(** ** The Selenium interface *)

Definition handle := string.
Definition elem := nat.

Inductive by_ : Type := CSS_SELECTOR | XPATH | ID | NAME | TAG_NAME.

Definition locator : Type := by_ * string.

(** Commands issued to the browser, in the order they were issued. *)
Inductive event : Type :=
  | EGet (url : string)
  | EClose
  | ESwitch (h : handle)
  | EQuit
  | EScript (script : string) (args : list elem)
  | EClick (e : elem)
  | EActionClick (e : elem)
  | EClear (e : elem)
  | ESendKeys (e : elem) (keys : string)
  | EWaitPresence (l : locator)
  | EWaitClickable (l : locator).

(** [W] is the state of the browser.  Reads do not change it. *)
Record webdriver (W : Type) : Type := {
  (* driver reads *)
  current_url : W -> res string;
  window_handles : W -> res (list handle);
  current_window_handle : W -> res handle;
  page_source : W -> res string;
  find_elements : locator -> W -> res (list elem);
  find_element : locator -> W -> res elem;
  (* element reads *)
  is_displayed : elem -> W -> res bool;
  is_enabled : elem -> W -> res bool;
  text : elem -> W -> res string;
  get_attribute : elem -> string -> W -> res (option string);
  location : elem -> W -> res (Z * Z);                (* (x, y) *)
  el_find_elements : elem -> locator -> W -> res (list elem);
  el_find_element : elem -> locator -> W -> res elem;
  (* commands *)
  get : string -> W -> res unit * W;
  close : W -> res unit * W;
  switch_to_window : handle -> W -> res unit * W;
  quit : W -> res unit * W;
  execute_script : string -> list elem -> W -> res value * W;
  click : elem -> W -> res unit * W;
  action_click : elem -> W -> res unit * W;
  clear : elem -> W -> res unit * W;
  send_keys : elem -> string -> W -> res unit * W;
  wait_presence : locator -> W -> res elem * W;
  wait_clickable : locator -> W -> res elem * W
}.

Arguments current_url {W}.
Arguments window_handles {W}.
Arguments current_window_handle {W}.
Arguments page_source {W}.
Arguments find_elements {W}.
Arguments find_element {W}.
Arguments is_displayed {W}.
Arguments is_enabled {W}.
Arguments text {W}.
Arguments get_attribute {W}.
Arguments location {W}.
Arguments el_find_elements {W}.
Arguments el_find_element {W}.
Arguments get {W}.
Arguments close {W}.
Arguments switch_to_window {W}.
Arguments quit {W}.
Arguments execute_script {W}.
Arguments click {W}.
Arguments action_click {W}.
Arguments clear {W}.
Arguments send_keys {W}.
Arguments wait_presence {W}.
Arguments wait_clickable {W}.

(** The Python [driver] object: the browser, the [original_window]
    attribute that step 4 attaches to it, and the log of commands. *)
Record st (W : Type) : Type := mkSt {
  world : W;
  original_window : option handle;
  trace : list event
}.
Arguments mkSt {W}.
Arguments world {W}.
Arguments original_window {W}.
Arguments trace {W}.

(** ** The monad of driver programs *)

Definition M (W A : Type) : Type := st W -> res A * st W.

Definition ret {W A} (a : A) : M W A := fun s => (Ok a, s).

Definition raise {W A} (e : exn) : M W A := fun s => (Raise e, s).

Definition bind {W A B} (m : M W A) (k : A -> M W B) : M W B :=
  fun s =>
    match m s with
    | (Ok a, s') => k a s'
    | (Raise e, s') => (Raise e, s')
    end.

(** [try: m  except: h] (a bare [except] or [except Exception]). *)
Definition try_except {W A} (m : M W A) (h : exn -> M W A) : M W A :=
  fun s =>
    match m s with
    | (Ok a, s') => (Ok a, s')
    | (Raise e, s') => h e s'
    end.

Declare Scope py_scope.
Delimit Scope py_scope with py.
Notation "'let*' x ':=' m 'in' k" := (bind m (fun x => k))
  (at level 10, x name, m at level 200, k at level 200) : py_scope.
Notation "'do*' m 'in' k" := (bind m (fun _ => k))
  (at level 10, m at level 200, k at level 200) : py_scope.
#[local] Open Scope py_scope.

(** A read of the browser. *)
Definition ask {W A} (q : W -> res A) : M W A :=
  fun s => (q (world s), s).

(** A command: recorded in the trace whether or not it raises. *)
Definition tell {W A} (ev : event) (c : W -> res A * W) : M W A :=
  fun s =>
    match c (world s) with
    | (r, w') => (r, mkSt w' (original_window s) (trace s ++ [ev])%list)
    end.

Definition get_original_window {W} : M W (option handle) :=
  fun s => (Ok (original_window s), s).

Definition set_original_window {W} (h : handle) : M W unit :=
  fun s => (Ok tt, mkSt (world s) (Some h) (trace s)).

(** Result dictionaries. *)
Definition dict_of (l : list (string * value)) : gmap string value :=
  list_to_map l.

(** [v.get(k, dflt)] on an arbitrary value: only dictionaries have [get]. *)
Definition vget (v : value) (k : string) (dflt : value) : res value :=
  match v with
  | VDict d => Ok (default dflt (d !! k))
  | _ => Raise AttributeError
  end.

(** [v[k]] on an arbitrary value. *)
Definition vindex (v : value) (k : string) : res value :=
  match v with
  | VDict d => match d !! k with Some x => Ok x | None => Raise KeyError end
  | _ => Raise TypeError
  end.

(** ** Stable sort by a key, as [list.sort(key=...)] *)

Section Sorting.
Context {A K : Type} (le : K -> K -> bool) (key : A -> K).

(** [x] goes in front of the first element whose key is not below its
    own, so equal keys keep their order. *)
Fixpoint insert_by (x : A) (l : list A) : list A :=
  match l with
  | [] => [x]
  | y :: l' => if le (key x) (key y) then x :: l else y :: insert_by x l'
  end.

Fixpoint sort_by (l : list A) : list A :=
  match l with
  | [] => []
  | x :: l' => insert_by x (sort_by l')
  end.
End Sorting.

(** Tuples [(y, x)] compare lexicographically. *)
Definition yx_le (a b : Z * Z) : bool :=
  (a.1 <? b.1)%Z || ((a.1 =? b.1)%Z && (a.2 <=? b.2)%Z).

(** [mapM] over [res]: the keys are all computed before anything moves. *)
Fixpoint all_ok {A B} (f : A -> res B) (l : list A) : res (list B) :=
  match l with
  | [] => Ok []
  | x :: l' =>
      match f x with
      | Raise e => Raise e
      | Ok y =>
          match all_ok f l' with
          | Raise e => Raise e
          | Ok ys => Ok (y :: ys)
          end
      end
  end.

(** ** dice_assistant/dice_step_3_catalog_jobs.py and
       dice_assistant/dice_step_4_apply_to_job_index.py: the catalog *)

Definition job_card_selectors : list string :=
  [ "a.card-title-link[href*='/job-detail/']";
    "a[data-testid='job-card-title-link'][href*='/job-detail/']";
    "h3 a[href*='/job-detail/']";
    "h2 a[href*='/job-detail/']";
    "a[class*='job-title'][href*='/job-detail/']";
    "a[class*='job-link'][href*='/job-detail/']";
    ".job-card a[href*='/job-detail/']";
    "[data-testid*='job-card'] a[href*='/job-detail/']";
    "a[href*='/job-detail/']" ].

Definition generic_job_selector : string := "a[href*='/job-detail/']".

Section Catalog.
Context {W : Type} (wd : webdriver W).

(** The accumulator of the collection loop: [all_job_elements] and
    [seen_hrefs]. *)
Definition catalog_acc : Type := list elem * gset string.

(** The body of [for element in elements], with its [try ... except:
    continue]. *)
Definition consider_element (w : W) (acc : catalog_acc) (element : elem)
  : catalog_acc :=
  match is_displayed wd element w with
  | Ok true =>
      match get_attribute wd element "href" w with
      | Ok (Some href) =>
          if truthy_str href && str_in "/job-detail/" href
             && negb (bool_decide (href ∈ acc.2))
          then ((acc.1 ++ [element])%list, {[href]} ∪ acc.2)
          else acc
      | Ok None => acc
      | Raise _ => acc
      end
  | Ok false => acc
  | Raise _ => acc
  end.

(** The body of [for selector in job_card_selectors]. *)
Definition consider_selector (w : W) (acc : catalog_acc) (selector : string)
  : catalog_acc :=
  match find_elements wd (CSS_SELECTOR, selector) w with
  | Ok elements => fold_left (consider_element w) elements acc
  | Raise _ => acc
  end.

Definition collect_job_elements (w : W) : catalog_acc :=
  fold_left (consider_selector w) job_card_selectors ([], ∅).

(** The sort key [(elem.location['y'], elem.location['x'])]. *)
Definition position_key (w : W) (element : elem) : res (Z * Z) :=
  match location wd element w with
  | Ok (x, y) => Ok (y, x)
  | Raise e => Raise e
  end.

(** [all_job_elements.sort(key=...)] inside [try ... except]: when a key
    cannot be computed the list stays as it was. *)
Definition sort_by_position (w : W) (l : list elem) : list elem :=
  match all_ok (position_key w) l with
  | Ok keys => (sort_by yx_le snd (zip l keys)).*1
  | Raise _ => l
  end.

(** [_find_all_job_elements(driver)]; the two modules hold the same
    function. *)
Definition _find_all_job_elements (w : W) : list elem :=
  sort_by_position w (collect_job_elements w).1.
End Catalog.

(** ** Formatting *)

(** [str(n)] for an integer. *)
Definition show_Z (z : Z) : string := NilZero.string_of_int (Z.to_int z).

(** [str(e)]: the message of an exception, here its class name. *)
Definition exn_msg (e : exn) : string :=
  match e with
  | TimeoutException => "TimeoutException"
  | NoSuchElementException => "NoSuchElementException"
  | StaleElementReferenceException => "StaleElementReferenceException"
  | WebDriverException => "WebDriverException"
  | AttributeError => "AttributeError"
  | TypeError => "TypeError"
  | KeyError => "KeyError"
  | IndexError => "IndexError"
  | UnboundLocalError => "UnboundLocalError"
  | DatabaseError => "DatabaseError"
  end.

(** [l[i]] with Python's negative indices; out of range raises
    [IndexError], which every caller here catches as [Exception]. *)
Definition py_index {A} (l : list A) (i : Z) : option A :=
  if (0 <=? i)%Z then l !! Z.to_nat i
  else if (- Z.of_nat (length l) <=? i)%Z then l !! Z.to_nat (Z.of_nat (length l) + i)
  else None.

(** [except TimeoutException:] lets every other exception through. *)
Definition except_timeout {W A} (m : M W A) (h : M W A) : M W A :=
  try_except m (fun e => match e with TimeoutException => h | _ => raise e end).

(** The script texts the step modules send. *)
Definition js_scroll_center : string :=
  "arguments[0].scrollIntoView({block: 'center'});".
Definition js_click : string := "arguments[0].click();".
Definition js_border_green : string := "arguments[0].style.border='3px solid green'".
Definition js_border_none : string := "arguments[0].style.border=''".
Definition js_ready_state : string := "return document.readyState".

Section Step3.
Context {W : Type} (wd : webdriver W).

Definition catalog_result (total_jobs : Z) (page_url : string)
    (filters_confirmed : bool) : value :=
  VDict (dict_of [ ("total_jobs", VInt total_jobs);
                   ("page_url", VStr page_url);
                   ("filters_confirmed", VBool filters_confirmed) ]).

(** [step_3_catalog_jobs(driver)].  The title preview and
    [_count_already_applied_jobs] only feed [print] and cannot raise. *)
Definition step_3_catalog_jobs : M W value :=
  try_except
    (let* url := ask (current_url wd) in
     let filters_confirmed :=
       str_in "filters.easyApply=true" url && str_in "filters.postedDate=ONE" url in
     let* listed :=
       except_timeout
         (do* tell (EWaitPresence (CSS_SELECTOR, generic_job_selector))
                   (wait_presence wd (CSS_SELECTOR, generic_job_selector)) in
          ret true)
         (ret false) in
     if negb listed then ret (catalog_result 0 url filters_confirmed)
     else
       let* job_elements := ask (fun w => Ok (_find_all_job_elements wd w)) in
       match job_elements with
       | [] => ret (catalog_result 0 url filters_confirmed)
       | _ => ret (catalog_result (Z.of_nat (length job_elements)) url
                                  filters_confirmed)
       end)
    (fun _ =>
       let* url := ask (current_url wd) in
       ret (catalog_result 0 url false)).
End Step3.

Section Step4.
Context {W : Type} (wd : webdriver W).

Definition parent_xpath : locator := (XPATH, "./..").

Definition card_classes : list string := ["job-card"; "job-listing"; "job-item"].

Definition applied_indicators : list string :=
  ["applied"; "already applied"; "application submitted"; "you applied";
   "application sent"].

Definition apply_button_xpath : locator :=
  (XPATH, ".//button[contains(text(), 'Apply') or contains(text(), 'Applied')]").

(** The climb to the card container.  [job_card] only changes on the
    iteration that breaks, so each of the three rounds looks at the parent
    of the link itself; a parent without a class attribute raises
    [TypeError] inside [any(...)] and ends the loop. *)
Definition find_job_card (w : W) (job_element : elem) : elem :=
  match el_find_element wd job_element parent_xpath w with
  | Ok parent =>
      match get_attribute wd parent "class" w with
      | Ok (Some cls) => if any_in card_classes cls then parent else job_element
      | Ok None => job_element
      | Raise _ => job_element
      end
  | Raise _ => job_element
  end.

(** [for button in apply_buttons] inside its [try ... except: pass]:
    [Some b] is a [return b], [None] falls out of the block. *)
Fixpoint any_applied_button (w : W) (buttons : list elem) : res bool :=
  match buttons with
  | [] => Ok false
  | button :: rest =>
      match get_attribute wd button "disabled" w with
      | Raise e => Raise e
      | Ok (Some d) =>
          if truthy_str d then Ok true
          else match text wd button w with
               | Raise e => Raise e
               | Ok t => if str_in "applied" (lower t) then Ok true
                         else any_applied_button w rest
               end
      | Ok None =>
          match text wd button w with
          | Raise e => Raise e
          | Ok t => if str_in "applied" (lower t) then Ok true
                    else any_applied_button w rest
          end
      end
  end.

(** [_check_if_already_applied(driver, job_element, job_index)]. *)
Definition _check_if_already_applied (w : W) (job_element : elem) : bool :=
  let job_card := find_job_card w job_element in
  match text wd job_card w with
  | Raise _ => false
  | Ok t =>
      let job_card_text := if truthy_str t then lower t else "" in
      if any_in applied_indicators job_card_text then true
      else
        match el_find_elements wd job_card apply_button_xpath w with
        | Raise _ => false
        | Ok apply_buttons =>
            match any_applied_button w apply_buttons with
            | Ok b => b
            | Raise _ => false
            end
        end
  end.

(** [_click_with_action_chains]. *)
Definition _click_with_action_chains (element : elem) : M W unit :=
  tell (EActionClick element) (action_click wd element).

(** [_click_parent_element]. *)
Definition _click_parent_element (element : elem) : M W unit :=
  let* parent := ask (el_find_element wd element parent_xpath) in
  do* tell (EScript js_click [parent]) (execute_script wd js_click [parent]) in
  ret tt.

Definition click_strategies (element : elem) : list (M W unit) :=
  [ (do* tell (EScript js_click [element]) (execute_script wd js_click [element]) in
     ret tt);
    tell (EClick element) (click wd element);
    _click_with_action_chains element;
    _click_parent_element element ].

(** One round of [for i, strategy in enumerate(click_strategies)]:
    [true] is the [return True] of the quick check, [false] goes on to
    the next strategy (also after an exception). *)
Definition try_click_strategy (element : elem) (strategy : M W unit) : M W bool :=
  try_except
    (do* strategy in
     let* url := ask (current_url wd) in
     let* href := ask (get_attribute wd element "href") in
     ret (negb (bool_decide (Some url = href))))
    (fun _ => ret false).

Fixpoint run_click_strategies (element : elem) (strategies : list (M W unit))
  : M W bool :=
  match strategies with
  | [] => ret true                       (* "assume the last strategy worked" *)
  | strategy :: rest =>
      let* moved := try_click_strategy element strategy in
      if moved then ret true else run_click_strategies element rest
  end.

(** [_click_job_element(driver, element, job_index)]. *)
Definition _click_job_element (element : elem) : M W bool :=
  try_except
    (do* tell (EScript js_scroll_center [element])
              (execute_script wd js_scroll_center [element]) in
     do* try_except
           (do* tell (EScript js_border_green [element])
                     (execute_script wd js_border_green [element]) in
            do* tell (EScript js_border_none [element])
                     (execute_script wd js_border_none [element]) in
            ret tt)
           (fun _ => ret tt) in
     run_click_strategies element (click_strategies element))
    (fun _ => ret false).

Definition step4_failure (job_index : Z) (error : string) : value :=
  VDict (dict_of [ ("success", VBool false);
                   ("job_index", VInt job_index);
                   ("error", VStr error) ]).

Definition step4_success (job_index : Z) (job_url : string) : value :=
  VDict (dict_of [ ("success", VBool true);
                   ("job_index", VInt job_index);
                   ("job_url", VStr job_url) ]).

(** [for window in new_windows: if window not in original_windows]. *)
Definition first_new_window (new_windows original_windows : list handle)
  : option handle :=
  List.find (fun h => negb (bool_decide (h ∈ original_windows))) new_windows.

(** [step_4_apply_to_job_index(driver, job_index)].  The block that reads
    the title and href of the target before the click only feeds [print]
    and sits in its own [try ... except]. *)
Definition step_4_apply_to_job_index (job_index : Z) : M W value :=
  try_except
    (let* original_window := ask (current_window_handle wd) in
     let* original_windows := ask (window_handles wd) in
     let* url := ask (current_url wd) in
     let* job_elements := ask (fun w => Ok (_find_all_job_elements wd w)) in
     match job_elements with
     | [] => ret (step4_failure job_index "No job elements found on page")
     | _ =>
       if (Z.of_nat (length job_elements) <=? job_index)%Z
       then ret (step4_failure job_index
                   ("Requested index " ++ show_Z job_index ++ " but only "
                    ++ show_Z (Z.of_nat (length job_elements)) ++ " jobs available"))
       else
         match py_index job_elements job_index with
         | None => raise IndexError
         | Some target_element =>
           let* applied := ask (fun w => Ok (_check_if_already_applied w target_element)) in
           if applied
           then ret (step4_failure job_index
                       ("Job at index " ++ show_Z job_index
                        ++ " appears to be already applied to"))
           else
             let* click_success := _click_job_element target_element in
             if negb click_success
             then ret (step4_failure job_index "Failed to click job element")
             else
               let* new_windows := ask (window_handles wd) in
               if (length original_windows <? length new_windows)%nat
               then
                 match first_new_window new_windows original_windows with
                 | Some new_window =>
                     if truthy_str new_window
                     then
                       do* tell (ESwitch new_window) (switch_to_window wd new_window) in
                       let* new_url := ask (current_url wd) in
                       if str_in "/job-detail/" new_url
                       then
                         do* set_original_window original_window in
                         ret (step4_success job_index new_url)
                       else
                         do* tell (ESwitch original_window)
                                  (switch_to_window wd original_window) in
                         ret (step4_failure job_index
                                "New tab opened but not on job detail page")
                     else ret VNone
                 | None => ret VNone
                 end
               else
                 let* new_url := ask (current_url wd) in
                 if negb (String.eqb new_url url) && str_in "/job-detail/" new_url
                 then ret (step4_success job_index new_url)
                 else if negb (String.eqb new_url url)
                 then ret (step4_success job_index new_url)
                 else ret (step4_failure job_index "Failed to navigate - URL unchanged")
         end
     end)
    (fun e => ret (step4_failure job_index ("Unexpected error: " ++ exn_msg e))).
End Step4.

(** ** dice_assistant/dice_step_5_loop_return.py *)

Section Step5.
Context {W : Type} (wd : webdriver W).

Definition results_url_terms : list string := ["/jobs"; "search"; "q="].

Definition job_indicators_step5 : list string :=
  [ "a[href*='/job-detail/']"; ".job-card"; ".job-listing";
    "[data-cy*='job-card']"; "[data-testid*='job-card']"; "article[class*='job']" ].

(** [for indicator in job_indicators: try ... except: continue]. *)
Fixpoint any_indicator_present (w : W) (indicators : list string) : bool :=
  match indicators with
  | [] => false
  | indicator :: rest =>
      match find_elements wd (CSS_SELECTOR, indicator) w with
      | Ok (_ :: _) => true
      | Ok [] => any_indicator_present w rest
      | Raise _ => any_indicator_present w rest
      end
  end.

(** [_verify_on_results_page(driver)]. *)
Definition _verify_on_results_page (w : W) : bool :=
  match current_url wd w with
  | Raise _ => false
  | Ok url =>
      if any_in results_url_terms url && negb (str_in "/job-detail/" url)
      then
        if any_indicator_present w job_indicators_step5 then true
        else str_in "filters.easyApply=true" url
      else false
  end.

Definition loading_indicators : list string :=
  [ "[class*='loading']"; "[class*='spinner']"; ".loader"; "[data-testid='loading']" ].

(** [[l for l in loaders if l.is_displayed()]]. *)
Fixpoint visible_ones (w : W) (loaders : list elem) : res (list elem) :=
  match loaders with
  | [] => Ok []
  | l :: rest =>
      match is_displayed wd l w with
      | Raise e => Raise e
      | Ok d =>
          match visible_ones w rest with
          | Raise e => Raise e
          | Ok vs => Ok (if d then l :: vs else vs)
          end
      end
  end.

(** The spinner loop: [true] when some selector shows a visible loader. *)
Fixpoint any_visible_loader (w : W) (indicators : list string) : bool :=
  match indicators with
  | [] => false
  | indicator :: rest =>
      match find_elements wd (CSS_SELECTOR, indicator) w with
      | Raise _ => any_visible_loader w rest
      | Ok loaders =>
          match visible_ones w loaders with
          | Ok (_ :: _) => true
          | Ok [] => any_visible_loader w rest
          | Raise _ => any_visible_loader w rest
          end
      end
  end.

(** [_verify_ready_for_next_job(driver)]. *)
Definition _verify_ready_for_next_job : M W bool :=
  try_except
    (let* ready_state := tell (EScript js_ready_state [])
                              (execute_script wd js_ready_state []) in
     let complete := match ready_state with
                     | VStr state => String.eqb state "complete"
                     | _ => false
                     end in
     if negb complete then ret false
     else
       let* loading := ask (fun w => Ok (any_visible_loader w loading_indicators)) in
       if loading then ret false
       else
         let* job_links := ask (find_elements wd (CSS_SELECTOR, generic_job_selector)) in
         match job_links with
         | [] => ret false
         | _ => ret true
         end)
    (fun _ => ret true).

(** The close-button selectors of [_handle_popups], the [:contains] ones
    already rewritten to the XPath the loop builds from them. *)
Definition popup_close_selectors : list locator :=
  [ (CSS_SELECTOR, "button[aria-label='Close']");
    (CSS_SELECTOR, "button[class*='close']");
    (CSS_SELECTOR, ".modal button[class*='close']");
    (CSS_SELECTOR, "[data-dismiss='modal']");
    (XPATH, "//button[contains(text(), 'Ã—')]");
    (XPATH, "//button[contains(text(), 'X')]");
    (CSS_SELECTOR, "[class*='popup'] button[class*='close']") ].

(** [for button in close_buttons]; a read that raises leaves through the
    selector's [except: continue]. *)
Fixpoint click_close_buttons (buttons : list elem) : M W unit :=
  match buttons with
  | [] => ret tt
  | button :: rest =>
      let* d := ask (is_displayed wd button) in
      let* en := if d then ask (is_enabled wd button) else ret false in
      do* (if d && en
           then try_except
                  (do* tell (EScript js_click [button])
                            (execute_script wd js_click [button]) in
                   ret tt)
                  (fun _ => ret tt)
           else ret tt) in
      click_close_buttons rest
  end.

Fixpoint handle_popup_selectors (selectors : list locator) : M W unit :=
  match selectors with
  | [] => ret tt
  | selector :: rest =>
      do* try_except
            (let* close_buttons := ask (find_elements wd selector) in
             click_close_buttons close_buttons)
            (fun _ => ret tt) in
      handle_popup_selectors rest
  end.

(** [_handle_popups(driver)]. *)
Definition _handle_popups : M W unit :=
  try_except (handle_popup_selectors popup_close_selectors) (fun _ => ret tt).

(** Closing every window but [window]. *)
Fixpoint close_other_windows (window : handle) (others : list handle) : M W unit :=
  match others with
  | [] => ret tt
  | other_window :: rest =>
      do* (if negb (String.eqb other_window window)
           then
             do* tell (ESwitch other_window) (switch_to_window wd other_window) in
             tell EClose (close wd)
           else ret tt) in
      close_other_windows window rest
  end.

(** [for window in current_windows] when no original window is stored. *)
Fixpoint find_results_window (filtered_results_url : string)
    (current_windows todo : list handle) : M W unit :=
  match todo with
  | [] => ret tt
  | window :: rest =>
      do* tell (ESwitch window) (switch_to_window wd window) in
      let* url := ask (current_url wd) in
      if str_in filtered_results_url url
      then
        do* close_other_windows window current_windows in
        tell (ESwitch window) (switch_to_window wd window)
      else find_results_window filtered_results_url current_windows rest
  end.

Definition step5_result (ready_for_next : bool) (url : string)
    (error : option string) : value :=
  VDict (dict_of
    ([ ("ready_for_next", VBool ready_for_next); ("current_url", VStr url) ]
     ++ match error with Some msg => [("error", VStr msg)] | None => [] end)%list).

(** [driver.current_url if hasattr(driver, 'current_url') else 'unknown']:
    [hasattr] swallows [AttributeError] only. *)
Definition current_url_or_unknown : M W string :=
  try_except (ask (current_url wd))
    (fun e => match e with AttributeError => ret "unknown" | _ => raise e end).

(** [step_5_loop_return(driver, filtered_results_url)]. *)
Definition step_5_loop_return (filtered_results_url : string) : M W value :=
  try_except
    (let* _url := ask (current_url wd) in
     let* current_windows := ask (window_handles wd) in
     do* (if (1 <? length current_windows)%nat
          then
            let* stored := get_original_window in
            match stored with
            | Some original =>
                let* current_window := ask (current_window_handle wd) in
                do* (if negb (String.eqb current_window original)
                     then tell EClose (close wd)
                     else ret tt) in
                tell (ESwitch original) (switch_to_window wd original)
            | None =>
                find_results_window filtered_results_url current_windows current_windows
            end
          else ret tt) in
     let* here := ask (current_url wd) in
     do* (if String.eqb here filtered_results_url then ret tt
          else tell (EGet filtered_results_url) (get wd filtered_results_url)) in
     let* on_results := ask (fun w => Ok (_verify_on_results_page w)) in
     if on_results
     then
       do* _handle_popups in
       let* _ready := _verify_ready_for_next_job in
       let* url := ask (current_url wd) in
       ret (step5_result true url None)
     else
       do* tell (EGet filtered_results_url) (get wd filtered_results_url) in
       let* url := ask (current_url wd) in
       ret (step5_result true url (Some "Failed to verify return to results page")))
    (fun e =>
       let error_msg := "Unexpected error: " ++ exn_msg e in
       try_except
         (do* tell (EGet filtered_results_url) (get wd filtered_results_url) in
          let* url := ask (current_url wd) in
          ret (step5_result true url (Some error_msg)))
         (fun _ =>
            let* url := current_url_or_unknown in
            ret (step5_result false url (Some error_msg)))).
End Step5.

(** ** dice_assistant/dice_step_10.py: the submit button *)

Section Step10.
Context {W : Type} (wd : webdriver W).

Definition review_indicators : list string :=
  ["review application"; "review your application"; "step 2 of 2"].

Definition review_sections_selector : locator :=
  (CSS_SELECTOR, ".application-review-wrapper, .resume-review-section").

(** [_verify_review_page(driver)]. *)
Definition _verify_review_page (w : W) : bool :=
  match page_source wd w with
  | Raise _ => false
  | Ok source =>
      if any_in review_indicators (lower source) then true
      else match find_elements wd review_sections_selector w with
           | Ok (_ :: _) => true
           | Ok [] => false
           | Raise _ => false
           end
  end.

Definition submit_css_selectors : list string :=
  [ "button.seds-button-primary.btn-next span:contains('Submit')";
    "button.btn-next span:contains('Submit')";
    "button.seds-button-primary.btn-next";
    "button.btn-next";
    ".navigation-buttons button.seds-button-primary";
    ".navigation-buttons button.btn-next";
    "button:contains('Submit')";
    "button[data-v-866481c4]" ].

Definition submit_xpath_selectors : list string :=
  [ "//button[contains(text(),'Submit')]";
    "//button[.//span[contains(text(),'Submit')]]";
    "//button[@class='seds-button-primary btn-next'][.//span[contains(text(),'Submit')]]";
    "//div[contains(@class,'navigation-buttons')]//button[.//span[contains(text(),'Submit')]]";
    "//button//span[contains(text(),'Submit')]/parent::button" ].

Definition submit_wait_xpath : locator :=
  (XPATH, "//button[.//span[contains(text(),'Submit')]]").

(** [button.is_displayed() and button.is_enabled()]. *)
Definition shown_and_enabled (w : W) (e : elem) : res bool :=
  match is_displayed wd e w with
  | Raise x => Raise x
  | Ok false => Ok false
  | Ok true => is_enabled wd e w
  end.

(** [for span in spans: if test(span.text): return button]. *)
Fixpoint any_span (w : W) (test : string -> bool) (spans : list elem) : res bool :=
  match spans with
  | [] => Ok false
  | span :: rest =>
      match text wd span w with
      | Raise x => Raise x
      | Ok t => if test t then Ok true else any_span w test rest
      end
  end.

(** The three ways a CSS candidate is taken for the Submit button. *)
Definition css_candidate_accepted (w : W) (button : elem) : res bool :=
  match text wd button w with
  | Raise x => Raise x
  | Ok t =>
      if str_in "submit" (lower (strip t)) then Ok true
      else
        match el_find_elements wd button (TAG_NAME, "span") w with
        | Raise x => Raise x
        | Ok spans =>
            match any_span w (fun t => str_in "submit" (lower t)) spans with
            | Raise x => Raise x
            | Ok true => Ok true
            | Ok false =>
                match get_attribute wd button "class" w with
                | Raise x => Raise x
                | Ok None => Raise TypeError
                | Ok (Some cls) => Ok (str_in "btn-next" cls && _verify_review_page w)
                end
            end
        end
  end.

(** [for button in buttons] of one strategy: [Ok (Some b)] is
    [return b], [Ok None] the end of the list, [Raise] leaves through the
    strategy's [except]. *)
Fixpoint first_accepted (w : W) (accept : W -> elem -> res bool)
    (buttons : list elem) : res (option elem) :=
  match buttons with
  | [] => Ok None
  | button :: rest =>
      match shown_and_enabled w button with
      | Raise x => Raise x
      | Ok false => first_accepted w accept rest
      | Ok true =>
          match accept w button with
          | Raise x => Raise x
          | Ok true => Ok (Some button)
          | Ok false => first_accepted w accept rest
          end
      end
  end.

(** One strategy: look the buttons up, take the first accepted one; an
    exception anywhere moves on ([except: continue]). *)
Definition resolve_with (w : W) (accept : W -> elem -> res bool) (l : locator)
  : option elem :=
  match find_elements wd l w with
  | Raise _ => None
  | Ok buttons =>
      match first_accepted w accept buttons with
      | Ok found => found
      | Raise _ => None
      end
  end.

(** The dispatch loop over an ordered list of strategies. *)
Fixpoint resolve_first (w : W) (accept : W -> elem -> res bool)
    (locators : list locator) : option elem :=
  match locators with
  | [] => None
  | l :: rest =>
      match resolve_with w accept l with
      | Some button => Some button
      | None => resolve_first w accept rest
      end
  end.

(** Strategy 1 skips the selectors that hold [:contains]. *)
Definition usable_css_selectors : list locator :=
  map (fun s => (CSS_SELECTOR, s))
      (List.filter (fun s => negb (str_in ":contains" s)) submit_css_selectors).

Definition accept_any (w : W) (button : elem) : res bool := Ok true.

(** Strategy 4 wants the text to be exactly "submit". *)
Definition exact_submit_accepted (w : W) (button : elem) : res bool :=
  match text wd button w with
  | Raise x => Raise x
  | Ok t =>
      if String.eqb (lower (strip t)) "submit" then Ok true
      else
        match el_find_elements wd button (TAG_NAME, "span") w with
        | Raise x => Raise x
        | Ok spans => any_span w (fun t => String.eqb (lower (strip t)) "submit") spans
        end
  end.

(** [_find_submit_button(driver)]. *)
Definition _find_submit_button : M W (option elem) :=
  let* by_css := ask (fun w => Ok (resolve_first w css_candidate_accepted
                                     usable_css_selectors)) in
  match by_css with
  | Some button => ret (Some button)
  | None =>
    let* by_xpath := ask (fun w => Ok (resolve_first w accept_any
                            (map (fun s => (XPATH, s)) submit_xpath_selectors))) in
    match by_xpath with
    | Some button => ret (Some button)
    | None =>
      let* waited :=
        except_timeout
          (let* button := tell (EWaitClickable submit_wait_xpath)
                               (wait_clickable wd submit_wait_xpath) in
           ret (Some button))
          (ret None) in
      match waited with
      | Some button => ret (Some button)
      | None =>
          ask (fun w => Ok (resolve_with w exact_submit_accepted (TAG_NAME, "button")))
      end
    end
  end.

Definition js_dispatch_click : string :=
  "var event = new MouseEvent('click', {view: window, bubbles: true, cancelable: true}); arguments[0].dispatchEvent(event);".
Definition js_focus : string := "arguments[0].focus();".

Definition click_methods (button : elem) : list (M W unit) :=
  [ (do* tell (EScript js_click [button]) (execute_script wd js_click [button]) in
     ret tt);
    (do* tell (EScript js_dispatch_click [button])
              (execute_script wd js_dispatch_click [button]) in
     ret tt);
    tell (EClick button) (click wd button);
    (do* tell (EScript js_focus [button]) (execute_script wd js_focus [button]) in
     do* tell (EScript js_click [button]) (execute_script wd js_click [button]) in
     ret tt) ].

(** One round of [for method_name, click_method in click_methods]:
    [true] is a [return True], [false] goes on to the next method. *)
Definition try_click_method (button : elem) (click_method : M W unit) : M W bool :=
  try_except
    (do* click_method in
     try_except
       (let* shown := ask (is_displayed wd button) in
        ret (negb shown))
       (fun _ => ret true))
    (fun _ => ret false).

Fixpoint run_click_methods (button : elem) (methods : list (M W unit)) : M W bool :=
  match methods with
  | [] => ret true
  | click_method :: rest =>
      let* gone := try_click_method button click_method in
      if gone then ret true else run_click_methods button rest
  end.

(** [_click_button_safely(driver, button)]. *)
Definition _click_button_safely (button : elem) : M W bool :=
  run_click_methods button (click_methods button).
End Step10.

(** ** dice-assistant.py: the controller *)

(** [urllib.parse.quote(s)] with its default [safe='/']. *)
Definition is_unreserved (c : ascii) : bool :=
  let n := nat_of_ascii c in
  ((65 <=? n)%nat && (n <=? 90)%nat) || ((97 <=? n)%nat && (n <=? 122)%nat)
  || ((48 <=? n)%nat && (n <=? 57)%nat)
  || (n =? 95)%nat || (n =? 46)%nat || (n =? 45)%nat || (n =? 126)%nat
  || (n =? 47)%nat.

Definition hex_digit (n : nat) : ascii :=
  if (n <? 10)%nat then ascii_of_nat (48 + n) else ascii_of_nat (55 + n).

Fixpoint quote (s : string) : string :=
  match s with
  | EmptyString => EmptyString
  | String c s' =>
      if is_unreserved c then String c (quote s')
      else
        let n := nat_of_ascii c in
        String "%" (String (hex_digit (n / 16)) (String (hex_digit (n mod 16)) (quote s')))
  end.

Definition tier2_url : string :=
  "https://www.dice.com/jobs?filters.easyApply=true&filters.postedDate=ONE".

Definition tier3_url : string := "https://www.dice.com/jobs".

(** [_update_search_urls]: the Tier 1 URL. *)
Definition tier1_url (job_title : string) (location : option string) : string :=
  match location with
  | Some loc =>
      if truthy_str loc && truthy_str (strip loc)
      then tier2_url ++ "&q=" ++ quote job_title ++ "&location=" ++ quote loc
      else tier2_url ++ "&q=" ++ quote job_title
  | None => tier2_url ++ "&q=" ++ quote job_title
  end.

(** Integers as [range] and [==] see them ([bool] is an [int]). *)
Definition as_int (v : value) : option Z :=
  match v with
  | VInt z => Some z
  | VBool b => Some (if b then 1 else 0)%Z
  | _ => None
  end.

(** [Keys.ENTER], the code point U+E007, as its UTF-8 bytes. *)
Definition keys_ENTER : string :=
  String (ascii_of_nat 238) (String (ascii_of_nat 128) (String (ascii_of_nat 135)
    EmptyString)).

Section Controller.
Context {W : Type} (wd : webdriver W).

(** The step functions the controller imports. *)
Variable step_2_login : string -> M W value.
Variable step_3 : M W value.
Variable step_4 : Z -> M W value.
Variable step_5 : string -> M W value.
Variable step_8_click_next : M W value.
Variable step_9_submit_application : M W value.
Variable step_10_handle_confirmation_and_return : M W value.

(** [self.current_job_title], [self.current_location]. *)
Variable current_job_title : string.
Variable current_location : option string.

Definition job_indicators_validate : list string :=
  [ ".job-card"; "[data-cy*='job-card']"; "[data-testid*='job-card']";
    "article[class*='job']" ].

Fixpoint any_listing_indicator (w : W) (indicators : list string) : bool :=
  match indicators with
  | [] => false
  | indicator :: rest =>
      match find_elements wd (CSS_SELECTOR, indicator) w with
      | Ok (_ :: _) => true
      | Ok [] => any_listing_indicator w rest
      | Raise _ => any_listing_indicator w rest
      end
  end.

(** [_validate_job_page_success(driver)]. *)
Definition _validate_job_page_success (w : W) : bool :=
  match current_url wd w with
  | Raise _ => false
  | Ok url =>
      if str_in "filters.easyApply=true" url && str_in "filters.postedDate=ONE" url
      then true
      else any_listing_indicator w job_indicators_validate
  end.

(** [_tier1_optimization(driver)]. *)
Definition _tier1_optimization : M W bool :=
  try_except
    (do* tell (EGet (tier1_url current_job_title current_location))
              (get wd (tier1_url current_job_title current_location)) in
     ask (fun w => Ok (_validate_job_page_success w)))
    (fun _ => ret false).

Definition search_selectors : list string :=
  [ "input[type='search']"; "input[name='q']";
    "input[placeholder*='job title' i]"; "input[placeholder*='search' i]" ].

(** The search-field loop: [search_field] keeps the last element found,
    shown or not; a shown one ends the loop. *)
Fixpoint find_search_field (w : W) (search_field : option elem)
    (selectors : list string) : option elem :=
  match selectors with
  | [] => search_field
  | selector :: rest =>
      match find_element wd (CSS_SELECTOR, selector) w with
      | Raise _ => find_search_field w search_field rest
      | Ok field =>
          match is_displayed wd field w with
          | Ok true => Some field
          | Ok false => find_search_field w (Some field) rest
          | Raise _ => find_search_field w (Some field) rest
          end
      end
  end.

(** [_manual_search(driver, job_title)]. *)
Definition _manual_search (job_title : string) : M W bool :=
  try_except
    (let* search_field := ask (fun w => Ok (find_search_field w None search_selectors)) in
     match search_field with
     | Some field =>
         do* tell (EClear field) (clear wd field) in
         do* tell (ESendKeys field job_title) (send_keys wd field job_title) in
         do* tell (ESendKeys field keys_ENTER) (send_keys wd field keys_ENTER) in
         ret true
     | None => ret false
     end)
    (fun _ => ret false).

(** [_tier2_fallback(driver)]. *)
Definition _tier2_fallback : M W bool :=
  try_except
    (do* tell (EGet tier2_url) (get wd tier2_url) in
     _manual_search current_job_title)
    (fun _ => ret false).

(** [_tier3_full_fallback(driver)]: navigates and reports failure. *)
Definition _tier3_full_fallback : M W bool :=
  try_except
    (do* tell (EGet tier3_url) (get wd tier3_url) in
     ret false)
    (fun _ => ret false).

Definition loop_result (applications_completed : Z) (applied_jobs : list value)
  : value :=
  VDict (dict_of [ ("success", VBool (0 <? applications_completed)%Z);
                   ("applications", VInt applications_completed);
                   ("applied_jobs", VList applied_jobs) ]).

Definition no_jobs_result : value :=
  VDict (dict_of [ ("success", VBool false);
                   ("applications", VInt 0);
                   ("applied_jobs", VList []) ]).

Definition applied_job (job_index : Z) : value :=
  VDict (dict_of
    [ ("title", VStr ("Job #" ++ show_Z (job_index + 1)));
      ("company", VStr "Applied via Dice");
      ("job_search", VStr current_job_title);
      ("location", match current_location with Some l => VStr l | None => VNone end);
      ("index", VInt job_index) ]).

(** [x and x.get(k)] as a condition. *)
Definition and_get (v : value) (k : string) : res bool :=
  if truthy v
  then match vget v k VNone with
       | Ok x => Ok (truthy x)
       | Raise e => Raise e
       end
  else Ok false.

Definition lift {A} (r : res A) : M W A := fun s => (r, s).

(** The local variables of [_apply_to_jobs] that the loop updates. *)
Definition tally : Type := Z * list value.

(** Steps 4, 8, 9 and 10 for one index.  The tally is updated before
    anything else can raise, so it is returned with the result. *)
Definition apply_steps (job_index : Z) (t : tally) : st W -> (res unit * tally) * st W :=
  fun s =>
    match step_4 job_index s with
    | (Raise e, s1) => ((Raise e, t), s1)
    | (Ok apply_result, s1) =>
        match and_get apply_result "success" with
        | Raise e => ((Raise e, t), s1)
        | Ok false => ((Ok tt, t), s1)
        | Ok true =>
            match step_8_click_next s1 with
            | (Raise e, s2) => ((Raise e, t), s2)
            | (Ok r8, s2) =>
                if negb (truthy r8) then ((Ok tt, t), s2)
                else
                  match step_9_submit_application s2 with
                  | (Raise e, s3) => ((Raise e, t), s3)
                  | (Ok r9, s3) =>
                      if negb (truthy r9) then ((Ok tt, t), s3)
                      else
                        match step_10_handle_confirmation_and_return s3 with
                        | (Raise e, s4) => ((Raise e, t), s4)
                        | (Ok result, s4) =>
                            match and_get result "submission_confirmed" with
                            | Raise e => ((Raise e, t), s4)
                            | Ok true =>
                                ((Ok tt, ((t.1 + 1)%Z, (t.2 ++ [applied_job job_index])%list)), s4)
                            | Ok false => ((Ok tt, t), s4)
                            end
                        end
                  end
            end
        end
    end.

(** Step 5 and the manual fallback, for every index but the last. *)
Definition return_to_results (filtered_results_url : string) (job_index total_jobs : Z)
  : M W unit :=
  if (job_index <? total_jobs - 1)%Z
  then
    let* loop_result := step_5 filtered_results_url in
    let* ready := lift (and_get loop_result "ready_for_next") in
    if ready then ret tt
    else tell (EGet filtered_results_url) (get wd filtered_results_url)
  else ret tt.

(** The [except Exception] of the loop body. *)
Definition recover (filtered_results_url : string) (job_index total_jobs : Z)
  : M W unit :=
  if (job_index <? total_jobs - 1)%Z
  then try_except (tell (EGet filtered_results_url) (get wd filtered_results_url))
                  (fun _ => ret tt)
  else ret tt.

(** One iteration of [for job_index in range(total_jobs)]. *)
Definition process_job (filtered_results_url : string) (total_jobs : Z)
    (job_index : Z) (t : tally) : st W -> tally * st W :=
  fun s =>
    match apply_steps job_index t s with
    | ((Raise _, t'), s') =>
        (t', (recover filtered_results_url job_index total_jobs s').2)
    | ((Ok _, t'), s') =>
        match return_to_results filtered_results_url job_index total_jobs s' with
        | (Ok _, s'') => (t', s'')
        | (Raise _, s'') =>
            (t', (recover filtered_results_url job_index total_jobs s'').2)
        end
    end.

(** The loop, over the indices still to visit. *)
Fixpoint process_jobs (filtered_results_url : string) (total_jobs : Z)
    (indices : list Z) (t : tally) (s : st W) : tally * st W :=
  match indices with
  | [] => (t, s)
  | job_index :: rest =>
      match process_job filtered_results_url total_jobs job_index t s with
      | (t', s') => process_jobs filtered_results_url total_jobs rest t' s'
      end
  end.

(** [range(n)]. *)
Definition py_range (n : Z) : list Z :=
  map Z.of_nat (seq 0 (Z.to_nat n)).

(** [job_catalog.get('total_jobs', 0) == 0]. *)
Definition total_is_zero (job_catalog : value) : res bool :=
  match vget job_catalog "total_jobs" (VInt 0) with
  | Raise e => Raise e
  | Ok v => Ok (match as_int v with Some z => (z =? 0)%Z | None => false end)
  end.

(** [_apply_to_jobs(driver, tier_used)].  Reading the checkpoint URL is
    outside the [try]; everything after it is caught. *)
Definition _apply_to_jobs : M W value :=
  let* filtered_results_url := ask (current_url wd) in
  fun s =>
    match step_3 s with
    | (Raise _, s1) => (Ok (loop_result 0 []), s1)
    | (Ok job_catalog, s1) =>
        if negb (truthy job_catalog) then (Ok no_jobs_result, s1)
        else
          match total_is_zero job_catalog with
          | Raise _ => (Ok (loop_result 0 []), s1)
          | Ok true => (Ok no_jobs_result, s1)
          | Ok false =>
              match vindex job_catalog "total_jobs" with
              | Raise _ => (Ok (loop_result 0 []), s1)
              | Ok total =>
                  match as_int total with
                  | None => (Ok (loop_result 0 []), s1)
                  | Some total_jobs =>
                      match process_jobs filtered_results_url total_jobs
                              (py_range total_jobs) (0%Z, []) s1 with
                      | (t, s2) => (Ok (loop_result t.1 t.2), s2)
                      end
                  end
              end
          end
    end.

Definition failure (error : string) : value :=
  VDict (dict_of [ ("success", VBool false); ("error", VStr error) ]).

Definition run_message (applications : value) : res string :=
  match as_int applications with
  | Some n =>
      Ok ("Completed " ++ show_Z n ++ " applications for " ++ current_job_title
          ++ match current_location with
             | Some l => if truthy_str l then " in " ++ l else ""
             | None => ""
             end)
  | None => Raise TypeError
  end.

Definition run_summary (tier_used : string) (results : value) : res value :=
  match vindex results "applications", vindex results "applied_jobs" with
  | Ok applications, Ok jobs =>
      match run_message applications with
      | Ok message =>
          Ok (VDict (dict_of
            [ ("success", VBool true);
              ("job_title_searched", VStr current_job_title);
              ("location_searched",
               match current_location with Some l => VStr l | None => VNone end);
              ("tier_used", VStr tier_used);
              ("total_applications", applications);
              ("applied_jobs", jobs);
              ("message", VStr message) ]))
      | Raise e => Raise e
      end
  | Raise e, _ => Raise e
  | _, Raise e => Raise e
  end.

(** The tier cascade of [run_automation]: the tier that got through. *)
Definition reach_job_page : M W (option string) :=
  let* t1 := _tier1_optimization in
  if t1 then ret (Some "Tier 1")
  else
    let* t2 := _tier2_fallback in
    if t2 then ret (Some "Tier 2")
    else
      let* t3 := _tier3_full_fallback in
      if t3 then ret (Some "Tier 3") else ret None.

(** The body of the [try] in [run_automation], from the driver on. *)
Definition automation_body (user_email : option string) : M W value :=
  match user_email with
  | None => ret (failure "No user email provided for login")
  | Some email =>
    if negb (truthy_str email) then ret (failure "No user email provided for login")
    else
      let* login_result := step_2_login email in
      let* logged_in := lift (and_get login_result "success") in
      if negb logged_in
      then
        if truthy login_result
        then let* msg := lift (vget login_result "error" (VStr "Login failed")) in
             ret (VDict (dict_of [("success", VBool false); ("error", msg)]))
        else ret (failure "Login step returned no result")
      else
        let* tier := reach_job_page in
        match tier with
        | None => ret (failure "Failed to reach job page")
        | Some tier_used =>
            let* results := _apply_to_jobs in
            lift (run_summary tier_used results)
        end
  end.
End Controller.

(** [run_automation(user_data, resume_data)]: the job title and location
    come out of [user_data], the driver is created inside the [try], and the
    [finally] quits it. *)
Definition quit_quietly {W} (wd : webdriver W) : M W unit :=
  try_except (tell EQuit (quit wd)) (fun _ => ret tt).

Definition no_title_error : string :=
  "❌ ERROR: No job title provided! Job title is required to run automation.".

Definition no_user_data_error : string :=
  "❌ ERROR: No user data provided! Cannot run automation without job title.".

Definition run_automation {W} (wd : webdriver W)
    (step_2_login : string -> M W value) (step_3 : M W value)
    (step_4 : Z -> M W value) (step_5 : string -> M W value)
    (step_8 step_9 step_10 : M W value)
    (create_driver : res (st W))
    (user_email : option string) (user_data : value)
  : res value * option (st W) :=
  match user_data with
  | VDict d =>
      if negb (truthy user_data) then (Ok (failure no_user_data_error), None)
      else
        match default (VStr "") (d !! "jobTitle"), default (VStr "") (d !! "location") with
        | VStr title, VStr loc =>
            let job_title := strip title in
            if negb (truthy_str job_title) then (Ok (failure no_title_error), None)
            else
              let location := strip loc in
              let current_location :=
                if truthy_str location then Some location else None in
              match create_driver with
              | Raise e =>
                  (Ok (failure ("Failed to create Chrome driver: " ++ exn_msg e)), None)
              | Ok s0 =>
                  match automation_body wd step_2_login step_3 step_4 step_5
                          step_8 step_9 step_10 job_title current_location
                          user_email s0 with
                  | (Ok v, s1) => (Ok v, Some (quit_quietly wd s1).2)
                  | (Raise e, s1) =>
                      (Ok (failure (exn_msg e)), Some (quit_quietly wd s1).2)
                  end
              end
        | VStr title, _ =>
            if negb (truthy_str (strip title)) then (Ok (failure no_title_error), None)
            else (Raise AttributeError, None)
        | _, _ => (Raise AttributeError, None)
        end
  | _ => (Ok (failure no_user_data_error), None)
  end.

(** The controller with the step modules of this repository plugged in for
    steps 3, 4 and 5. *)
Definition dice_run {W} (wd : webdriver W)
    (step_2_login : string -> M W value) (step_8 step_9 step_10 : M W value) :=
  run_automation wd step_2_login (step_3_catalog_jobs wd)
    (step_4_apply_to_job_index wd) (step_5_loop_return wd) step_8 step_9 step_10.

(** ** job_board_assistant/website_automation/aps_automation.py *)

Definition js_scroll_true : string := "arguments[0].scrollIntoView(true);".
Definition js_make_visible : string :=
  "arguments[0].style.display = 'block'; arguments[0].style.visibility = 'visible';".

Section APS.
Context {W : Type} (wd : webdriver W).

(** [os.path.exists] and [os.path.abspath]. *)
Variable path_exists : string -> bool.
Variable abspath : string -> string.

(** One round of [for selector_type, selector_value in selectors]:
    [true] is the [return True]; [false], also after any exception, goes
    on to the next selector. *)
Definition try_fill_with (value : string) (selector : locator) : M W bool :=
  try_except
    (let* element := tell (EWaitPresence selector) (wait_presence wd selector) in
     let* usable := ask (fun w => shown_and_enabled wd w element) in
     if usable
     then
       do* tell (EScript js_scroll_true [element])
                (execute_script wd js_scroll_true [element]) in
       do* tell (EClear element) (clear wd element) in
       do* tell (ESendKeys element value) (send_keys wd element value) in
       let* entered_value := ask (get_attribute wd element "value") in
       match entered_value with
       | Some v => ret (truthy_str v)
       | None => ret false
       end
     else ret false)
    (fun _ => ret false).

Fixpoint fill_with_selectors (value : string) (selectors : list locator) : M W bool :=
  match selectors with
  | [] => ret false
  | selector :: rest =>
      let* filled := try_fill_with value selector in
      if filled then ret true else fill_with_selectors value rest
  end.

(** [_fill_field_by_multiple_strategies(field_name, value, selectors, wait)]. *)
Definition _fill_field_by_multiple_strategies (value : string)
    (selectors : list locator) : M W bool :=
  if negb (truthy_str value) then ret false
  else fill_with_selectors value selectors.

Definition file_selectors : list locator :=
  [ (ID, "input_55_6"); (NAME, "input_6");
    (CSS_SELECTOR, "#field_55_6 input[type='file']");
    (CSS_SELECTOR, "input[type='file']");
    (XPATH, "//input[@type='file']");
    (XPATH, "//label[contains(text(), 'Upload Your Resume')]/following::input[@type='file'][1]");
    (XPATH, "//button[contains(text(), 'Choose File')]/../input[@type='file']");
    (CSS_SELECTOR, "input[accept*='.pdf']");
    (CSS_SELECTOR, "input[accept*='.doc']") ].

Definition try_upload_to (abs_path : string) (element : elem) : M W bool :=
  try_except
    (do* tell (EScript js_make_visible [element])
              (execute_script wd js_make_visible [element]) in
     do* tell (ESendKeys element abs_path) (send_keys wd element abs_path) in
     let* v := ask (get_attribute wd element "value") in
     match v with
     | Some x => ret (truthy_str x)
     | None => ret false
     end)
    (fun _ => ret false).

Fixpoint upload_to_elements (abs_path : string) (elements : list elem) : M W bool :=
  match elements with
  | [] => ret false
  | element :: rest =>
      let* done := try_upload_to abs_path element in
      if done then ret true else upload_to_elements abs_path rest
  end.

Fixpoint upload_with_selectors (abs_path : string) (selectors : list locator)
  : M W bool :=
  match selectors with
  | [] => ret false
  | selector :: rest =>
      let* done :=
        try_except
          (let* elements := ask (find_elements wd selector) in
           upload_to_elements abs_path elements)
          (fun _ => ret false) in
      if done then ret true else upload_with_selectors abs_path rest
  end.

(** [_upload_resume(resume_path, wait)]. *)
Definition _upload_resume (resume_path : string) : M W bool :=
  try_except
    (if negb (path_exists resume_path) then ret false
     else upload_with_selectors (abspath resume_path) file_selectors)
    (fun _ => ret false).

Definition first_name_selectors : list locator :=
  [ (ID, "input_55_1_3"); (NAME, "input_1.3");
    (CSS_SELECTOR, "input[placeholder='First Name']");
    (CSS_SELECTOR, "#input_55_1_3_container input") ].
Definition last_name_selectors : list locator :=
  [ (ID, "input_55_1_6"); (NAME, "input_1.6");
    (CSS_SELECTOR, "input[placeholder='Last Name']");
    (CSS_SELECTOR, "#input_55_1_6_container input") ].
Definition email_selectors : list locator :=
  [ (ID, "input_55_2"); (NAME, "input_2");
    (CSS_SELECTOR, "#field_55_2 input[type='email']");
    (CSS_SELECTOR, "input[type='email'].medium") ].
Definition phone_selectors : list locator :=
  [ (ID, "input_55_3"); (NAME, "input_3");
    (CSS_SELECTOR, "#field_55_3 input[type='tel']");
    (CSS_SELECTOR, "input[type='tel'].medium") ].
Definition job_type_selectors : list locator :=
  [ (ID, "input_55_5"); (NAME, "input_5");
    (XPATH, "//label[contains(text(), 'What type of job')]/following::textarea[1]");
    (XPATH, "//label[contains(text(), 'What type of job')]/following::input[1]");
    (CSS_SELECTOR, "#field_55_5 textarea");
    (CSS_SELECTOR, "#field_55_5 input");
    (CSS_SELECTOR, "textarea.large");
    (XPATH, "//p[contains(text(), 'Full-time, part-time')]/preceding::textarea[1]");
    (XPATH, "//p[contains(text(), 'Full-time, part-time')]/preceding::input[1]") ].

(** [filled_fields[name] = True] when the attempt succeeded. *)
Definition mark (name : string) (ok : bool) (filled_fields : gmap string bool)
  : gmap string bool :=
  if ok then <[name := true]> filled_fields else filled_fields.

(** [d.get(k, '')] on a dictionary of strings. *)
Definition sget (d : gmap string string) (k : string) (dflt : string) : string :=
  default dflt (d !! k).

(** The six fill attempts, in order, and the [filled_fields] they leave. *)
Definition fill_all_fields (user_profile job_board : gmap string string)
  : M W (gmap string bool) :=
  let* f1 := _fill_field_by_multiple_strategies (sget user_profile "first_name" "")
               first_name_selectors in
  let filled := mark "first_name" f1 ∅ in
  let* f2 := _fill_field_by_multiple_strategies (sget user_profile "last_name" "")
               last_name_selectors in
  let filled := mark "last_name" f2 filled in
  let* f3 := _fill_field_by_multiple_strategies (sget user_profile "email" "")
               email_selectors in
  let filled := mark "email" f3 filled in
  let* f4 := _fill_field_by_multiple_strategies (sget user_profile "phone" "")
               phone_selectors in
  let filled := mark "phone" f4 filled in
  let* f5 := _fill_field_by_multiple_strategies
               (sget job_board "industry" "Manufacturing" ++ " - Full-time opportunities")
               job_type_selectors in
  let filled := mark "job_type" f5 filled in
  if truthy_str (sget user_profile "resume_path" "")
  then
    let* up := _upload_resume (sget user_profile "resume_path" "") in
    ret (mark "resume" up filled)
  else ret filled.

Definition required : list string := ["first_name"; "last_name"; "email"; "phone"].

(** [[f for f in required if f not in filled_fields]]. *)
Definition missing (filled_fields : gmap string bool) : list string :=
  List.filter (fun f => negb (bool_decide (is_Some (filled_fields !! f)))) required.

(** The verdict at the end of the form: [if missing: return
    len(missing) <= 1] and [return True] otherwise. *)
Definition enough_filled (filled_fields : gmap string bool) : bool :=
  match missing filled_fields with
  | [] => true
  | m => (length m <=? 1)%nat
  end.

(** [_fill_job_candidate_form(user_profile, job_board, wait,
    stop_check_callback)]; the callback is what calling it gives, when
    there is one. *)
Definition _fill_job_candidate_form (user_profile job_board : gmap string string)
    (stop_check_callback : option (res bool)) : M W bool :=
  try_except
    (do* tell (EWaitPresence (ID, "gform_55")) (wait_presence wd (ID, "gform_55")) in
     let* filled_fields := fill_all_fields user_profile job_board in
     let* stop := match stop_check_callback with
                  | Some called => lift called
                  | None => ret false
                  end in
     if stop then ret false
     else ret (enough_filled filled_fields))
    (fun _ => ret false).
End APS.

(** ** application-assistant.py: the application tracker *)

Record app_row : Type := mkRow {
  row_id : Z;
  row_user_id : Z;
  row_app_ref : string;
  row_platform : string;
  row_job_title : string;
  row_company : string;
  row_status : string
}.

(** The two tables the tracker touches.  [reachable] is whether
    [psycopg2.connect] succeeds; inserts are taken to succeed. *)
Record database : Type := mkDb {
  reachable : bool;
  users : list (Z * string);              (* id, email *)
  application_stats : list app_row;
  next_id : Z
}.

(** What the tracker reads from outside: the database, the clock and the
    random generator ([draws i] is the [i]-th number drawn). *)
Record env : Type := mkEnv {
  db : database;
  year : Z;
  draws : nat -> nat;
  drawn : nat
}.

Definition ascii_uppercase : string := "ABCDEFGHIJKLMNOPQRSTUVWXYZ".
Definition digits : string := "0123456789".

(** [random.choices(population, k=k)] joined into a string: each pick is
    the population at a drawn index. *)
Fixpoint choices (population : string) (draws : nat -> nat) (from k : nat) : string :=
  match k with
  | O => EmptyString
  | S k' =>
      match String.get (draws from mod String.length population) population with
      | Some c => String c (choices population draws (S from) k')
      | None => choices population draws (S from) k'
      end
  end.

(** [ApplicationTracker.generate_simple_ref()]. *)
Definition generate_simple_ref (e : env) : string * env :=
  let chars := choices (ascii_uppercase ++ digits) (draws e) (drawn e) 6 in
  ("APP-" ++ show_Z (year e) ++ "-" ++ chars,
   mkEnv (db e) (year e) (draws e) (drawn e + 6)).

(** [SELECT id FROM users WHERE email = %s] and [fetchone()]. *)
Definition select_user_id (d : database) (email : string) : option Z :=
  fst <$> List.find (fun u => String.eqb (snd u) email) (users d).

(** [s[:255] if s else 'Not Specified']. *)
Definition clip255 (s : option string) : string :=
  match s with
  | Some x => if truthy_str x then substring 0 255 x else "Not Specified"
  | None => "Not Specified"
  end.

(** [INSERT INTO application_stats ... RETURNING id, app_ref]. *)
Definition insert_application (d : database) (user_id : Z)
    (app_ref platform job_title company status : string) : (Z * string) * database :=
  ((next_id d, app_ref),
   mkDb (reachable d) (users d)
        (application_stats d ++ [mkRow (next_id d) user_id app_ref platform job_title
                                       company status])%list
        (next_id d + 1)%Z).

(** [ApplicationTracker.log_application(user_email, platform, job_title,
    company, status)].  When the connection cannot be opened the handler
    reads the unbound [conn] and raises. *)
Definition log_application (user_email platform : string)
    (job_title company : option string) (status : string) (e : env)
  : res value * env :=
  if negb (reachable (db e)) then (Raise UnboundLocalError, e)
  else
    match select_user_id (db e) user_email with
    | None =>
        (Ok (VDict (dict_of [ ("success", VBool false);
                              ("error", VStr "User not found") ])), e)
    | Some user_id =>
        match generate_simple_ref e with
        | (app_ref, e1) =>
            match insert_application (db e1) user_id app_ref platform
                    (clip255 job_title) (clip255 company) status with
            | ((new_id, new_ref), d') =>
                (Ok (VDict (dict_of [ ("success", VBool true);
                                      ("id", VInt new_id);
                                      ("reference", VStr new_ref) ])),
                 mkEnv d' (year e1) (draws e1) (drawn e1))
            end
        end
    end.

(** The shape [APP-<year>-<6 upper-case letters or digits>]. *)
Definition is_ref_char (c : ascii) : bool :=
  let n := nat_of_ascii c in
  ((65 <=? n)%nat && (n <=? 90)%nat) || ((48 <=? n)%nat && (n <=? 57)%nat).

Fixpoint all_chars (p : ascii -> bool) (s : string) : bool :=
  match s with
  | EmptyString => true
  | String c s' => p c && all_chars p s'
  end.

Definition simple_ref_shape (yr : Z) (ref : string) : Prop :=
  exists code : string,
    ref = "APP-" ++ show_Z yr ++ "-" ++ code
    /\ String.length code = 6%nat
    /\ all_chars is_ref_char code = true.

(** ** job-board-assistant.py: recording board submissions *)

(** [s.replace(' ', '-')]. *)
Fixpoint dash_spaces (s : string) : string :=
  match s with
  | EmptyString => EmptyString
  | String c s' =>
      String (if Ascii.eqb c " " then "-" else c)%char (dash_spaces s')
  end.

(** A board: [site_name] and the optional [agency_name]; a board without
    a site name, which would raise [KeyError], is not representable. *)
Definition board : Type := string * option string.

Fixpoint record_boards (user_id : Z) (industry : string) (boards : list board)
    (e : env) : env :=
  match boards with
  | [] => e
  | (site_name, agency_name) :: rest =>
      let app_ref := choices (ascii_uppercase ++ digits) (draws e) (drawn e) 8 in
      let d' := (insert_application (db e) user_id app_ref
                   ("job-board-" ++ dash_spaces (lower site_name))
                   (industry ++ " Position")
                   (default "Agency" agency_name) "submitted").2 in
      record_boards user_id industry rest (mkEnv d' (year e) (draws e) (drawn e + 8))
  end.

(** [record_board_submissions(user_email, industry, boards)]. *)
Definition record_board_submissions (db_available : bool) (user_email industry : string)
    (boards : list board) (e : env) : bool * env :=
  if negb db_available then (false, e)
  else if negb (reachable (db e)) then (false, e)
  else
    match select_user_id (db e) user_email with
    | None => (false, e)
    | Some user_id => (true, record_boards user_id industry boards e)
    end.

(** ** A small simulated browser

    One window, a fixed site (the DOM served at each URL), clicks that
    follow a link.  It is an instance of [webdriver] on which the step
    functions can be run. *)

#[global] Instance by_eq_dec : EqDecision by_.
Proof. solve_decision. Defined.

Record node : Type := mkNode {
  n_matches : list locator;            (* the locators that select the node *)
  n_href : option string;
  n_class : option string;
  n_text : string;
  n_value : option string;
  n_shown : res bool;
  n_enabled : res bool;
  n_pos : res (Z * Z);
  n_target : option string             (* where a click on the node leads *)
}.

Record sim : Type := mkSim {
  sim_url : string;
  sim_site : string -> list node;
  sim_source : string -> string;
  sim_down : list string               (* URLs that cannot be loaded *)
}.

Definition sim_dom (w : sim) : list node := sim_site w (sim_url w).

Definition sim_node (w : sim) (e : elem) : res node :=
  match sim_dom w !! e with
  | Some n => Ok n
  | None => Raise StaleElementReferenceException
  end.

Definition sim_read {A} (f : node -> res A) (e : elem) (w : sim) : res A :=
  match sim_node w e with
  | Ok n => f n
  | Raise x => Raise x
  end.

(** The indices of the nodes a locator selects, in document order. *)
Fixpoint select_from (l : locator) (i : nat) (nodes : list node) : list elem :=
  match nodes with
  | [] => []
  | n :: rest =>
      if bool_decide (l ∈ n_matches n) then i :: select_from l (S i) rest
      else select_from l (S i) rest
  end.

Definition sim_find_elements (l : locator) (w : sim) : res (list elem) :=
  Ok (select_from l 0 (sim_dom w)).

Definition sim_find_element (l : locator) (w : sim) : res elem :=
  match select_from l 0 (sim_dom w) with
  | e :: _ => Ok e
  | [] => Raise NoSuchElementException
  end.

Definition sim_goto (url : string) (w : sim) : sim :=
  mkSim url (sim_site w) (sim_source w) (sim_down w).

Definition sim_get (url : string) (w : sim) : res unit * sim :=
  if bool_decide (url ∈ sim_down w) then (Raise WebDriverException, w)
  else (Ok tt, sim_goto url w).

Definition sim_click (e : elem) (w : sim) : res unit * sim :=
  match sim_node w e with
  | Raise x => (Raise x, w)
  | Ok n =>
      match n_target n with
      | Some url => (Ok tt, sim_goto url w)
      | None => (Ok tt, w)
      end
  end.

Definition sim_execute_script (script : string) (args : list elem) (w : sim)
  : res value * sim :=
  if String.eqb script js_click
  then match args with
       | e :: _ => match sim_click e w with
                   | (Ok _, w') => (Ok VNone, w')
                   | (Raise x, w') => (Raise x, w')
                   end
       | [] => (Raise WebDriverException, w)
       end
  else if String.eqb script js_ready_state then (Ok (VStr "complete"), w)
  else (Ok VNone, w).

Definition sim_wait (l : locator) (w : sim) : res elem * sim :=
  match select_from l 0 (sim_dom w) with
  | e :: _ => (Ok e, w)
  | [] => (Raise TimeoutException, w)
  end.

Definition sim_wd : webdriver sim := {|
  current_url := fun w => Ok (sim_url w);
  window_handles := fun _ => Ok ["main"];
  current_window_handle := fun _ => Ok "main";
  page_source := fun w => Ok (sim_source w (sim_url w));
  find_elements := sim_find_elements;
  find_element := sim_find_element;
  is_displayed := sim_read n_shown;
  is_enabled := sim_read n_enabled;
  text := sim_read (fun n => Ok (n_text n));
  get_attribute := fun e name =>
    sim_read (fun n =>
      Ok (if String.eqb name "href" then n_href n
          else if String.eqb name "class" then n_class n
          else if String.eqb name "value" then n_value n
          else None)) e;
  location := sim_read n_pos;
  el_find_elements := fun _ _ _ => Ok [];
  el_find_element := fun _ _ _ => Raise NoSuchElementException;
  get := sim_get;
  close := fun w => (Ok tt, w);
  switch_to_window := fun h w =>
    if String.eqb h "main" then (Ok tt, w) else (Raise WebDriverException, w);
  quit := fun w => (Ok tt, w);
  execute_script := sim_execute_script;
  click := sim_click;
  action_click := sim_click;
  clear := fun _ w => (Ok tt, w);
  send_keys := fun _ _ w => (Ok tt, w);
  wait_presence := sim_wait;
  wait_clickable := sim_wait
|}.

Definition fresh {W} (w : W) : st W := mkSt w None [].

(** A listing link as the results page shows it. *)
Definition listing (href : string) (y : Z) (shown : bool) : node :=
  mkNode [ (CSS_SELECTOR, "a.card-title-link[href*='/job-detail/']");
           (CSS_SELECTOR, generic_job_selector) ]
         (Some href) (Some "card-title-link") "Software Engineer" None
         (Ok shown) (Ok true) (Ok (0, y)%Z) (Some href).

Definition results_url : string :=
  "https://www.dice.com/jobs?filters.easyApply=true&filters.postedDate=ONE&q=Engineer".

Definition job_url (n : string) : string := "https://www.dice.com/job-detail/" ++ n.

(** A site that serves [cards] at the results URL and nothing elsewhere. *)
Definition site_with (cards : list node) : sim :=
  mkSim results_url
        (fun url => if String.eqb url results_url then cards else [])
        (fun _ => "") [].

(** ** Vocabulary of the statements *)

Section CatalogVocabulary.
Context {W : Type} (wd : webdriver W).

(** The href under which the collection loop would take an element:
    shown, with an href that holds [/job-detail/]. *)
Definition visible_listing_href (w : W) (e : elem) : option string :=
  match is_displayed wd e w with
  | Ok true =>
      match get_attribute wd e "href" w with
      | Ok (Some href) =>
          if truthy_str href && str_in "/job-detail/" href then Some href else None
      | _ => None
      end
  | _ => None
  end.

(** The href of a listing link, shown or not. *)
Definition listing_href (w : W) (e : elem) : option string :=
  match get_attribute wd e "href" w with
  | Ok (Some href) => if str_in "/job-detail/" href then Some href else None
  | _ => None
  end.

Definition visible_listing_hrefs (w : W) (links : list elem) : gset string :=
  list_to_set (omap (visible_listing_href w) links).

Definition listing_hrefs (w : W) (links : list elem) : gset string :=
  list_to_set (omap (listing_href w) links).

(** The keys of a list of elements are all readable and in order. *)
Definition sorted_by_position (w : W) (l : list elem) : Prop :=
  exists keys, all_ok (position_key wd w) l = Ok keys
               /\ StronglySorted (fun a b => yx_le a b = true) keys.
End CatalogVocabulary.

(** A results page whose only listing link is hidden. *)
Definition hidden_listing_page : sim :=
  site_with [ listing (job_url "1") 100 false ].

(** Three listings, placed out of document order, one of them matched by
    two selectors and one repeated under the same href. *)
Definition three_listings_page : sim :=
  site_with [ listing (job_url "b") 300 true;
              listing (job_url "a") 100 true;
              listing (job_url "b") 320 true;
              listing (job_url "c") 200 true ].

(** A browser on which every call raises. *)
Definition dead_wd : webdriver unit := {|
  current_url := fun _ => Raise WebDriverException;
  window_handles := fun _ => Raise WebDriverException;
  current_window_handle := fun _ => Raise WebDriverException;
  page_source := fun _ => Raise WebDriverException;
  find_elements := fun _ _ => Raise WebDriverException;
  find_element := fun _ _ => Raise WebDriverException;
  is_displayed := fun _ _ => Raise WebDriverException;
  is_enabled := fun _ _ => Raise WebDriverException;
  text := fun _ _ => Raise WebDriverException;
  get_attribute := fun _ _ _ => Raise WebDriverException;
  location := fun _ _ => Raise WebDriverException;
  el_find_elements := fun _ _ _ => Raise WebDriverException;
  el_find_element := fun _ _ _ => Raise WebDriverException;
  get := fun _ w => (Raise WebDriverException, w);
  close := fun w => (Raise WebDriverException, w);
  switch_to_window := fun _ w => (Raise WebDriverException, w);
  quit := fun w => (Raise WebDriverException, w);
  execute_script := fun _ _ w => (Raise WebDriverException, w);
  click := fun _ w => (Raise WebDriverException, w);
  action_click := fun _ w => (Raise WebDriverException, w);
  clear := fun _ w => (Raise WebDriverException, w);
  send_keys := fun _ _ w => (Raise WebDriverException, w);
  wait_presence := fun _ w => (Raise WebDriverException, w);
  wait_clickable := fun _ w => (Raise WebDriverException, w)
|}.

(** A button that stays on the page and in view whatever is done to it:
    no click on it is ever confirmed. *)
Definition stubborn_button : node :=
  mkNode [ (XPATH, "//button[contains(text(),'Submit')]"); (TAG_NAME, "button") ]
         None (Some "btn") "Submit" None (Ok true) (Ok true) (Ok (0, 0)%Z) None.

Definition stubborn_page : sim := site_with [ stubborn_button ].

(** The URLs navigated to, in order, in a piece of trace. *)
Definition navigations (tr : list event) : list string :=
  omap (fun ev => match ev with EGet url => Some url | _ => None end) tr.

(** A site on which no page can be loaded. *)
Definition unreachable_site : sim :=
  mkSim "about:blank" (fun _ => []) (fun _ => "")
        [ results_url; tier2_url; tier3_url ].

(** Stand-ins for the step modules the model does not embed: a login that
    succeeds, and apply steps that go through unless the page is that of
    job [bad]. *)
Definition login_ok {W} (email : string) : M W value :=
  ret (VDict (dict_of [ ("success", VBool true) ])).

Definition step_unless (bad : string) (v : value) : M sim value :=
  fun s => (Ok (if String.eqb (sim_url (world s)) (job_url bad) then VBool false else v), s).

Definition confirmed : value :=
  VDict (dict_of [ ("submission_confirmed", VBool true) ]).

Definition engineer_request : value :=
  VDict (dict_of [ ("jobTitle", VStr "Engineer") ]).

Section LoopVocabulary.
Context {W : Type}.
Variable step_4 : Z -> M W value.
Variable step_8 step_9 step_10 : M W value.
Variable title : string.
Variable loc : option string.

(** Entry [job_index] goes through when steps 4, 8, 9 and 10, run from
    [s], end with a confirmed submission: the tally moves. *)
Definition submitted (job_index : Z) (s : st W) : bool :=
  ((apply_steps step_4 step_8 step_9 step_10 title loc job_index (0%Z, []) s).1.2.1
   =? 1)%Z.
End LoopVocabulary.

(** Results pages for the loop: no listing, one listing, three listings
    top to bottom. *)
Definition empty_results_page : sim := site_with [].

Definition one_listing_page : sim := site_with [ listing (job_url "a") 100 true ].

Definition abc_listings_page : sim :=
  site_with [ listing (job_url "a") 100 true;
              listing (job_url "b") 200 true;
              listing (job_url "c") 300 true ].

(** The Dice run on the simulated browser: this repository's steps 3, 4
    and 5, a login that succeeds, and apply steps that fail on job [bad]. *)
Definition sim_run (bad : string) (page : sim) : res value * option (st sim) :=
  dice_run sim_wd login_ok (step_unless bad (VBool true)) (ret (VBool true))
    (ret confirmed) (Ok (fresh page)) (Some "user@example.com") engineer_request.

(** The APS candidate form with every required input but the phone. *)
Definition form_input (l : locator) (v : string) : node :=
  mkNode [l] None None "" (Some v) (Ok true) (Ok true) (Ok (0, 0)%Z) None.


Definition ada_profile : gmap string string :=
  list_to_map [ ("first_name", "Ada"); ("last_name", "Lovelace");
                ("email", "ada@example.com"); ("phone", "555-0100") ].

(** An environment for the tracker: one user, the year 2026, a fixed
    sequence of draws. *)
Definition tracker_env : env :=
  mkEnv (mkDb true [ (7%Z, "ada@example.com") ] [] 1%Z) 2026%Z
        (fun i => (7 * i + 3)%nat) 0%nat.

Definition aps_board : board := ("Automation Personnel Services", Some "APS").

(** The simulated browser on a fixed site: the state is the URL alone. *)
Definition pinned (w0 : sim) (url : string) : sim := sim_goto url w0.

Definition pin {A} (r : res A * sim) : res A * string := (r.1, sim_url r.2).

Definition pinned_wd (w0 : sim) : webdriver string := {|
  current_url := fun u => current_url sim_wd (pinned w0 u);
  window_handles := fun u => window_handles sim_wd (pinned w0 u);
  current_window_handle := fun u => current_window_handle sim_wd (pinned w0 u);
  page_source := fun u => page_source sim_wd (pinned w0 u);
  find_elements := fun l u => find_elements sim_wd l (pinned w0 u);
  find_element := fun l u => find_element sim_wd l (pinned w0 u);
  is_displayed := fun e u => is_displayed sim_wd e (pinned w0 u);
  is_enabled := fun e u => is_enabled sim_wd e (pinned w0 u);
  text := fun e u => text sim_wd e (pinned w0 u);
  get_attribute := fun e name u => get_attribute sim_wd e name (pinned w0 u);
  location := fun e u => location sim_wd e (pinned w0 u);
  el_find_elements := fun e l u => el_find_elements sim_wd e l (pinned w0 u);
  el_find_element := fun e l u => el_find_element sim_wd e l (pinned w0 u);
  get := fun url u => pin (get sim_wd url (pinned w0 u));
  close := fun u => pin (close sim_wd (pinned w0 u));
  switch_to_window := fun h u => pin (switch_to_window sim_wd h (pinned w0 u));
  quit := fun u => pin (quit sim_wd (pinned w0 u));
  execute_script := fun script args u => pin (execute_script sim_wd script args (pinned w0 u));
  click := fun e u => pin (click sim_wd e (pinned w0 u));
  action_click := fun e u => pin (action_click sim_wd e (pinned w0 u));
  clear := fun e u => pin (clear sim_wd e (pinned w0 u));
  send_keys := fun e keys u => pin (send_keys sim_wd e keys (pinned w0 u));
  wait_presence := fun l u => pin (wait_presence sim_wd l (pinned w0 u));
  wait_clickable := fun l u => pin (wait_clickable sim_wd l (pinned w0 u))
|}.

(** ** The element resolver in the specification's words

    Section 4.2: strategies are tried strictly in order; the result is the
    first candidate that is present, visible and enabled; a strategy that
    raises is passed over; when all are exhausted the result is NotFound. *)

Section SpecResolver.
Context {W : Type} (wd : webdriver W).

Fixpoint spec_first_usable (w : W) (candidates : list elem) : res (option elem) :=
  match candidates with
  | [] => Ok None
  | c :: rest =>
      match is_displayed wd c w with
      | Raise x => Raise x
      | Ok false => spec_first_usable w rest
      | Ok true =>
          match is_enabled wd c w with
          | Raise x => Raise x
          | Ok true => Ok (Some c)
          | Ok false => spec_first_usable w rest
          end
      end
  end.

Definition spec_strategy (w : W) (l : locator) : option elem :=
  match find_elements wd l w with
  | Raise _ => None
  | Ok candidates =>
      match spec_first_usable w candidates with
      | Ok found => found
      | Raise _ => None
      end
  end.

Fixpoint spec_resolve (w : W) (strategies : list locator) : option elem :=
  match strategies with
  | [] => None
  | l :: rest =>
      match spec_strategy w l with
      | Some c => Some c
      | None => spec_resolve w rest
      end
  end.

End SpecResolver.



(** A phone input that shows and is enabled but reads back empty. *)
Definition deaf_phone_page : sim :=
  site_with [ mkNode [ (ID, "input_55_3") ] None None "" None (Ok true) (Ok true)
                     (Ok (0, 0)%Z) None ].

(** ** Vocabulary of the statements, continued *)

(** A program that never raises. *)
Definition total {W A} (m : M W A) : Prop := forall s, exists a, (m s).1 = Ok a.

(** A program that only adds to the trace, and adds events of one kind. *)
Definition logs {W} (P : event -> Prop) {A} (m : M W A) : Prop :=
  forall s, exists extra, trace (m s).2 = (trace s ++ extra)%list /\ Forall P extra.

(** Events that are not navigations; events that are not waits for
    presence. *)
Definition not_get (ev : event) : Prop :=
  match ev with EGet _ => False | _ => True end.


Section CollectionVocabulary.
Context {W : Type} (wd : webdriver W) (w : W).

(** What the collection loop keeps true: every collected element shows a
    listing href, no href twice, and [seen_hrefs] holds exactly the hrefs
    of the elements met so far. *)
Definition collected (acc : catalog_acc) (met : list elem) : Prop :=
  Forall (fun e => is_Some (visible_listing_href wd w e)) acc.1
  /\ NoDup (omap (visible_listing_href wd w) acc.1)
  /\ acc.2 = list_to_set (omap (visible_listing_href wd w) acc.1)
  /\ acc.2 = list_to_set (omap (visible_listing_href wd w) met).

(** The elements a selector contributes: none when the lookup raises. *)
Definition selected (selector : string) : list elem :=
  match find_elements wd (CSS_SELECTOR, selector) w with
  | Ok els => els
  | Raise _ => []
  end.
End CollectionVocabulary.

Section RunVocabulary.
Context {W : Type} (wd : webdriver W).
Variable step_3 : M W value.
Variable step_4 : Z -> M W value.
Variable step_5 : string -> M W value.
Variable step_8 step_9 step_10 : M W value.
Variable title : string.
Variable loc : option string.

(** What [run_automation] does once a tier got through. *)
Definition continue_with (tier_used : string) : M W value :=
  bind (_apply_to_jobs wd step_3 step_4 step_5 step_8 step_9 step_10 title loc)
       (fun results => lift (run_summary title loc tier_used results)).

End RunVocabulary.


Section CheckpointVocabulary.
Context {W : Type} (wd : webdriver W).
Variable url : string.                       (* the checkpoint *)

Definition at_checkpoint (s : st W) : Prop := current_url wd (world s) = Ok url.

(** A program that stays on the checkpoint page. *)
Definition keeps {A} (m : M W A) : Prop :=
  forall s, at_checkpoint s -> at_checkpoint (m s).2.
End CheckpointVocabulary.

(** What step 5 must answer for the loop to go on. *)
Definition ready_answer (v : value) : Prop :=
  exists d, v = VDict d /\ d !! "ready_for_next" = Some (VBool true).

Section SubmitVocabulary.
Context {W : Type} (wd : webdriver W).



End SubmitVocabulary.

(** * The rest of the step modules and their callers *)

(** Events that are neither closing a window nor switching to one. *)
Definition not_window_command (ev : event) : Prop :=
  match ev with EClose | ESwitch _ => False | _ => True end.

(** [logs] at one state. *)
Definition logs_at {W} (P : event -> Prop) {A} (m : M W A) (s : st W) : Prop :=
  exists extra, trace (m s).2 = (trace s ++ extra)%list /\ Forall P extra.

(** Any event at all. *)
Definition any_event (ev : event) : Prop := True.

(** ** job-board-assistant.py: subscription tiers *)

(** [self.tier_limits]: per tier, [weekly_submissions] and
    [max_boards_per_session]. *)
Definition tier_limits : gmap string (Z * Z) :=
  list_to_map [ ("basic", (5, 2)); ("plus", (15, 5)); ("premium", (50, 10)) ]%Z.

(** [check_tier_limits(user_tier, selected_boards_count)]; [user_tier] is
    [None] for Python's [None]. *)
Definition check_tier_limits (user_tier : option string) (selected_boards_count : Z)
  : res (bool * string) :=
  let user_tier :=
    match user_tier with
    | Some t => if truthy_str t then lower t else "basic"
    | None => "basic"
    end in
  let user_tier :=
    if bool_decide (is_Some (tier_limits !! user_tier)) then user_tier else "basic" in
  match tier_limits !! user_tier with
  | None => Raise KeyError
  | Some (_, max_boards_per_session) =>
      if (max_boards_per_session <? selected_boards_count)%Z
      then Ok (false, "Your " ++ user_tier ++ " tier allows maximum "
                      ++ show_Z max_boards_per_session ++ " boards per session")
      else Ok (true, "Within limits")
  end.

(** The tier check of [start_automation]: [None] lets the request go on,
    [Some response] is the 400 response.  The response looks the limits up
    again, under the tier name as the session has it. *)
Definition start_automation_tier_check (user_tier : option string)
    (selected_boards_count : Z) : res (option value) :=
  match check_tier_limits user_tier selected_boards_count with
  | Raise e => Raise e
  | Ok (true, _) => Ok None
  | Ok (false, limit_message) =>
      match user_tier with
      | None => Raise AttributeError
      | Some t =>
          match tier_limits !! lower t with
          | None => Raise KeyError
          | Some (weekly, max_boards) =>
              Ok (Some (VDict (dict_of
                [ ("status", VStr "error");
                  ("message", VStr limit_message);
                  ("selected_count", VInt selected_boards_count);
                  ("tier_limits",
                   VDict (dict_of [ ("weekly_submissions", VInt weekly);
                                    ("max_boards_per_session", VInt max_boards) ])) ])))
          end
      end
  end.

(** ** job-board-assistant.py: the orchestration thread *)

(** The single [failed] row written after a run that failed or raised. *)
Definition record_failed_run (db_available : bool) (user_email industry : string)
    (job_title company : string) (e : env) : env :=
  if negb db_available then e
  else if negb (reachable (db e)) then e
  else
    match select_user_id (db e) user_email with
    | None => e
    | Some user_id =>
        let app_ref := choices (ascii_uppercase ++ digits) (draws e) (drawn e) 8 in
        mkEnv (insert_application (db e) user_id app_ref ("job-board-" ++ lower industry)
                 job_title company "failed").2
              (year e) (draws e) (drawn e + 8)
    end.

(** [_run_industry_orchestration(user_email, industry, selected_boards,
    session_data)].  [industry_assistant] is [None] when
    [_get_industry_assistant] returned [None], and else what setting the
    assistant up and calling its [start_automation] came to. *)
Definition _run_industry_orchestration (db_available : bool)
    (industry_assistant : option (res value)) (user_email industry : string)
    (selected_boards : list board) (e : env) : env :=
  match industry_assistant with
  | None =>
      (record_board_submissions db_available user_email industry selected_boards e).2
  | Some (Ok result) =>
      match vget result "success" VNone with
      | Ok success =>
          if truthy success
          then (record_board_submissions db_available user_email industry
                  selected_boards e).2
          else record_failed_run db_available user_email industry
                 (industry ++ " Position") "Multiple" e
      | Raise ex =>
          record_failed_run db_available user_email industry
            (industry ++ " Position - Error") (substring 0 100 (exn_msg ex)) e
      end
  | Some (Raise ex) =>
      record_failed_run db_available user_email industry
        (industry ++ " Position - Error") (substring 0 100 (exn_msg ex)) e
  end.

(** The rows a tracker call added to [application_stats]. *)
Definition rows_added (e e' : env) : list app_row :=
  drop (length (application_stats (db e))) (application_stats (db e')).

(** Titles and companies that fit a 255-character column and are not
    empty. *)
Definition fits_the_columns (r : app_row) : Prop :=
  (1 <= String.length (row_job_title r) <= 255)%nat
  /\ (1 <= String.length (row_company r) <= 255)%nat.


(** ** application-assistant.py: tracking what the platforms report *)

(** Programs on the tracker's environment. *)
Definition T (A : Type) : Type := env -> res A * env.

Definition tret {A} (a : A) : T A := fun e => (Ok a, e).

Definition tlift {A} (r : res A) : T A := fun e => (r, e).

Definition tbind {A B} (m : T A) (k : A -> T B) : T B :=
  fun e =>
    match m e with
    | (Ok a, e') => k a e'
    | (Raise ex, e') => (Raise ex, e')
    end.

Definition ttry {A} (m : T A) (h : exn -> T A) : T A :=
  fun e =>
    match m e with
    | (Ok a, e') => (Ok a, e')
    | (Raise ex, e') => h ex e'
    end.

Declare Scope db_scope.
Delimit Scope db_scope with db.
Notation "'let+' x ':=' m 'in' k" := (tbind m (fun x => k))
  (at level 10, x name, m at level 200, k at level 200) : db_scope.
Notation "'do+' m 'in' k" := (tbind m (fun _ => k))
  (at level 10, m at level 200, k at level 200) : db_scope.
#[local] Open Scope db_scope.

(** An argument that [log_application] slices ([x[:255] if x else ...]): a
    truthy value that is not a string is refused inside the [try], by the
    slice or, for a list, by the text column. *)
Definition text_arg (v : value) : res (option string) :=
  if truthy v
  then match v with VStr s => Ok (Some s) | _ => Raise TypeError end
  else Ok None.

(** [_track_application(user_email, platform, job_title, company, status)].
    When an argument is refused the reference has been drawn already and
    the handler of [log_application] answers. *)
Definition _track_application (user_email platform : string)
    (job_title company : value) (status : string) : T value :=
  fun e =>
    match text_arg job_title, text_arg company with
    | Ok t, Ok c => log_application user_email platform t c status e
    | Raise ex, _ | _, Raise ex =>
        if negb (reachable (db e)) then (Raise UnboundLocalError, e)
        else
          match select_user_id (db e) user_email with
          | None => (Ok (failure "User not found"), e)
          | Some _ => (Ok (failure (exn_msg ex)), (generate_simple_ref e).2)
          end
    end.

(** [for job in jobs: self._track_application(..., job.get('title',
    default_title), job.get('company', default_company), 'submitted')]. *)
Fixpoint track_jobs (user_email platform : string) (default_title : value)
    (default_company : string) (jobs : list value) : T unit :=
  match jobs with
  | [] => tret tt
  | job :: rest =>
      let+ title := tlift (vget job "title" default_title) in
      let+ company := tlift (vget job "company" (VStr default_company)) in
      do+ _track_application user_email platform title company "submitted" in
      track_jobs user_email platform default_title default_company rest
  end.

(** [for i in range(n): self._track_application(..., title,
    f'<prefix>{i+1}', 'submitted')]. *)
Fixpoint track_generic (user_email platform : string) (title : value)
    (prefix : string) (indices : list Z) : T unit :=
  match indices with
  | [] => tret tt
  | i :: rest =>
      do+ _track_application user_email platform title
            (VStr (prefix ++ show_Z (i + 1))) "submitted" in
      track_generic user_email platform title prefix rest
  end.

(** What iterating over a truthy [jobs_applied] gives: the elements of a
    list; a string or a dictionary yields strings, on which [job.get]
    fails; anything else is not iterable. *)
Definition as_jobs (v : value) : res (list value) :=
  match v with
  | VList l => Ok l
  | VStr _ | VDict _ => Raise AttributeError
  | _ => Raise TypeError
  end.

(** [range(v)] and [total += v]. *)
Definition as_count (v : value) : res Z :=
  match as_int v with Some n => Ok n | None => Raise TypeError end.

Definition demo_applications : list value :=
  [ VDict (dict_of [ ("title", VStr "Software Engineer"); ("company", VStr "Tech Corp") ]);
    VDict (dict_of [ ("title", VStr "Senior Developer");
                     ("company", VStr "Innovation Labs") ]) ].

Fixpoint track_demo (user_email : string) (jobs : list value) : T unit :=
  match jobs with
  | [] => tret tt
  | job :: rest =>
      let+ title := tlift (vindex job "title") in
      let+ company := tlift (vindex job "company") in
      do+ _track_application user_email "indeed" title company "submitted" in
      track_demo user_email rest
  end.

Section Platforms.
(** Whether [dice-assistant.py] is where it is looked for, the path in the
    error message, and [DiceAssistant(user_email).run_automation(user_data,
    resume_data)]. *)
Variable dice_assistant_exists : bool.
Variable dice_assistant_path : string.
Variable dice_run_automation : value -> res value.

(** [_indeed_automation(user_data, resume_data, user_email)]. *)
Definition _indeed_automation (user_data : value) (user_email : string) : T value :=
  let+ _name := tlift (vindex user_data "name") in
  do+ track_demo user_email demo_applications in
  tret (VDict (dict_of
    [ ("success", VBool true);
      ("total_applications", VInt (Z.of_nat (length demo_applications)));
      ("jobs_applied", VList demo_applications);
      ("message", VStr "Demo mode - Indeed automation not yet implemented") ])).

(** [_dice_automation(user_data, resume_data, user_email)]. *)
Definition _dice_automation (user_data : value) (user_email : string) : T value :=
  let+ _name := tlift (vindex user_data "name") in
  if negb dice_assistant_exists
  then tret (failure ("❌ DICE: dice-assistant.py not found at " ++ dice_assistant_path))
  else
    let+ result := tlift (dice_run_automation user_data) in
    let+ success := tlift (vget result "success" VNone) in
    do+ (if truthy success
         then
           let+ jobs_applied := tlift (vget result "jobs_applied" (VList [])) in
           let+ title := tlift (vget user_data "jobTitle" (VStr "Not Specified")) in
           if truthy jobs_applied
           then
             let+ jobs := tlift (as_jobs jobs_applied) in
             track_jobs user_email "dice" title "Unknown" jobs
           else
             let+ total := tlift (vget result "total_applications" (VInt 0)) in
             let+ n := tlift (as_count total) in
             track_generic user_email "dice" title "Dice Company " (py_range n)
         else tret tt) in
    tret result.

Definition _glassdoor_automation : T value :=
  tret (failure "Glassdoor automation coming soon").

Definition _ziprecruiter_automation : T value :=
  tret (failure "ZipRecruiter automation coming soon").

(** One round of [for platform in selected_platforms]; the totals and the
    [results] dictionary only feed [print]. *)
Definition run_platform (user_data : value) (user_email platform : string) : T unit :=
  ttry
    (let+ result :=
       if String.eqb platform "indeed" then _indeed_automation user_data user_email
       else if String.eqb platform "dice" then _dice_automation user_data user_email
       else if String.eqb platform "glassdoor" then _glassdoor_automation
       else if String.eqb platform "ziprecruiter" then _ziprecruiter_automation
       else tret (failure ("Platform " ++ platform ++ " not implemented yet")) in
     let+ success := tlift (vget result "success" VNone) in
     let+ title := tlift (vget user_data "jobTitle" (VStr "Not Specified")) in
     if truthy success
     then
       let+ applications := tlift (vget result "total_applications" (VInt 0)) in
       let+ n := tlift (as_count applications) in
       let+ jobs_applied := tlift (vget result "jobs_applied" VNone) in
       if truthy jobs_applied
       then
         let+ jobs := tlift (as_jobs jobs_applied) in
         track_jobs user_email platform title "Various" jobs
       else track_generic user_email platform title "Company " (py_range n)
     else
       do+ _track_application user_email platform title (VStr "N/A") "failed" in
       tret tt)
    (fun _ =>
       let+ title := tlift (vget user_data "jobTitle" (VStr "Not Specified")) in
       do+ _track_application user_email platform title (VStr "N/A") "failed" in
       tret tt).

Fixpoint run_platforms (user_data : value) (user_email : string)
    (platforms : list string) : T unit :=
  match platforms with
  | [] => tret tt
  | platform :: rest =>
      do+ run_platform user_data user_email platform in
      run_platforms user_data user_email rest
  end.

(** [_run_automation(user_data, resume_data, selected_platforms,
    user_email)]: the outer [except] swallows what a handler raised, and
    the method answers nothing; what it leaves is the database. *)
Definition _run_automation (user_data : value) (selected_platforms : list string)
    (user_email : string) (e : env) : env :=
  match user_data with
  | VDict _ => (run_platforms user_data user_email selected_platforms e).2
  | _ => e
  end.
End Platforms.

(** A reachable database that knows the user. *)
Definition known_user (user_email : string) (user_id : Z) (e : env) : Prop :=
  reachable (db e) = true /\ select_user_id (db e) user_email = Some user_id.

(** ** dice_assistant/dice_step_10.py: confirmation and return *)

Section Step10Return.
Context {W : Type} (wd : webdriver W).

Definition confirmation_url_terms : list string := ["success"; "confirm"; "thank"].

Definition success_indicators : list string :=
  [ "application submitted"; "thank you for applying"; "successfully submitted";
    "application received"; "we have received your application";
    "your application has been sent" ].

Definition confirmation_selectors : list string :=
  [ "[class*='success']"; "[class*='confirmation']"; "[class*='thank']";
    "h1:contains('Thank')"; "h1:contains('Success')";
    "h2:contains('Thank')"; "h2:contains('Success')" ].

(** [for indicator in success_indicators: if indicator in page_text: ...
    break]. *)
Fixpoint first_indicator (page_text : string) (indicators : list string)
  : option string :=
  match indicators with
  | [] => None
  | indicator :: rest =>
      if str_in indicator page_text then Some indicator
      else first_indicator page_text rest
  end.

(** [any(el.is_displayed() for el in elements)]. *)
Fixpoint any_displayed (w : W) (elements : list elem) : res bool :=
  match elements with
  | [] => Ok false
  | el :: rest =>
      match is_displayed wd el w with
      | Raise x => Raise x
      | Ok true => Ok true
      | Ok false => any_displayed w rest
      end
  end.

(** The loop over [confirmation_selectors], each round in its own
    [try ... except: continue]. *)
Fixpoint any_confirmation_element (w : W) (selectors : list string) : bool :=
  match selectors with
  | [] => false
  | selector :: rest =>
      match find_elements wd (CSS_SELECTOR, selector) w with
      | Raise _ => any_confirmation_element w rest
      | Ok [] => any_confirmation_element w rest
      | Ok elements =>
          match any_displayed w elements with
          | Ok true => true
          | Ok false => any_confirmation_element w rest
          | Raise _ => any_confirmation_element w rest
          end
      end
  end.

(** [_check_confirmation(driver, previous_url)]: [confirmed] and
    [message]; [reference_number] is never set.  What was found before a
    read raises stays in the answer. *)
Definition _check_confirmation (w : W) (previous_url : string) : bool * option string :=
  match current_url wd w with
  | Raise _ => (false, None)
  | Ok url =>
      let by_url :=
        negb (String.eqb url previous_url)
        && any_in confirmation_url_terms (lower url) in
      match page_source wd w with
      | Raise _ => (by_url, None)
      | Ok source =>
          let found := first_indicator (lower source) success_indicators in
          let by_text := match found with Some _ => true | None => by_url end in
          (if any_confirmation_element w confirmation_selectors then true else by_text,
           found)
      end
  end.

Definition confirmation_details (details : bool * option string) : value :=
  VDict (dict_of
    [ ("confirmed", VBool details.1);
      ("message", match details.2 with Some m => VStr m | None => VNone end);
      ("reference_number", VNone) ]).

Definition return_xpath_selectors : list string :=
  [ "//a[contains(text(),'Search for more jobs')]";
    "//a[contains(text(),'Find more jobs')]";
    "//a[contains(text(),'Back to search')]";
    "//button[contains(text(),'Search for more')]" ].

Definition jobs_page_url : string := "https://www.dice.com/jobs".

(** [for element in elements: if element.is_displayed(): element.click();
    return True]. *)
Fixpoint click_first_displayed (elements : list elem) : M W bool :=
  match elements with
  | [] => ret false
  | element :: rest =>
      let* shown := ask (is_displayed wd element) in
      if shown
      then do* tell (EClick element) (click wd element) in ret true
      else click_first_displayed rest
  end.

Fixpoint try_return_links (xpaths : list string) : M W bool :=
  match xpaths with
  | [] => ret false
  | xpath :: rest =>
      let* clicked :=
        try_except
          (let* elements := ask (find_elements wd (XPATH, xpath)) in
           click_first_displayed elements)
          (fun _ => ret false) in
      if clicked then ret true else try_return_links rest
  end.

(** [_return_to_job_search(driver)]. *)
Definition _return_to_job_search : M W bool :=
  try_except
    (let* clicked := try_return_links return_xpath_selectors in
     if clicked then ret true
     else do* tell (EGet jobs_page_url) (get wd jobs_page_url) in ret true)
    (fun _ => ret false).

Definition step10_error (error : string) : value :=
  VDict (dict_of [ ("submission_confirmed", VBool false); ("error", VStr error) ]).

Definition step10_result (details : bool * option string) (returned : bool) : value :=
  VDict (dict_of
    [ ("submission_confirmed", VBool details.1);
      ("confirmation_details", confirmation_details details);
      ("return_navigation", VBool returned);
      ("ready_for_next_application", VBool returned) ]).

(** [step_10_handle_confirmation_and_return(driver, return_to_search)].
    [_verify_review_page] and [_debug_page_state] read the page inside
    their own [try] and feed [print] only. *)
Definition step_10_handle_confirmation_and_return (return_to_search : bool)
  : M W value :=
  try_except
    (let* url := ask (current_url wd) in
     let* submit_button := _find_submit_button wd in
     match submit_button with
     | Some button =>
         do* tell (EScript js_scroll_center [button])
                  (execute_script wd js_scroll_center [button]) in
         let* success := _click_button_safely wd button in
         if success
         then
           let* details := ask (fun w => Ok (_check_confirmation w url)) in
           if details.1 && return_to_search
           then
             let* returned := _return_to_job_search in
             ret (step10_result details returned)
           else ret (step10_result details false)
         else ret (step10_error "Failed to click Submit button")
     | None => ret (step10_error "Submit button not found")
     end)
    (fun e => ret (step10_error (exn_msg e))).
End Step10Return.

(** Events that are clicks of an element, in a piece of trace. *)
Definition is_click (ev : event) : Prop :=
  match ev with EClick _ => True | _ => False end.

(** A page shown after a submission: the thank-you text, no element. *)
Definition thank_you_page : sim :=
  mkSim "https://www.dice.com/apply/done" (fun _ => [])
        (fun _ => "<h1>Thank you for applying</h1>") [].

(** A review page with a Submit button that stays in view. *)
Definition review_page : sim := stubborn_page.

(** ** dice_assistant/dice_step_9.py *)

Section Step9.
Context {W : Type} (wd : webdriver W).

Definition next_css_selectors : list string :=
  [ "button.seds-button-primary.btn-next";
    "button.btn-next";
    "button[type='button'] span:contains('Next')";
    ".navigation-buttons button.btn-next";
    ".navigation-buttons button.seds-button-primary";
    "button:contains('Next')";
    "button[data-v-866481c4]" ].

Definition next_xpath_selectors : list string :=
  [ "//button[contains(text(),'Next')]";
    "//button[.//span[contains(text(),'Next')]]";
    "//button[@class='seds-button-primary btn-next']";
    "//button[contains(@class,'btn-next')]";
    "//div[@class='navigation-buttons btn-right']//button[contains(@class,'btn-next')]";
    "//div[contains(@class,'navigation-buttons')]//button[contains(@class,'seds-button-primary')]" ].

Definition next_wait_css : locator := (CSS_SELECTOR, "button.btn-next").

(** Strategy 1: a shown and enabled button whose text holds [next] or is
    empty, and that has a span saying [next] or the class [btn-next]. *)
Definition next_css_accepted (w : W) (button : elem) : res bool :=
  match text wd button w with
  | Raise x => Raise x
  | Ok t =>
      let button_text := strip t in
      if str_in "next" (lower button_text) || String.eqb button_text ""
      then
        match el_find_elements wd button (TAG_NAME, "span") w with
        | Raise x => Raise x
        | Ok spans =>
            match any_span wd w (fun t => str_in "next" (lower t)) spans with
            | Raise x => Raise x
            | Ok true => Ok true
            | Ok false =>
                match get_attribute wd button "class" w with
                | Raise x => Raise x
                | Ok None => Raise TypeError
                | Ok (Some cls) => Ok (str_in "btn-next" cls)
                end
            end
        end
      else Ok false
  end.

(** Strategy 4: the text is exactly [next], or the class holds
    [btn-next], or a span says exactly [next]. *)
Definition next_exact_accepted (w : W) (button : elem) : res bool :=
  match text wd button w with
  | Raise x => Raise x
  | Ok t =>
      match get_attribute wd button "class" w with
      | Raise x => Raise x
      | Ok cls =>
          if String.eqb (lower (strip t)) "next" then Ok true
          else if str_in "btn-next" (default "" cls) then Ok true
          else
            match el_find_elements wd button (TAG_NAME, "span") w with
            | Raise x => Raise x
            | Ok spans =>
                any_span wd w (fun t => String.eqb (lower (strip t)) "next") spans
            end
      end
  end.

(** [_find_next_button(driver)]. *)
Definition _find_next_button : M W (option elem) :=
  let* by_css :=
    ask (fun w => Ok (resolve_first wd w next_css_accepted
           (map (fun s => (CSS_SELECTOR, s))
                (List.filter (fun s => negb (str_in ":contains" s)) next_css_selectors)))) in
  match by_css with
  | Some button => ret (Some button)
  | None =>
    let* by_xpath := ask (fun w => Ok (resolve_first wd w accept_any
                            (map (fun s => (XPATH, s)) next_xpath_selectors))) in
    match by_xpath with
    | Some button => ret (Some button)
    | None =>
      let* waited :=
        except_timeout
          (let* button := tell (EWaitClickable next_wait_css)
                               (wait_clickable wd next_wait_css) in
           ret (Some button))
          (ret None) in
      match waited with
      | Some button => ret (Some button)
      | None =>
          ask (fun w => Ok (resolve_with wd w next_exact_accepted (TAG_NAME, "button")))
      end
    end
  end.

Definition loading_selector : locator :=
  (CSS_SELECTOR, "[class*='loading'], [class*='spinner']").

(** One round of the click loop of step 9: [true] is a [return True]. *)
Definition try_click_method_9 (button : elem) (click_method : M W unit) : M W bool :=
  try_except
    (do* click_method in
     let* gone :=
       try_except
         (let* shown := ask (is_displayed wd button) in
          ret (negb shown))
         (fun _ => ret true) in
     if gone then ret true
     else
       let* loading_indicators := ask (find_elements wd loading_selector) in
       ask (fun w => any_displayed wd w loading_indicators))
    (fun _ => ret false).

Fixpoint run_click_methods_9 (button : elem) (methods : list (M W unit)) : M W bool :=
  match methods with
  | [] => ret true
  | click_method :: rest =>
      let* worked := try_click_method_9 button click_method in
      if worked then ret true else run_click_methods_9 button rest
  end.

(** [_click_button_safely(driver, button)] of step 9: the click methods
    are those of step 10. *)
Definition _click_button_safely_9 (button : elem) : M W bool :=
  run_click_methods_9 button (click_methods wd button).

(** [step_9_submit_application(driver)].  [_debug_page_state] reads the
    page inside its own [try] and writes a debug file. *)
Definition step_9_submit_application : M W value :=
  try_except
    (let* url := ask (current_url wd) in
     let* next_button := _find_next_button in
     match next_button with
     | Some button =>
         do* tell (EScript js_scroll_center [button])
                  (execute_script wd js_scroll_center [button]) in
         let* success := _click_button_safely_9 button in
         if success
         then
           let* _new_url := ask (current_url wd) in
           ret (VBool true)
         else ret (VBool false)
     | None => ret (VBool false)
     end)
    (fun _ => ret (VBool false)).
End Step9.

(** ** dice_assistant/dice_step_8.py: the click helper *)

Section Step8.
Context {W : Type} (wd : webdriver W).

Definition keys_newline : string := String (ascii_of_nat 10) EmptyString.

(** The four click methods of [_click_element_safely], each in its own
    [try ... except: pass]. *)
Definition click_attempts (element : elem) : list (M W unit) :=
  [ (do* tell (EScript js_click [element]) (execute_script wd js_click [element]) in
     ret tt);
    tell (EClick element) (click wd element);
    tell (EActionClick element) (action_click wd element);
    tell (ESendKeys element keys_newline) (send_keys wd element keys_newline) ].

Fixpoint first_click_that_passes (attempts : list (M W unit)) : M W bool :=
  match attempts with
  | [] => ret false
  | attempt :: rest =>
      let* passed := try_except (do* attempt in ret true) (fun _ => ret false) in
      if passed then ret true else first_click_that_passes rest
  end.

(** [_click_element_safely(driver, element)]. *)
Definition _click_element_safely (element : elem) : M W bool :=
  try_except
    (do* tell (EScript js_scroll_center [element])
              (execute_script wd js_scroll_center [element]) in
     first_click_that_passes (click_attempts element))
    (fun _ => ret false).
End Step8.


(** A program whose first command is [ev], whatever it does next. *)
Definition sends_first {W} (ev : event) {A} (m : M W A) : Prop :=
  forall s, exists extra, trace (m s).2 = (trace s ++ ev :: extra)%list.


(** ** dice_assistant/credentials.py *)

(** A credentials dictionary ([email], [password]) and the dictionaries of
    one user, per platform.  The per-user dictionaries are objects: the
    module-level table and the managers made from it hold references to
    them. *)
Abbreviation credentials := (gmap string string) (only parsing).
Abbreviation platforms := (gmap string (gmap string string)) (only parsing).

Record cred_state : Type := mkCreds {
  objects : gmap nat platforms;            (* the per-user dictionaries *)
  USER_PLATFORM_CREDENTIALS : gmap string nat;
  user_credentials : gmap string nat       (* [self.user_credentials] *)
}.

(** [ENV_CREDENTIAL_MAPPING]: what [os.environ.get] gave for the e-mail and
    the password, per user and platform. *)
Definition env_mapping : Type := list (string * list (string * (option string * option string))).

Definition ENV_CREDENTIAL_MAPPING (environ : string -> option string) : env_mapping :=
  [ ("demo@jobbot.com",
     [ ("dice", (environ "DEMO_DICE_EMAIL", environ "DEMO_DICE_PASSWORD")) ]);
    ("i.test@interview-connect.com",
     [ ("dice", (environ "PREMIUM_DICE_EMAIL", environ "PREMIUM_DICE_PASSWORD")) ]) ].

(** [if creds['email'] and creds['password']]. *)
Definition both_set (creds : option string * option string) : option credentials :=
  match creds with
  | (Some email, Some password) =>
      if truthy_str email && truthy_str password
      then Some (list_to_map [ ("email", email); ("password", password) ])
      else None
  | _ => None
  end.

(** [for platform, creds in platforms.items()] on the dictionary [ref]. *)
Fixpoint override_platforms (ref : nat)
    (overrides : list (string * (option string * option string)))
    (objs : gmap nat platforms) : gmap nat platforms :=
  match overrides with
  | [] => objs
  | (platform, creds) :: rest =>
      override_platforms ref rest
        (match both_set creds with
         | Some c => alter (fun d => <[platform := c]> d) ref objs
         | None => objs
         end)
  end.

(** [_apply_environment_overrides()]. *)
Fixpoint _apply_environment_overrides (mapping : env_mapping) (c : cred_state)
  : cred_state :=
  match mapping with
  | [] => c
  | (user_email, overrides) :: rest =>
      _apply_environment_overrides rest
        (match user_credentials c !! user_email with
         | Some ref =>
             mkCreds (override_platforms ref overrides (objects c))
                     (USER_PLATFORM_CREDENTIALS c) (user_credentials c)
         | None => c
         end)
  end.

(** [CredentialsManager.__init__]: [USER_PLATFORM_CREDENTIALS.copy()] copies
    the table of references, not the dictionaries. *)
Definition CredentialsManager (mapping : env_mapping) (c : cred_state) : cred_state :=
  _apply_environment_overrides mapping
    (mkCreds (objects c) (USER_PLATFORM_CREDENTIALS c) (USER_PLATFORM_CREDENTIALS c)).

(** The lookup of [get_platform_credentials], in a table of references. *)
Definition lookup_credentials (objs : gmap nat platforms) (table : gmap string nat)
    (user_email platform : string) : res (option (string * string)) :=
  match table !! user_email with
  | None => Ok None
  | Some ref =>
      match objs !! ref with
      | None => Ok None
      | Some user_platforms =>
          match user_platforms !! platform with
          | None => Ok None
          | Some creds =>
              match creds !! "email", creds !! "password" with
              | Some email, Some password => Ok (Some (email, password))
              | _, _ => Raise KeyError
              end
          end
      end
  end.

(** [get_platform_credentials(user_email, platform)]. *)
Definition get_platform_credentials (c : cred_state) (user_email platform : string)
  : res (option (string * string)) :=
  lookup_credentials (objects c) (user_credentials c) user_email platform.

(** [add_user_credentials(user_email, platform_credentials)]: the
    dictionary passed in becomes the user's, a new object. *)
Definition add_user_credentials (user_email : string) (platform_credentials : platforms)
    (c : cred_state) : cred_state :=
  let ref : nat := stdpp.base.fresh (dom (objects c)) in
  mkCreds (<[ref := platform_credentials]> (objects c))
          (USER_PLATFORM_CREDENTIALS c)
          (<[user_email := ref]> (user_credentials c)).

(** [get_supported_platforms(user_email)], as a set. *)
Definition get_supported_platforms (c : cred_state) (user_email : string) : gset string :=
  match user_credentials c !! user_email with
  | None => ∅
  | Some ref => match objects c !! ref with Some d => dom d | None => ∅ end
  end.

(** [validate_user_access(user_email, platform)]. *)
Definition validate_user_access (c : cred_state) (user_email platform : string)
  : res bool :=
  match get_platform_credentials c user_email platform with
  | Ok found => Ok (bool_decide (is_Some found))
  | Raise e => Raise e
  end.

(** Every reference of the two tables has its dictionary. *)
Definition well_formed (c : cred_state) : Prop :=
  (forall u ref, USER_PLATFORM_CREDENTIALS c !! u = Some ref -> is_Some (objects c !! ref))
  /\ (forall u ref, user_credentials c !! u = Some ref -> is_Some (objects c !! ref)).

(** A module table with one user, who has Dice credentials. *)
Definition demo_credentials : cred_state :=
  mkCreds {[ 0%nat := {[ "dice" := list_to_map [ ("email", "demo.user@dice.com");
                                                 ("password", "secret") ] ]} ]}
          {[ "demo@jobbot.com" := 0%nat ]} ∅.

Definition demo_environ (name : string) : option string :=
  if String.eqb name "DEMO_DICE_EMAIL" then Some "prod.user@dice.com"
  else if String.eqb name "DEMO_DICE_PASSWORD" then Some "other"
  else None.

(** ** job_board_assistant/website_automation/aps_automation.py: submission *)

(** The scripts [_submit_form] sends.  The longer ones are multi-line
    texts in the source; each is given by its operative statements. *)
Definition js_trigger_validation : string :=
  "var form = document.getElementById('gform_55'); if (form) { form.querySelectorAll('input, textarea, select').forEach(function(input) { input.dispatchEvent(new Event('change', { bubbles: true })); }); }".
Definition js_scroll_bottom : string := "window.scrollTo(0, document.body.scrollHeight)".
Definition js_enable_button : string :=
  "var btn = arguments[0]; btn.disabled = false; btn.classList.remove('disabled'); btn.removeAttribute('disabled');".
Definition js_gform_submit : string :=
  "window['gf_submitting_55'] = false; var form = document.getElementById('gform_55'); if (typeof gform !== 'undefined' && gform.submission) { gform.submission.handleButtonClick(arguments[0]); } else { jQuery(form).trigger('submit', [true]); }".
Definition js_form_submit : string :=
  "var form = document.getElementById('gform_55'); if (form) { if (typeof jQuery !== 'undefined') { jQuery(form).submit(); } else { form.submit(); } }".
Definition js_ajax_complete : string :=
  "return typeof window['gf_submitting_55'] === 'undefined' || window['gf_submitting_55'] === false;".

Definition submit_button_55 : locator := (ID, "gform_submit_button_55").

Definition aps_confirmation_selectors : list string :=
  [ ".gform_confirmation_message"; "#gform_confirmation_message_55";
    ".gform_confirmation_wrapper"; "[id^='gform_confirmation_']" ].

Definition aps_success_indicators : list string :=
  [ "thank you"; "thanks"; "success"; "received"; "submitted"; "confirmation";
    "we'll be in touch"; "application received"; "appreciate your interest" ].

(** The two answers of [submit_application]'s handlers. *)
Definition aps_error (e : exn) : bool * string :=
  match e with
  | TimeoutException => (false, "Timeout: Page took too long to load or respond")
  | _ => (false, "Error: " ++ exn_msg e)
  end.

(** [job_board.get('site_url', job_board.get('url',
    job_board.get('website_url')))]. *)
Definition aps_base_url (job_board : gmap string string) : option string :=
  match job_board !! "site_url" with
  | Some url => Some url
  | None =>
      match job_board !! "url" with
      | Some url => Some url
      | None => job_board !! "website_url"
      end
  end.

Section APSSubmit.
Context {W : Type} (wd : webdriver W).
Variable path_exists : string -> bool.
Variable abspath : string -> string.

(** [_trigger_form_validation()]. *)
Definition _trigger_form_validation : M W unit :=
  try_except
    (do* tell (EScript js_trigger_validation [])
              (execute_script wd js_trigger_validation []) in
     ret tt)
    (fun _ => ret tt).

(** [for selector in confirmation_selectors: elements = find_elements(...);
    if elements and elements[0].is_displayed(): return True]. *)
Fixpoint confirmation_element_shown (selectors : list string) : M W bool :=
  match selectors with
  | [] => ret false
  | selector :: rest =>
      let* elements := ask (find_elements wd (CSS_SELECTOR, selector)) in
      match elements with
      | [] => confirmation_element_shown rest
      | first :: _ =>
          let* shown := ask (is_displayed wd first) in
          if shown then ret true else confirmation_element_shown rest
      end
  end.

(** The body of the inner [try] of [_check_submission_success]: the form,
    its wrapper, and whether the wrapper's HTML speaks of a confirmation.
    [get_attribute] giving [None] makes [.lower()] raise. *)
Definition form_shows_confirmation : M W bool :=
  let* form := ask (find_element wd (ID, "gform_55")) in
  let* wrapper := ask (find_element wd (ID, "gform_wrapper_55")) in
  let* inner := ask (get_attribute wd wrapper "innerHTML") in
  match inner with
  | None => raise AttributeError
  | Some html =>
      let wrapper_html := lower html in
      ret (str_in "confirmation" wrapper_html || str_in "thank you" wrapper_html)
  end.

(** [_check_submission_success()]. *)
Definition _check_submission_success : M W bool :=
  try_except
    (let* shown := confirmation_element_shown aps_confirmation_selectors in
     if shown then ret true
     else
       let* source := ask (page_source wd) in
       if any_in aps_success_indicators (lower source) then ret true
       else try_except form_shows_confirmation (fun _ => ret true))
    (fun _ => ret false).

(** Method 1 of [_submit_form] and, when it raises, method 2: the value
    [submit_clicked] ends with. *)
Definition click_submit : M W bool :=
  try_except
    (let* submit_button := tell (EWaitClickable submit_button_55)
                                (wait_clickable wd submit_button_55) in
     do* tell (EScript js_enable_button [submit_button])
              (execute_script wd js_enable_button [submit_button]) in
     do* tell (EScript js_gform_submit [submit_button])
              (execute_script wd js_gform_submit [submit_button]) in
     ret true)
    (fun _ =>
       try_except
         (do* tell (EScript js_form_submit []) (execute_script wd js_form_submit []) in
          ret true)
         (fun _ => ret false)).

(** [_submit_form(wait)]. *)
Definition _submit_form : M W bool :=
  try_except
    (do* _trigger_form_validation in
     do* tell (EScript js_scroll_bottom []) (execute_script wd js_scroll_bottom []) in
     let* submit_clicked := click_submit in
     if negb submit_clicked then ret false
     else
       let* ajax_complete := tell (EScript js_ajax_complete [])
                                  (execute_script wd js_ajax_complete []) in
       _check_submission_success)
    (fun _ => ret false).

(** [stop_check_callback and stop_check_callback()]: the callback, when
    there is one, is given by what its calls return, numbered in the order
    [submit_application] makes them. *)
Definition stop_call (stop_check_callback : option (nat -> res bool)) (n : nat)
  : option (res bool) :=
  match stop_check_callback with
  | Some calls => Some (calls n)
  | None => None
  end.

Definition stop_requested (stop_check_callback : option (nat -> res bool)) (n : nat)
  : M W bool :=
  match stop_call stop_check_callback n with
  | Some called => lift called
  | None => ret false
  end.

(** [submit_application] from the first stop check to the last [return]
    of its [try]. *)
Definition submit_steps (base_url : string) (job_board user_profile : gmap string string)
    (stop_check_callback : option (nat -> res bool)) : M W (bool * string) :=
  let* stopped := stop_requested stop_check_callback 0 in
  if stopped then ret (false, "Process stopped by user")
  else
    do* tell (EGet base_url) (get wd base_url) in
    let* success := _fill_job_candidate_form wd path_exists abspath user_profile job_board
                      (stop_call stop_check_callback 1) in
    if negb success then ret (false, "Failed to fill job candidate form")
    else
      let* stopped := stop_requested stop_check_callback 2 in
      if stopped then ret (false, "Process stopped by user")
      else
        let* submitted := _submit_form in
        if submitted then ret (true, "Application submitted successfully to APS")
        else ret (false, "Failed to submit application form").

(** [submit_application(job_board, user_profile, stop_check_callback)] on
    a new [APSAutomation] ([self.driver] is [None] until [_create_driver]
    returns).  [create_driver] is what [_create_driver] gives; the answer
    comes with the driver's last state when there was one, after the
    [finally] clause has quit it. *)
Definition submit_application (create_driver : res (st W))
    (job_board user_profile : gmap string string)
    (stop_check_callback : option (nat -> res bool))
  : (bool * string) * option (st W) :=
  match aps_base_url job_board with
  | None => ((false, "No URL provided for job board"), None)
  | Some base_url =>
      if negb (truthy_str base_url)
      then ((false, "No URL provided for job board"), None)
      else
        match create_driver with
        | Raise e => (aps_error e, None)
        | Ok s0 =>
            match submit_steps base_url job_board user_profile stop_check_callback s0 with
            | (Ok answer, s1) => (answer, Some (quit_quietly wd s1).2)
            | (Raise e, s1) => (aps_error e, Some (quit_quietly wd s1).2)
            end
        end
  end.
End APSSubmit.

(** The candidate form as the APS site serves it, without a submit button
    and without the wrapper element; nothing on the site confirms
    anything. *)
Definition aps_form_url : string := "https://www.apstemps.com/job-candidate-form/".

Definition aps_form_site : sim :=
  mkSim "about:blank"
        (fun url =>
           if String.eqb url aps_form_url
           then [ form_input (ID, "gform_55") "";
                  form_input (ID, "input_55_1_3") "Ada";
                  form_input (ID, "input_55_1_6") "Lovelace";
                  form_input (ID, "input_55_2") "ada@example.com";
                  form_input (ID, "input_55_3") "555-0100" ]
           else [])
        (fun _ => "<form id='gform_55'></form>") [].

Definition aps_job_board : gmap string string :=
  list_to_map [ ("site_name", "Automation Personnel Services"); ("url", aps_form_url) ].

(** No event at all: [logs no_event m] says that [m] sends no command. *)
Definition no_event (ev : event) : Prop := False.

(** The two scripts that submit the form, with their arguments. *)
Definition submit_script (script : string) (args : list elem) : Prop :=
  (script = js_gform_submit /\ exists submit_button, args = [submit_button])
  \/ (script = js_form_submit /\ args = []).

(** * Properties *)

(** ** Sorting *)

Section SortingFacts.
Context {A K : Type} (le : K -> K -> bool) (key : A -> K).
Hypothesis le_total : forall a b, le a b = false -> le b a = true.
Hypothesis le_trans : forall a b c, le a b = true -> le b c = true -> le a c = true.

Lemma insert_by_perm x l : insert_by le key x l ≡ₚ x :: l.
Proof.
  induction l as [|y l IH]; simpl; [done|].
  destruct (le (key x) (key y)); [done|].
  rewrite IH. apply perm_swap.
Qed.

Lemma sort_by_perm l : sort_by le key l ≡ₚ l.
Proof.
  induction l as [|x l IH]; simpl; [done|].
  by rewrite insert_by_perm, IH.
Qed.

Let ordered (a b : A) : Prop := le (key a) (key b) = true.

Lemma insert_by_sorted x l :
  StronglySorted ordered l -> StronglySorted ordered (insert_by le key x l).
Proof.
  induction 1 as [|y l Hs IH Hy]; simpl.
  - repeat constructor.
  - destruct (le (key x) (key y)) eqn:E.
    + constructor; [by constructor|].
      constructor; [exact E|].
      eapply Forall_impl; [exact Hy|].
      intros z Hz. unfold ordered in *. eauto.
    + constructor; [exact IH|].
      rewrite insert_by_perm. constructor; [|exact Hy].
      unfold ordered. by apply le_total.
Qed.

Lemma sort_by_sorted l : StronglySorted ordered (sort_by le key l).
Proof.
  induction l as [|x l IH]; simpl; [constructor|].
  by apply insert_by_sorted.
Qed.
End SortingFacts.

Lemma yx_le_total a b : yx_le a b = false -> yx_le b a = true.
Proof. unfold yx_le. destruct a, b; simpl. lia. Qed.

Lemma yx_le_trans a b c : yx_le a b = true -> yx_le b c = true -> yx_le a c = true.
Proof. unfold yx_le. destruct a, b, c; simpl. lia. Qed.

(** ** The catalog *)

Lemma all_ok_length {A B} (f : A -> res B) l ys :
  all_ok f l = Ok ys -> length ys = length l.
Proof.
  revert ys. induction l as [|x l IH]; simpl; intros ys H.
  - by inversion H.
  - destruct (f x); [|done]. destruct (all_ok f l); [|done].
    inversion H; subst. simpl. f_equal. by apply IH.
Qed.

Lemma all_ok_zip {A B} (f : A -> res B) l ys :
  all_ok f l = Ok ys -> Forall (fun p => f p.1 = Ok p.2) (zip l ys).
Proof.
  revert ys. induction l as [|x l IH]; simpl; intros ys H.
  - inversion H. constructor.
  - destruct (f x) eqn:E; [|done]. destruct (all_ok f l); [|done].
    inversion H; subst. simpl. constructor; [done|]. by apply IH.
Qed.

Lemma all_ok_of_pairs {A B} (f : A -> res B) (ps : list (A * B)) :
  Forall (fun p => f p.1 = Ok p.2) ps -> all_ok f ps.*1 = Ok ps.*2.
Proof.
  induction 1 as [|p ps Hp _ IH]; [done|].
  rewrite !fmap_cons. cbn [all_ok]. by rewrite Hp, IH.
Qed.

Section CatalogFacts.
Context {W : Type} (wd : webdriver W) (w : W).

#[local] Abbreviation vlh := (visible_listing_href wd w).

Lemma consider_element_spec acc e :
  consider_element wd w acc e =
  match vlh e with
  | Some h => if bool_decide (h ∈ acc.2) then acc
              else ((acc.1 ++ [e])%list, {[h]} ∪ acc.2)
  | None => acc
  end.
Proof.
  unfold consider_element, visible_listing_href.
  destruct (is_displayed wd e w) as [[|]|]; try done.
  destruct (get_attribute wd e "href" w) as [[h|]|]; try done.
  destruct (truthy_str h && str_in "/job-detail/" h); simpl; [|done].
  by destruct (bool_decide (h ∈ acc.2)).
Qed.

Lemma collected_start : collected wd w ([], ∅) [].
Proof. repeat split; simpl; try done; constructor. Qed.

Lemma collected_step acc met e :
  collected wd w acc met -> collected wd w (consider_element wd w acc e) (met ++ [e]).
Proof.
  destruct acc as [els seen]. unfold collected.
  rewrite consider_element_spec. cbn [fst snd].
  intros (Hsome & Hnd & Hseen & Hmet).
  rewrite omap_app, list_to_set_app_L, <- Hmet.
  destruct (vlh e) as [h|] eqn:Eh; cbn [omap list_omap fst snd].
  - rewrite Eh. case_bool_decide as Hin; cbn [fst snd].
    + repeat split; try done. set_solver.
    + rewrite omap_app, list_to_set_app_L, <- Hseen.
      cbn [omap list_omap]. rewrite Eh.
      repeat split; [| |set_solver|set_solver].
      * apply Forall_app; split; [done|]. repeat constructor. by rewrite Eh.
      * apply NoDup_app; repeat split; [done| |apply NoDup_singleton].
        intros x Hx ->%list_elem_of_singleton. apply Hin.
        rewrite Hseen. by apply elem_of_list_to_set.
  - rewrite Eh. repeat split; try done. set_solver.
Qed.

Lemma collected_elements els acc met :
  collected wd w acc met ->
  collected wd w (fold_left (consider_element wd w) els acc) (met ++ els).
Proof.
  revert acc met. induction els as [|e els IH]; simpl; intros acc met H.
  - by rewrite app_nil_r.
  - replace (met ++ e :: els)%list with ((met ++ [e]) ++ els)%list
      by (by rewrite <- app_assoc).
    apply IH. by apply collected_step.
Qed.

Lemma consider_selector_spec acc selector :
  consider_selector wd w acc selector
  = fold_left (consider_element wd w) (selected wd w selector) acc.
Proof.
  unfold consider_selector, selected.
  by destruct (find_elements wd (CSS_SELECTOR, selector) w).
Qed.

Lemma collected_selectors sels acc met :
  collected wd w acc met ->
  collected wd w (fold_left (consider_selector wd w) sels acc)
            (met ++ concat (map (selected wd w) sels)).
Proof.
  revert acc met. induction sels as [|sel sels IH]; simpl; intros acc met H.
  - by rewrite app_nil_r.
  - rewrite app_assoc. apply IH. rewrite consider_selector_spec.
    by apply collected_elements.
Qed.

Lemma collect_collected :
  collected wd w (collect_job_elements wd w) (concat (map (selected wd w) job_card_selectors)).
Proof. apply (collected_selectors job_card_selectors _ []), collected_start. Qed.

Lemma sort_by_position_perm l : sort_by_position wd w l ≡ₚ l.
Proof.
  unfold sort_by_position.
  destruct (all_ok (position_key wd w) l) as [keys|] eqn:E; [|done].
  rewrite sort_by_perm, fst_zip; [done|].
  apply all_ok_length in E. lia.
Qed.

Lemma sort_by_position_sorted l :
  is_ok (all_ok (position_key wd w) l) = true ->
  sorted_by_position wd w (sort_by_position wd w l).
Proof.
  unfold sort_by_position, sorted_by_position.
  destruct (all_ok (position_key wd w) l) as [keys|] eqn:E; [intros _|done].
  exists (sort_by yx_le snd (zip l keys)).*2. split.
  - apply all_ok_of_pairs.
    rewrite sort_by_perm. by apply all_ok_zip.
  - pose proof (sort_by_sorted yx_le (@snd elem (Z * Z)) yx_le_total yx_le_trans
                  (zip l keys)) as Hs.
    induction Hs as [|p ps _ IH Hp]; simpl; constructor; [done|].
    by apply Forall_fmap.
Qed.
End CatalogFacts.

Lemma list_to_set_omap_ext {A} (f : A -> option string) (l1 l2 : list A) :
  (forall x, x ∈ l1 <-> x ∈ l2) ->
  (list_to_set (omap f l1) : gset string) = list_to_set (omap f l2).
Proof.
  intros H. apply set_eq. intros h.
  rewrite !elem_of_list_to_set, !list_elem_of_omap.
  split; intros (x & Hx & Hf); exists x; split; try done; by apply H.
Qed.

Lemma omap_all_some {A B} (f : A -> option B) (l : list A) :
  Forall (fun x => is_Some (f x)) l -> length (omap f l) = length l.
Proof.
  induction 1 as [|x l [y Hy] _ IH]; [done|].
  cbn [omap list_omap]. rewrite Hy. cbn [length]. by f_equal.
Qed.

(** C1, as the code has it.  On a page whose generic selector returns
    [links] and whose other selectors return elements among these, the
    catalog holds one entry per distinct href among the listing links that
    are displayed: its length is the number of such hrefs, no href is taken
    twice however many selectors match its element, and when every position
    can be read the entries are in top-to-bottom, left-to-right order. *)
Theorem catalog_counts_visible_hrefs {W} (wd : webdriver W) (w : W) (links : list elem) :
  find_elements wd (CSS_SELECTOR, generic_job_selector) w = Ok links ->
  (forall selector els e,
      selector ∈ job_card_selectors ->
      find_elements wd (CSS_SELECTOR, selector) w = Ok els ->
      e ∈ els -> e ∈ links) ->
  let catalog := _find_all_job_elements wd w in
  length catalog = size (visible_listing_hrefs wd w links)
  /\ NoDup (omap (visible_listing_href wd w) catalog)
  /\ Forall (fun e => is_Some (visible_listing_href wd w e)) catalog
  /\ (is_ok (all_ok (position_key wd w) (collect_job_elements wd w).1) = true ->
      sorted_by_position wd w catalog).
Proof.
  intros Hgen Hsub catalog.
  destruct (collect_collected wd w) as (Hsome & Hnd & Hseen & Hmet).
  assert (Hperm : catalog ≡ₚ (collect_job_elements wd w).1)
    by apply sort_by_position_perm.
  assert (Hsame : forall x, x ∈ concat (map (selected wd w) job_card_selectors)
                            <-> x ∈ links).
  { intros x. split.
    - intros Hx. apply list_elem_of_In, in_concat in Hx as (els & Hels & Hx).
      apply in_map_iff in Hels as (sel & <- & Hsel).
      unfold selected in Hx.
      destruct (find_elements wd (CSS_SELECTOR, sel) w) as [els|] eqn:E.
      + eapply Hsub; [|exact E|]; by apply list_elem_of_In.
      + by destruct Hx.
    - intros Hx. apply list_elem_of_In, in_concat.
      exists links. split; [|by apply list_elem_of_In].
      apply in_map_iff. exists generic_job_selector. split.
      + unfold selected. by rewrite Hgen.
      + unfold job_card_selectors, generic_job_selector. simpl. tauto. }
  repeat split.
  - rewrite Hperm. unfold visible_listing_hrefs.
    rewrite <- (list_to_set_omap_ext _ _ _ Hsame), <- Hmet, Hseen.
    rewrite size_list_to_set by done. symmetry. by apply omap_all_some.
  - eapply NoDup_Permutation_proper; [|exact Hnd].
    by apply omap_Permutation.
  - by rewrite Hperm.
  - intros Hkeys. by apply sort_by_position_sorted.
Qed.

Lemma sim_selects_nodes l w e :
  e ∈ select_from l 0 (sim_dom w) -> (e < length (sim_dom w))%nat.
Proof.
  assert (G : forall nodes i, e ∈ select_from l i nodes -> (e < i + length nodes)%nat).
  { induction nodes as [|n nodes IH]; simpl; intros i H.
    - by apply elem_of_nil in H.
    - case_bool_decide.
      + apply elem_of_cons in H as [->|H]; [lia|]. apply IH in H. lia.
      + apply IH in H. lia. }
  intros H. by apply G in H.
Qed.

Lemma catalog_counts_visible_hrefs_witness :
  find_elements sim_wd (CSS_SELECTOR, generic_job_selector) three_listings_page
    = Ok [0; 1; 2; 3]%nat
  /\ length (_find_all_job_elements sim_wd three_listings_page)
     = size (visible_listing_hrefs sim_wd three_listings_page [0; 1; 2; 3]%nat).
Proof.
  split; [reflexivity|].
  apply (catalog_counts_visible_hrefs sim_wd three_listings_page [0; 1; 2; 3]%nat).
  - reflexivity.
  - intros selector els e _ Hfind He.
    change (Ok (select_from (CSS_SELECTOR, selector) 0 (sim_dom three_listings_page))
            = Ok els) in Hfind.
    assert (els = select_from (CSS_SELECTOR, selector) 0 (sim_dom three_listings_page))
      as -> by congruence.
    apply sim_selects_nodes in He.
    change (length (sim_dom three_listings_page)) with 4%nat in He.
    destruct e as [|[|[|[|e]]]]; [set_solver..|lia].
Defined.

(** The catalog of the three-listing page: the repeated href is dropped and
    the entries come out top to bottom. *)
Example catalog_of_three_listings :
  _find_all_job_elements sim_wd three_listings_page = [1; 3; 0]%nat.
Proof. vm_compute. reflexivity. Qed.

(** C1, as stated, fails: a page whose DOM holds one listing link, hidden,
    has one distinct [/job-detail/] href and an empty catalog. *)
Lemma catalog_skips_hidden_link :
  find_elements sim_wd (CSS_SELECTOR, generic_job_selector) hidden_listing_page
    = Ok [0%nat]
  /\ listing_hrefs sim_wd hidden_listing_page [0%nat] = {[ job_url "1" ]}
  /\ size (listing_hrefs sim_wd hidden_listing_page [0%nat]) = 1%nat
  /\ length (_find_all_job_elements sim_wd hidden_listing_page) = 0%nat.
Proof.
  assert (H : listing_hrefs sim_wd hidden_listing_page [0%nat] = {[ job_url "1" ]}).
  { unfold listing_hrefs. cbn. set_solver. }
  split; [reflexivity|]. split; [exact H|].
  split; [rewrite H; apply size_singleton | by vm_compute].
Qed.

(** ** Selecting an entry (step 4) *)

Lemma step4_failure_fields job_index error :
  exists d, step4_failure job_index error = VDict d
    /\ d !! "success" = Some (VBool false)
    /\ d !! "job_index" = Some (VInt job_index)
    /\ d !! "error" = Some (VStr error)
    /\ dom d = {[ "success"; "job_index"; "error" ]}.
Proof.
  eexists. split; [reflexivity|]. unfold dict_of. simpl.
  split; [by simplify_map_eq|]. split; [by simplify_map_eq|].
  split; [by simplify_map_eq|].
  rewrite !dom_insert_L, dom_empty_L. set_solver.
Qed.

(** C10.  An index at or beyond the number of job elements found on the page
    (none included) makes [step_4_apply_to_job_index] return the failure
    dictionary [{success: False, job_index, error}]; nothing is raised and
    the driver is left as it was: no command, hence no click, was sent. *)
Theorem step_4_rejects_out_of_range {W} (wd : webdriver W) (job_index : Z) (s : st W) :
  (Z.of_nat (length (_find_all_job_elements wd (world s))) <= job_index)%Z ->
  exists error d,
    step_4_apply_to_job_index wd job_index s = (Ok (VDict d), s)
    /\ d !! "success" = Some (VBool false)
    /\ d !! "job_index" = Some (VInt job_index)
    /\ d !! "error" = Some (VStr error)
    /\ dom d = {[ "success"; "job_index"; "error" ]}.
Proof.
  intros Hrange.
  assert (G : exists error,
    step_4_apply_to_job_index wd job_index s = (Ok (step4_failure job_index error), s)).
  { unfold step_4_apply_to_job_index, try_except, bind, ask, ret.
    destruct (current_window_handle wd (world s)); [|eauto].
    destruct (window_handles wd (world s)); [|eauto].
    destruct (current_url wd (world s)); [|eauto].
    destruct (_find_all_job_elements wd (world s)) as [|e els]; [eauto|].
    apply Z.leb_le in Hrange. rewrite Hrange. eauto. }
  destruct G as [error G].
  destruct (step4_failure_fields job_index error) as (d & Hd & Hfields).
  exists error, d. by rewrite G, Hd.
Qed.

Lemma step_4_rejects_out_of_range_witness :
  (Z.of_nat (length (_find_all_job_elements sim_wd (world (fresh three_listings_page))))
   <= 3)%Z
  /\ exists error d,
       step_4_apply_to_job_index sim_wd 3 (fresh three_listings_page)
         = (Ok (VDict d), fresh three_listings_page)
       /\ d !! "success" = Some (VBool false)
       /\ d !! "job_index" = Some (VInt 3)
       /\ d !! "error" = Some (VStr error)
       /\ dom d = {[ "success"; "job_index"; "error" ]}.
Proof.
  split; [by vm_compute|].
  apply (step_4_rejects_out_of_range sim_wd 3 (fresh three_listings_page)).
  by vm_compute.
Defined.

(** The message of the rejection on the three-listing page. *)
Example step_4_out_of_range_message :
  (step_4_apply_to_job_index sim_wd 3 (fresh three_listings_page)).1
  = Ok (step4_failure 3 "Requested index 3 but only 3 jobs available").
Proof. vm_compute. reflexivity. Qed.

(** ** The click helpers *)

Section ClickFacts.
Context {W : Type} (wd : webdriver W).

Lemma try_click_method_total button m s :
  exists b, (try_click_method wd button m s).1 = Ok b.
Proof.
  unfold try_click_method, try_except, bind, ask, ret.
  destruct (m s) as [[u|e] s1]; simpl; [|eauto].
  destruct (is_displayed wd button (world s1)); simpl; eauto.
Qed.

Lemma run_click_methods_true button methods s :
  (run_click_methods wd button methods s).1 = Ok true.
Proof.
  revert s. induction methods as [|m methods IH]; intros s; [done|].
  cbn [run_click_methods]. unfold bind.
  destruct (try_click_method_total button m s) as [b Hb].
  destruct (try_click_method wd button m s) as [r s1]. simpl in Hb. subst r.
  destruct b; [done|]. apply IH.
Qed.

Lemma try_click_strategy_total element m s :
  exists b, (try_click_strategy wd element m s).1 = Ok b.
Proof.
  unfold try_click_strategy, try_except, bind, ask, ret.
  destruct (m s) as [[u|e] s1]; simpl; [|eauto].
  destruct (current_url wd (world s1)); simpl; [|eauto].
  destruct (get_attribute wd element "href" (world s1)); simpl; eauto.
Qed.

Lemma run_click_strategies_true element strategies s :
  (run_click_strategies wd element strategies s).1 = Ok true.
Proof.
  revert s. induction strategies as [|m strategies IH]; intros s; [done|].
  cbn [run_click_strategies]. unfold bind.
  destruct (try_click_strategy_total element m s) as [b Hb].
  destruct (try_click_strategy wd element m s) as [r s1]. simpl in Hb. subst r.
  destruct b; [done|]. apply IH.
Qed.

Lemma click_job_element_result element s :
  (_click_job_element wd element s).1
  = Ok (is_ok (execute_script wd js_scroll_center [element] (world s)).1).
Proof.
  unfold _click_job_element, try_except at 1. unfold bind at 1. unfold tell at 1.
  destruct (execute_script wd js_scroll_center [element] (world s)) as [[v|e] w1];
    cbn [fst snd is_ok]; [|reflexivity].
  unfold bind.
  match goal with
  | |- context [try_except ?m ?h ?s0] => destruct (try_except m h s0) as [[u|e] s2] eqn:E
  end.
  - pose proof (run_click_strategies_true element (click_strategies wd element) s2) as H.
    destruct (run_click_strategies wd element (click_strategies wd element) s2)
      as [r s3]. simpl in H. by subst r.
  - exfalso. revert E. unfold try_except, bind, tell, ret. simpl.
    repeat match goal with
           | |- context [execute_script wd ?a ?b ?c] =>
               destruct (execute_script wd a b c) as [[?|?] ?]; simpl
           end; congruence.
Qed.
End ClickFacts.

(** C8.  Both click helpers report success once their strategies are used
    up, confirmed or not, strategies that raised included:
    [_click_button_safely] returns [True] from every state, and so does the
    strategy loop of [_click_job_element]; [_click_job_element] as a whole
    returns [True] exactly when the scroll before the loop did not raise. *)
Theorem click_helpers_assume_success {W} (wd : webdriver W) (e : elem) (s : st W) :
  (_click_button_safely wd e s).1 = Ok true
  /\ (run_click_strategies wd e (click_strategies wd e) s).1 = Ok true
  /\ (_click_job_element wd e s).1
     = Ok (is_ok (execute_script wd js_scroll_center [e] (world s)).1).
Proof.
  split; [apply run_click_methods_true|].
  split; [apply run_click_strategies_true|apply click_job_element_result].
Qed.

(** Every method raises: four attempts are logged (the last one stops at its
    [focus] script) and the answer is still [True]. *)
Example click_button_on_dead_browser :
  _click_button_safely dead_wd 0%nat (fresh tt)
  = (Ok true,
     mkSt tt None [ EScript js_click [0%nat]; EScript js_dispatch_click [0%nat];
                    EClick 0%nat; EScript js_focus [0%nat] ]).
Proof. vm_compute. reflexivity. Qed.

(** The button stays in view after every method: no confirmation, [True]. *)
Example click_stubborn_button :
  (_click_button_safely sim_wd 0%nat (fresh stubborn_page)).1 = Ok true
  /\ length (trace (_click_button_safely sim_wd 0%nat (fresh stubborn_page)).2) = 5%nat.
Proof. vm_compute. split; reflexivity. Qed.

(** The same for the job link once the scroll went through: every
    strategy leaves the URL equal to the link's href, and the helper
    answers [True]. *)
Example click_job_unconfirmed :
  let w := site_with [ mkNode [] (Some results_url) None "" None (Ok true) (Ok true)
                              (Ok (0, 0)%Z) None ] in
  (_click_job_element sim_wd 0%nat (fresh w)).1 = Ok true.
Proof. vm_compute. reflexivity. Qed.

(** ** Reasoning about driver programs *)

Section MonadFacts.
Context {W : Type}.

Lemma total_ret {A} (a : A) : total (W:=W) (ret a).
Proof. intros s. by exists a. Qed.

Lemma total_try_except {A} (m : M W A) h :
  (forall e, total (h e)) -> total (try_except m h).
Proof.
  intros Hh s. unfold try_except.
  destruct (m s) as [[a|e] s1]; [by exists a|apply Hh].
Qed.

Lemma total_bind {A B} (m : M W A) (k : A -> M W B) :
  total m -> (forall a, total (k a)) -> total (bind m k).
Proof.
  intros Hm Hk s. unfold bind. destruct (Hm s) as [a Ha].
  destruct (m s) as [r s1]. simpl in Ha. subst r. apply Hk.
Qed.

Lemma logs_ret P {A} (a : A) : logs (W:=W) P (ret a).
Proof. intros s. exists []. by rewrite app_nil_r. Qed.

Lemma logs_raise P {A} e : logs (W:=W) P (raise (A:=A) e).
Proof. intros s. exists []. by rewrite app_nil_r. Qed.

Lemma logs_ask P {A} (q : W -> res A) : logs P (ask q).
Proof. intros s. exists []. by rewrite app_nil_r. Qed.

Lemma logs_lift P {A} (r : res A) : logs (W:=W) P (lift r).
Proof. intros s. exists []. by rewrite app_nil_r. Qed.

Lemma logs_tell (P : event -> Prop) {A} ev (c : W -> res A * W) :
  P ev -> logs P (tell ev c).
Proof.
  intros Hev s. exists [ev]. unfold tell.
  destruct (c (world s)) as [r w1]. simpl. split; [done|by constructor].
Qed.

Lemma logs_bind P {A B} (m : M W A) (k : A -> M W B) :
  logs P m -> (forall a, logs P (k a)) -> logs P (bind m k).
Proof.
  intros Hm Hk s. unfold bind. destruct (Hm s) as (x1 & H1 & P1).
  destruct (m s) as [[a|e] s1]; simpl in *.
  - destruct (Hk a s1) as (x2 & H2 & P2). exists (x1 ++ x2)%list.
    rewrite H2, H1, app_assoc. split; [done|by apply Forall_app].
  - by exists x1.
Qed.

Lemma logs_try_except P {A} (m : M W A) h :
  logs P m -> (forall e, logs P (h e)) -> logs P (try_except m h).
Proof.
  intros Hm Hh s. unfold try_except. destruct (Hm s) as (x1 & H1 & P1).
  destruct (m s) as [[a|e] s1]; simpl in *.
  - by exists x1.
  - destruct (Hh e s1) as (x2 & H2 & P2). exists (x1 ++ x2)%list.
    rewrite H2, H1, app_assoc. split; [done|by apply Forall_app].
Qed.

End MonadFacts.

Lemma navigations_app a b : navigations (a ++ b) = (navigations a ++ navigations b)%list.
Proof. apply omap_app. Qed.

Lemma navigations_not_get extra : Forall not_get extra -> navigations extra = [].
Proof.
  induction 1 as [|ev extra Hev _ IH]; [done|].
  unfold navigations in *. cbn [omap list_omap]. by destruct ev.
Qed.

(** ** The tier cascade *)

Section TierFacts.
Context {W : Type} (wd : webdriver W).
Variable current_job_title : string.
Variable current_location : option string.

#[local] Abbreviation t1_url := (tier1_url current_job_title current_location).
#[local] Abbreviation tier1 := (_tier1_optimization wd current_job_title current_location).
#[local] Abbreviation tier2 := (_tier2_fallback wd current_job_title).
#[local] Abbreviation tier3 := (_tier3_full_fallback wd).

Lemma tier1_trace s :
  exists b, (tier1 s).1 = Ok b /\ trace (tier1 s).2 = (trace s ++ [EGet t1_url])%list.
Proof.
  unfold _tier1_optimization, try_except, bind, tell, ask, ret.
  destruct (get wd t1_url (world s)) as [[u|e] w1]; simpl; eauto.
Qed.

Lemma manual_search_total title : total (_manual_search wd title).
Proof. apply total_try_except. intros _. apply total_ret. Qed.

Lemma manual_search_logs title : logs not_get (_manual_search wd title).
Proof.
  apply logs_try_except; [|intros _; apply logs_ret].
  apply logs_bind; [apply logs_ask|]. intros [field|]; [|apply logs_ret].
  repeat (apply logs_bind; [by apply logs_tell|intros _]). apply logs_ret.
Qed.

Lemma tier2_trace s :
  exists b extra, (tier2 s).1 = Ok b
    /\ trace (tier2 s).2 = (trace s ++ EGet tier2_url :: extra)%list
    /\ navigations extra = [].
Proof.
  pose proof (manual_search_total current_job_title) as Htot.
  pose proof (manual_search_logs current_job_title) as Hlog.
  unfold _tier2_fallback.
  set (ms := _manual_search wd current_job_title) in *. clearbody ms.
  unfold try_except, bind, tell.
  destruct (get wd tier2_url (world s)) as [[u|e] w1]; cbn [fst snd].
  - set (s1 := mkSt w1 (original_window s) (trace s ++ [EGet tier2_url])).
    destruct (Htot s1) as [b Hb]. destruct (Hlog s1) as (extra & Ht & Hn).
    destruct (ms s1) as [r s2]. cbn [fst snd] in *. subst r.
    exists b, extra. cbn [fst snd]. rewrite Ht. unfold s1. cbn [trace].
    rewrite <- app_assoc.
    split; [done|split; [done|]]. by apply navigations_not_get.
  - exists false, []. done.
Qed.

Lemma tier3_trace s :
  (tier3 s).1 = Ok false /\ trace (tier3 s).2 = (trace s ++ [EGet tier3_url])%list.
Proof.
  unfold _tier3_full_fallback, try_except, bind, tell, ret.
  destruct (get wd tier3_url (world s)) as [[u|e] w1]; simpl; eauto.
Qed.
End TierFacts.

Section RunFacts.
Context {W : Type} (wd : webdriver W).
Variable step_2_login : string -> M W value.
Variable step_3 : M W value.
Variable step_4 : Z -> M W value.
Variable step_5 : string -> M W value.
Variable step_8 step_9 step_10 : M W value.
Variable title : string.
Variable loc : option string.

#[local] Abbreviation tier1 := (_tier1_optimization wd title loc).
#[local] Abbreviation tier2 := (_tier2_fallback wd title).
#[local] Abbreviation tier3 := (_tier3_full_fallback wd).
#[local] Abbreviation reach := (reach_job_page wd title loc).
#[local] Abbreviation apply_loop :=
  (_apply_to_jobs wd step_3 step_4 step_5 step_8 step_9 step_10 title loc).
#[local] Abbreviation body :=
  (automation_body wd step_2_login step_3 step_4 step_5 step_8 step_9 step_10
     title loc).

Lemma reach_unfold s :
  reach s
  = match tier1 s with
    | (Ok true, s1) => (Ok (Some "Tier 1"), s1)
    | (Ok false, s1) =>
        match tier2 s1 with
        | (Ok true, s2) => (Ok (Some "Tier 2"), s2)
        | (Ok false, s2) =>
            match tier3 s2 with
            | (Ok true, s3) => (Ok (Some "Tier 3"), s3)
            | (Ok false, s3) => (Ok None, s3)
            | (Raise e, s3) => (Raise e, s3)
            end
        | (Raise e, s2) => (Raise e, s2)
        end
    | (Raise e, s1) => (Raise e, s1)
    end.
Proof.
  unfold reach_job_page, bind.
  destruct (tier1 s) as [[[|]|e1] s1]; try done.
  destruct (tier2 s1) as [[[|]|e2] s2]; try done.
  by destruct (tier3 s2) as [[[|]|e3] s3].
Qed.

Lemma body_after_login email s0 lr s :
  truthy_str email = true ->
  step_2_login email s0 = (Ok lr, s) ->
  and_get lr "success" = Ok true ->
  body (Some email) s0
  = match reach s with
    | (Ok (Some tier_used), s') =>
        continue_with wd step_3 step_4 step_5 step_8 step_9 step_10 title loc
          tier_used s'
    | (Ok None, s') => (Ok (failure "Failed to reach job page"), s')
    | (Raise e, s') => (Raise e, s')
    end.
Proof.
  intros Hemail Hlogin Hok. unfold automation_body. rewrite Hemail. cbn [negb].
  unfold bind at 1. rewrite Hlogin. unfold bind at 1, lift at 1. rewrite Hok.
  cbn [negb]. unfold bind at 1.
  destruct (reach s) as [[[tier|]|e] s']; done.
Qed.
End RunFacts.

(** C4.  After a successful login the tiers are tried in order and the
    cascade stops at the first that gets through: the navigations logged are
    the Tier 1 URL alone when Tier 1 validates, then the Tier 2 URL exactly
    when Tier 1 failed, then the Tier 3 URL exactly when Tier 2 failed too;
    the application loop starts from the state the successful tier left,
    with that tier as [tier_used]; and when all three fail the run returns
    the failure result. *)
Theorem tiers_tried_in_order {W} (wd : webdriver W)
    (step_2_login : string -> M W value) (step_3 : M W value)
    (step_4 : Z -> M W value) (step_5 : string -> M W value)
    (step_8 step_9 step_10 : M W value) (title : string) (loc : option string)
    (email : string) (s0 : st W) (lr : value) (s : st W) :
  truthy_str email = true ->
  step_2_login email s0 = (Ok lr, s) ->
  and_get lr "success" = Ok true ->
  let r1 := _tier1_optimization wd title loc s in
  let r2 := _tier2_fallback wd title r1.2 in
  let r3 := _tier3_full_fallback wd r2.2 in
  let run := automation_body wd step_2_login step_3 step_4 step_5 step_8 step_9
               step_10 title loc (Some email) s0 in
  let continue := continue_with wd step_3 step_4 step_5 step_8 step_9 step_10 title loc in
  (r1.1 = Ok true
   /\ navigations (drop (length (trace s)) (trace r1.2)) = [tier1_url title loc]
   /\ run = continue "Tier 1" r1.2)
  \/ (r1.1 = Ok false /\ r2.1 = Ok true
      /\ navigations (drop (length (trace s)) (trace r2.2))
         = [tier1_url title loc; tier2_url]
      /\ run = continue "Tier 2" r2.2)
  \/ (r1.1 = Ok false /\ r2.1 = Ok false /\ r3.1 = Ok false
      /\ navigations (drop (length (trace s)) (trace r3.2))
         = [tier1_url title loc; tier2_url; tier3_url]
      /\ run = (Ok (failure "Failed to reach job page"), r3.2)).
Proof.
  intros Hemail Hlogin Hok. cbv zeta.
  rewrite (body_after_login wd step_2_login step_3 step_4 step_5 step_8 step_9
             step_10 title loc email s0 lr s Hemail Hlogin Hok), reach_unfold.
  destruct (tier1_trace wd title loc s) as (b1 & H1 & T1).
  destruct (_tier1_optimization wd title loc s) as [x1 s1]. cbn [fst snd] in *.
  subst x1. rewrite T1, drop_app_length.
  destruct b1; [left; done|right].
  destruct (tier2_trace wd title s1) as (b2 & x2 & H2 & T2 & N2).
  destruct (_tier2_fallback wd title s1) as [y2 s2]. cbn [fst snd] in *.
  subst y2. rewrite T2, T1, <- app_assoc, drop_app_length.
  assert (D2 : navigations ([EGet (tier1_url title loc)] ++ EGet tier2_url :: x2)
               = [tier1_url title loc; tier2_url]).
  { cbn [app]. unfold navigations in *. cbn [omap list_omap]. by rewrite N2. }
  destruct b2; [left; done|right].
  destruct (tier3_trace wd s2) as (H3 & T3).
  destruct (_tier3_full_fallback wd s2) as [y3 s3]. cbn [fst snd] in *.
  subst y3. rewrite T3, T2, T1, <- !app_assoc, drop_app_length.
  repeat split; try done.
  rewrite app_assoc, navigations_app, D2. done.
Qed.

Lemma tiers_tried_in_order_witness :
  truthy_str "user@example.com" = true
  /\ (_tier3_full_fallback sim_wd
        (_tier2_fallback sim_wd "Engineer"
           (_tier1_optimization sim_wd "Engineer" None (fresh unreachable_site)).2).2).1
     = Ok false.
Proof.
  split; [reflexivity|].
  destruct (tiers_tried_in_order sim_wd login_ok (step_3_catalog_jobs sim_wd)
              (step_4_apply_to_job_index sim_wd) (step_5_loop_return sim_wd)
              (ret (VBool true)) (ret (VBool true)) (ret confirmed)
              "Engineer" None "user@example.com" (fresh unreachable_site)
              (VDict (dict_of [ ("success", VBool true) ])) (fresh unreachable_site)
              eq_refl eq_refl eq_refl)
    as [(H & _)|[(_ & H & _)|(_ & _ & H & _)]].
  - vm_compute in H. discriminate H.
  - vm_compute in H. discriminate H.
  - exact H.
Defined.

(** No page can be loaded: the three tiers are tried once each, in order,
    and the run fails. *)
Example all_tiers_fail :
  (sim_run "none" unreachable_site).1 = Ok (failure "Failed to reach job page")
  /\ (trace <$> (sim_run "none" unreachable_site).2)
     = Some [ EGet results_url; EGet tier2_url; EGet tier3_url; EQuit ].
Proof. vm_compute. split; reflexivity. Qed.

(** ** The application loop *)

Section LoopFacts.
Context {W : Type} (wd : webdriver W).
Variable step_3 : M W value.
Variable step_4 : Z -> M W value.
Variable step_5 : string -> M W value.
Variable step_8 step_9 step_10 : M W value.
Variable title : string.
Variable loc : option string.

#[local] Abbreviation steps := (apply_steps step_4 step_8 step_9 step_10 title loc).
#[local] Abbreviation went_through := (submitted step_4 step_8 step_9 step_10 title loc).
#[local] Abbreviation one_job :=
  (process_job wd step_4 step_5 step_8 step_9 step_10 title loc).
#[local] Abbreviation all_jobs :=
  (process_jobs wd step_4 step_5 step_8 step_9 step_10 title loc).
#[local] Abbreviation apply_loop :=
  (_apply_to_jobs wd step_3 step_4 step_5 step_8 step_9 step_10 title loc).





Lemma apply_loop_no_jobs s url job_catalog s0 :
  current_url wd (world s) = Ok url ->
  step_3 s = (Ok job_catalog, s0) ->
  truthy job_catalog = false \/ total_is_zero job_catalog = Ok true ->
  apply_loop s = (Ok no_jobs_result, s0).
Proof.
  intros Hurl H3 Hzero. unfold _apply_to_jobs, bind, ask. rewrite Hurl, H3.
  destruct (truthy job_catalog); [|done]. cbn [negb].
  destruct Hzero as [Hz | Hz]; [done|]. by rewrite Hz.
Qed.
End LoopFacts.

Lemma summary_fields title loc tier n jobs :
  exists d message,
    run_summary title loc tier (loop_result n jobs) = Ok (VDict d)
    /\ d !! "success" = Some (VBool true)
    /\ d !! "tier_used" = Some (VStr tier)
    /\ d !! "total_applications" = Some (VInt n)
    /\ d !! "applied_jobs" = Some (VList jobs)
    /\ d !! "message" = Some (VStr message).
Proof.
  unfold run_summary, loop_result, vindex, dict_of. simpl. simplify_map_eq.
  eexists _, _. split; [reflexivity|]. repeat split; by simplify_map_eq.
Qed.

(** An applied entry carries the index it was applied at. *)
Lemma applied_job_index title loc job_index :
  exists e, applied_job title loc job_index = VDict e
            /\ e !! "index" = Some (VInt job_index).
Proof. eexists. split; [reflexivity|]. unfold dict_of. simpl. by simplify_map_eq. Qed.



(** The whole run on that page: the three entries are clicked in turn, the
    second fails at step 8, the run reports two applications. *)
Example run_with_one_failed_entry :
  exists summary s,
    sim_run "b" abc_listings_page = (Ok (VDict summary), Some s)
    /\ summary !! "success" = Some (VBool true)
    /\ summary !! "tier_used" = Some (VStr "Tier 1")
    /\ summary !! "total_applications" = Some (VInt 2)
    /\ summary !! "applied_jobs"
       = Some (VList [applied_job "Engineer" None 0; applied_job "Engineer" None 2])
    /\ List.filter (fun ev => match ev with EScript c _ => String.eqb c js_click
                                          | _ => false end) (trace s)
       = [ EScript js_click [0%nat]; EScript js_click [1%nat]; EScript js_click [2%nat] ].
Proof.
  eexists _, _. split; [vm_compute; reflexivity|].
  repeat split; vm_compute; reflexivity.
Qed.

(** ** Zero listings *)

Lemma total_is_zero_catalog url filters :
  total_is_zero (catalog_result 0 url filters) = Ok true.
Proof. unfold total_is_zero, catalog_result, vget, dict_of. simpl. by simplify_map_eq. Qed.

(** Whatever the driver and the other steps are: a catalog of zero jobs
    makes the loop answer [success: False] with no application, and the run
    built on it answer [success: True] with [total_applications == 0]. *)
Lemma zero_listings_run {W} (wd : webdriver W) (step_3 : M W value)
    (step_4 : Z -> M W value) (step_5 : string -> M W value)
    (step_8 step_9 step_10 : M W value) (title : string) (loc : option string)
    (tier : string) (s : st W) (url page_url : string) (filters : bool) (s0 : st W) :
  current_url wd (world s) = Ok url ->
  step_3 s = (Ok (catalog_result 0 page_url filters), s0) ->
  _apply_to_jobs wd step_3 step_4 step_5 step_8 step_9 step_10 title loc s
    = (Ok no_jobs_result, s0)
  /\ vget no_jobs_result "success" VNone = Ok (VBool false)
  /\ exists summary,
       continue_with wd step_3 step_4 step_5 step_8 step_9 step_10 title loc tier s
         = (Ok (VDict summary), s0)
       /\ summary !! "success" = Some (VBool true)
       /\ summary !! "total_applications" = Some (VInt 0).
Proof.
  intros Hurl H3.
  assert (Hloop := apply_loop_no_jobs wd step_3 step_4 step_5 step_8 step_9 step_10
                     title loc s url _ s0 Hurl H3
                     (or_intror (total_is_zero_catalog page_url filters))).
  split; [exact Hloop|]. split; [by vm_compute|].
  destruct (summary_fields title loc tier 0 [])
    as (summary & message & Hs & Hsucc & _ & Htot & _).
  exists summary. unfold continue_with, bind, lift. rewrite Hloop.
  change no_jobs_result with (loop_result 0 []). rewrite Hs. done.
Qed.

(** C2 at its failing input: a results page without any listing.  The
    catalog is empty, the loop answers [success: False], and the run still
    returns [success: True] next to [total_applications: 0]; nothing is
    raised. *)
Theorem run_without_listings_reports_success :
  (step_3_catalog_jobs sim_wd (fresh empty_results_page)).1
    = Ok (catalog_result 0 results_url true)
  /\ (_apply_to_jobs sim_wd (step_3_catalog_jobs sim_wd)
        (step_4_apply_to_job_index sim_wd) (step_5_loop_return sim_wd)
        (ret (VBool true)) (ret (VBool true)) (ret confirmed) "Engineer" None
        (fresh empty_results_page)).1
     = Ok no_jobs_result
  /\ exists summary s,
       sim_run "none" empty_results_page = (Ok (VDict summary), Some s)
       /\ summary !! "success" = Some (VBool true)
       /\ summary !! "total_applications" = Some (VInt 0)
       /\ summary !! "applied_jobs" = Some (VList []).
Proof.
  split; [vm_compute; reflexivity|]. split; [vm_compute; reflexivity|].
  eexists _, _. split; [vm_compute; reflexivity|].
  repeat split; vm_compute; reflexivity.
Qed.

(** ** The APS form *)

Section FormFacts.
Context {W : Type} (wd : webdriver W).
Variable path_exists : string -> bool.
Variable abspath : string -> string.

Lemma try_fill_with_total v selector : total (try_fill_with wd v selector).
Proof. apply total_try_except. intros _. apply total_ret. Qed.

Lemma fill_with_selectors_total v selectors : total (fill_with_selectors wd v selectors).
Proof.
  induction selectors as [|selector rest IH]; [apply total_ret|].
  cbn [fill_with_selectors]. apply total_bind; [apply try_fill_with_total|].
  intros [|]; [apply total_ret|exact IH].
Qed.

Lemma fill_field_total v selectors :
  total (_fill_field_by_multiple_strategies wd v selectors).
Proof.
  unfold _fill_field_by_multiple_strategies.
  destruct (negb (truthy_str v)); [apply total_ret|apply fill_with_selectors_total].
Qed.

Lemma upload_resume_total path : total (_upload_resume wd path_exists abspath path).
Proof. apply total_try_except. intros _. apply total_ret. Qed.

Lemma fill_all_fields_total user_profile job_board :
  total (fill_all_fields wd path_exists abspath user_profile job_board).
Proof.
  unfold fill_all_fields.
  repeat (apply total_bind; [apply fill_field_total|intros ?]).
  destruct (truthy_str _); [|apply total_ret].
  apply total_bind; [apply upload_resume_total|intros ?; apply total_ret].
Qed.


End FormFacts.



(** With the email input gone as well, the form is refused. *)
Example form_with_two_missing_fields :
  let page := site_with [ form_input (ID, "gform_55") "";
                          form_input (ID, "input_55_1_3") "Ada";
                          form_input (ID, "input_55_1_6") "Lovelace" ] in
  (_fill_job_candidate_form sim_wd (fun _ => false) (fun p => p) ada_profile ∅ None
     (fresh page)).1 = Ok false.
Proof. vm_compute. reflexivity. Qed.

(** ** References of logged applications *)

Lemma get_in_range s n :
  (n < String.length s)%nat -> exists c, String.get n s = Some c.
Proof.
  revert n. induction s as [|c s IH]; intros n H; simpl in *; [lia|].
  destruct n as [|n]; [by exists c|]. apply IH. lia.
Qed.

Lemma get_all_chars p s n c :
  all_chars p s = true -> String.get n s = Some c -> p c = true.
Proof.
  revert n. induction s as [|c' s IH]; intros n Hall Hget; simpl in *; [done|].
  apply andb_prop in Hall as [Hc Hs].
  destruct n as [|n]; [by inversion Hget; subst|]. eauto.
Qed.

Section ChoicesFacts.
Variable population : string.
Hypothesis population_nonempty : (0 < String.length population)%nat.

Lemma choices_length draws from k :
  String.length (choices population draws from k) = k.
Proof.
  revert from. induction k as [|k IH]; intros from; [done|].
  cbn [choices].
  destruct (get_in_range population (draws from mod String.length population))
    as [c Hc]; [apply Nat.mod_upper_bound; lia|].
  rewrite Hc. cbn [String.length]. by rewrite IH.
Qed.

Lemma choices_chars p draws from k :
  all_chars p population = true ->
  all_chars p (choices population draws from k) = true.
Proof.
  intros Hp. revert from. induction k as [|k IH]; intros from; [done|].
  cbn [choices].
  destruct (String.get (draws from mod String.length population) population)
    as [c|] eqn:Hc; [|apply IH].
  cbn [all_chars]. rewrite IH, (get_all_chars p population _ c Hp Hc). done.
Qed.
End ChoicesFacts.

(** Every reference [generate_simple_ref] makes has the shape
    [APP-<year>-<6 upper-case letters or digits>]. *)
Lemma generate_simple_ref_shape e :
  simple_ref_shape (year e) (generate_simple_ref e).1.
Proof.
  exists (choices (ascii_uppercase ++ digits) (draws e) (drawn e) 6).
  split; [done|]. split.
  - apply choices_length. vm_compute. lia.
  - apply choices_chars. by vm_compute.
Qed.

(** C7, as the code has it.  On a reachable database [log_application]
    gives every record it logs a reference of the shape
    [APP-<current year>-<6 upper-case letters or digits>], the one it
    returns next to [success: True]; when the user record does not exist it
    returns [{success: False, error: 'User not found'}], raises nothing and
    writes nothing; [record_board_submissions] then answers [False] and
    writes nothing either. *)
Theorem log_application_references (user_email platform : string)
    (job_title company : option string) (status industry : string)
    (boards : list board) (e : env) :
  reachable (db e) = true ->
  (forall user_id,
      select_user_id (db e) user_email = Some user_id ->
      exists ref e',
        log_application user_email platform job_title company status e
        = (Ok (VDict (dict_of [ ("success", VBool true); ("id", VInt (next_id (db e)));
                                ("reference", VStr ref) ])), e')
        /\ simple_ref_shape (year e) ref
        /\ application_stats (db e')
           = (application_stats (db e)
              ++ [mkRow (next_id (db e)) user_id ref platform (clip255 job_title)
                        (clip255 company) status])%list)
  /\ (select_user_id (db e) user_email = None ->
      log_application user_email platform job_title company status e
      = (Ok (VDict (dict_of [ ("success", VBool false);
                              ("error", VStr "User not found") ])), e)
      /\ record_board_submissions true user_email industry boards e = (false, e)).
Proof.
  intros Hup. unfold log_application, record_board_submissions.
  rewrite Hup. cbn [negb]. split.
  - intros user_id ->.
    eexists _, _. split; [reflexivity|]. split; [apply generate_simple_ref_shape|done].
  - by intros ->.
Qed.

Lemma log_application_references_witness :
  log_application "nobody@example.com" "dice" (Some "Engineer") (Some "Initech")
    "submitted" tracker_env
  = (Ok (VDict (dict_of [ ("success", VBool false); ("error", VStr "User not found") ])),
     tracker_env).
Proof.
  refine (proj1 (proj2 (log_application_references "nobody@example.com" "dice"
                          (Some "Engineer") (Some "Initech") "submitted"
                          "Manufacturing" [aps_board] tracker_env _) _)).
  - reflexivity.
  - reflexivity.
Defined.

(** The references [record_board_submissions] writes are eight characters
    with no prefix. *)
Lemma record_boards_refs user_id industry boards e :
  exists rows,
    application_stats (db (record_boards user_id industry boards e))
    = (application_stats (db e) ++ rows)%list
    /\ length rows = length boards
    /\ Forall (fun r => String.length (row_app_ref r) = 8%nat) rows.
Proof.
  revert e. induction boards as [|[site agency] boards IH]; intros e.
  - exists []. cbn [record_boards]. by rewrite app_nil_r.
  - cbn [record_boards].
    match goal with
    | |- context [record_boards _ _ _ ?e1] => destruct (IH e1) as (rows & Hrows & Hlen & H8)
    end.
    rewrite Hrows. cbn [db application_stats insert_application snd].
    eexists (_ :: rows). rewrite <- app_assoc. split; [reflexivity|].
    split; [cbn; by rewrite Hlen|].
    constructor; [|exact H8]. cbn [row_app_ref].
    apply choices_length. vm_compute. lia.
Qed.

(** C7, as stated, fails on the board submissions.  For a known user the
    row [record_board_submissions] writes carries an eight-character
    reference without the [APP-<year>-] prefix, where [log_application], on
    the same environment, writes [APP-2026-] and six characters; for an
    unknown user it answers a bare [False], not a dictionary. *)
Lemma board_submission_reference_has_no_prefix :
  let recorded := record_board_submissions true "ada@example.com" "Manufacturing"
                    [aps_board] tracker_env in
  let logged := log_application "ada@example.com" "dice" (Some "Engineer")
                  (Some "Initech") "submitted" tracker_env in
  recorded.1 = true
  /\ map row_app_ref (application_stats (db recorded.2)) = ["DKRY5CJQ"]
  /\ ~ simple_ref_shape 2026 "DKRY5CJQ"
  /\ map row_app_ref (application_stats (db logged.2)) = ["APP-2026-DKRY5C"]
  /\ simple_ref_shape 2026 "APP-2026-DKRY5C"
  /\ (record_board_submissions true "nobody@example.com" "Manufacturing" [aps_board]
        tracker_env).1 = false.
Proof.
  cbv zeta. split; [by vm_compute|]. split; [by vm_compute|].
  split; [|split; [by vm_compute|split; [|reflexivity]]].
  - intros (code & Hcode & _). vm_compute in Hcode. discriminate Hcode.
  - exists "DKRY5C". by vm_compute.
Qed.

(** A known user: the reference returned is the one stored. *)
Example known_user_is_logged :
  (log_application "ada@example.com" "dice" (Some "Engineer") (Some "Initech")
     "submitted" tracker_env).1
  = Ok (VDict (dict_of [ ("success", VBool true); ("id", VInt 1);
                         ("reference", VStr "APP-2026-DKRY5C") ])).
Proof. vm_compute. reflexivity. Qed.

(** ** Returning to the checkpoint *)

Section CheckpointFacts.
Context {W : Type} (wd : webdriver W).
Variable url : string.                       (* the checkpoint *)
Variable close_button : elem -> Prop.

(** Navigation to the checkpoint goes through and lands on it. *)
Hypothesis checkpoint_loads :
  forall w, (get wd url w).1 = Ok tt /\ current_url wd (get wd url w).2 = Ok url.
(** What the close-button selectors return are close buttons, and
    clicking one on the checkpoint page does not leave the page. *)
Hypothesis close_buttons_found :
  forall w selector buttons,
    selector ∈ popup_close_selectors ->
    find_elements wd selector w = Ok buttons -> Forall close_button buttons.
Hypothesis close_button_stays :
  forall w b, close_button b -> current_url wd w = Ok url ->
              current_url wd (execute_script wd js_click [b] w).2 = Ok url.
(** Reading [document.readyState] does not navigate. *)
Hypothesis ready_state_stays :
  forall w, current_url wd w = Ok url ->
            current_url wd (execute_script wd js_ready_state [] w).2 = Ok url.

Lemma keeps_ret {A} (a : A) : keeps wd url (ret a).
Proof. by intros s. Qed.

Lemma keeps_ask {A} (q : W -> res A) : keeps wd url (ask q).
Proof. by intros s. Qed.

Lemma keeps_bind {A B} (m : M W A) (k : A -> M W B) :
  keeps wd url m -> (forall a, keeps wd url (k a)) -> keeps wd url (bind m k).
Proof.
  intros Hm Hk s Hs. unfold bind. specialize (Hm s Hs).
  destruct (m s) as [[a|e] s1]; [by apply Hk|done].
Qed.

Lemma keeps_try_except {A} (m : M W A) h :
  keeps wd url m -> (forall e, keeps wd url (h e)) -> keeps wd url (try_except m h).
Proof.
  intros Hm Hh s Hs. unfold try_except. specialize (Hm s Hs).
  destruct (m s) as [[a|e] s1]; [done|by apply Hh].
Qed.

Lemma keeps_close_click b :
  close_button b -> keeps wd url (tell (EScript js_click [b]) (execute_script wd js_click [b])).
Proof.
  intros Hb s Hs. unfold tell.
  pose proof (close_button_stays (world s) b Hb Hs) as H.
  by destruct (execute_script wd js_click [b] (world s)).
Qed.

Lemma click_close_buttons_keeps buttons :
  Forall close_button buttons -> keeps wd url (click_close_buttons wd buttons).
Proof.
  induction 1 as [|b buttons Hb _ IH]; [apply keeps_ret|].
  cbn [click_close_buttons].
  apply keeps_bind; [apply keeps_ask|intros d].
  apply keeps_bind; [destruct d; [apply keeps_ask|apply keeps_ret]|intros en].
  apply keeps_bind; [|intros _; exact IH].
  destruct (d && en); [|apply keeps_ret].
  apply keeps_try_except; [|intros _; apply keeps_ret].
  apply keeps_bind; [by apply keeps_close_click|intros _; apply keeps_ret].
Qed.

Lemma handle_popup_selectors_keeps selectors :
  selectors ⊆ popup_close_selectors -> keeps wd url (handle_popup_selectors wd selectors).
Proof.
  induction selectors as [|selector rest IH]; intros Hsub; [apply keeps_ret|].
  cbn [handle_popup_selectors].
  apply keeps_bind; [|intros _; apply IH; set_solver].
  apply keeps_try_except; [|intros _; apply keeps_ret].
  intros s Hs. unfold bind, ask.
  destruct (find_elements wd selector (world s)) as [buttons|e] eqn:E; [|done].
  apply click_close_buttons_keeps; [|done].
  eapply close_buttons_found; [|exact E]. set_solver.
Qed.

Lemma handle_popups_keeps : keeps wd url (_handle_popups wd).
Proof.
  apply keeps_try_except; [|intros _; apply keeps_ret].
  by apply handle_popup_selectors_keeps.
Qed.

Lemma verify_ready_keeps : keeps wd url (_verify_ready_for_next_job wd).
Proof.
  apply keeps_try_except; [|intros _; apply keeps_ret].
  apply keeps_bind.
  - intros s Hs. unfold tell.
    pose proof (ready_state_stays (world s) Hs) as H.
    by destruct (execute_script wd js_ready_state [] (world s)).
  - intros v. cbv zeta. destruct (negb _); [apply keeps_ret|].
    apply keeps_bind; [apply keeps_ask|intros loading].
    destruct loading; [apply keeps_ret|].
    apply keeps_bind; [apply keeps_ask|intros links].
    destruct links; apply keeps_ret.
Qed.

Lemma step5_result_ready u error : ready_answer (step5_result true u error).
Proof.
  eexists. split; [reflexivity|]. unfold dict_of.
  destruct error; simpl; by simplify_map_eq.
Qed.

(** Navigating to the checkpoint and reading the URL back. *)
Lemma navigate_and_report error s :
  let r := bind (tell (EGet url) (get wd url))
                (fun _ => bind (ask (current_url wd))
                               (fun u => ret (step5_result true u error))) s in
  at_checkpoint wd url r.2 /\ exists v, r.1 = Ok v /\ ready_answer v.
Proof.
  cbv zeta. unfold bind, tell, ask, ret.
  destruct (checkpoint_loads (world s)) as [Hok Hurl].
  destruct (get wd url (world s)) as [r w1]. cbn [fst snd] in *. subst r.
  cbn [world]. rewrite Hurl. split; [exact Hurl|].
  eexists. split; [reflexivity|apply step5_result_ready].
Qed.

(** Step 5 ends on the checkpoint page and says so, from any state. *)
Lemma step_5_lands s :
  at_checkpoint wd url (step_5_loop_return wd url s).2
  /\ exists v, (step_5_loop_return wd url s).1 = Ok v /\ ready_answer v.
Proof.
  unfold step_5_loop_return.
  match goal with
  | |- context [try_except ?m ?h] => set (body := m); set (handler := h)
  end.
  assert (Hhandler : forall e s1,
    at_checkpoint wd url (handler e s1).2
    /\ exists v, (handler e s1).1 = Ok v /\ ready_answer v).
  { intros e s1. unfold handler, try_except.
    pose proof (navigate_and_report (Some ("Unexpected error: " ++ exn_msg e)) s1) as H.
    cbv zeta in H.
    destruct (bind (tell (EGet url) (get wd url)) _ s1) as [[v|e'] s2];
      cbn [fst snd] in *; [exact H|].
    destruct H as (_ & v & Hv & _). discriminate Hv. }
  assert (Hbody : forall v s1, body s = (Ok v, s1) -> at_checkpoint wd url s1 /\ ready_answer v).
  { unfold body. clear body handler Hhandler. intros v s1.
    unfold bind at 1. destruct (ask (current_url wd) s) as [[u0|e] sa]; [|done].
    unfold bind at 1. destruct (ask (window_handles wd) sa) as [[hs|e] sb]; [|done].
    unfold bind at 1.
    match goal with
    | |- context [(if (1 <? length hs)%nat then ?m else ret tt) sb] =>
        destruct ((if (1 <? length hs)%nat then m else ret tt) sb) as [[u1|e] sc]
    end; [|done].
    unfold bind at 1, ask at 1.
    destruct (current_url wd (world sc)) as [here|e] eqn:Ehere; [|done].
    unfold bind at 1.
    assert (Hnav : forall r sd,
      (if String.eqb here url then ret tt
       else tell (EGet url) (get wd url)) sc = (r, sd) ->
      r = Ok tt /\ at_checkpoint wd url sd).
    { intros r sd. destruct (String.eqb here url) eqn:E.
      - apply String.eqb_eq in E. subst here. unfold ret. intros [= <- <-]. done.
      - unfold tell. destruct (checkpoint_loads (world sc)) as [Hok Hurl].
        destruct (get wd url (world sc)) as [r0 w1]. cbn [fst snd] in *.
        intros [= <- <-]. done. }
    destruct ((if String.eqb here url then ret tt
               else tell (EGet url) (get wd url)) sc) as [r sd] eqn:Enav.
    destruct (Hnav r sd eq_refl) as [-> Hsd].
    unfold bind at 1, ask at 1.
    destruct (_verify_on_results_page wd (world sd)).
    - unfold bind at 1.
      pose proof (handle_popups_keeps sd Hsd) as Hp.
      destruct (_handle_popups wd sd) as [[u2|e] se]; [|done]. cbn [snd] in Hp.
      unfold bind at 1.
      pose proof (verify_ready_keeps se Hp) as Hr.
      destruct (_verify_ready_for_next_job wd se) as [[ready|e] sf]; [|done].
      cbn [snd] in Hr. unfold bind, ask, ret. rewrite Hr.
      intros [= <- <-]. split; [exact Hr|apply step5_result_ready].
    - intros Hres.
      pose proof (navigate_and_report (Some "Failed to verify return to results page") sd)
        as H.
      cbv zeta in H. rewrite Hres in H. cbn [fst snd] in H.
      destruct H as (Hs1 & v' & [= <-] & Hready). done. }
  unfold try_except. destruct (body s) as [[v|e] s1] eqn:Ebody.
  - destruct (Hbody v s1 eq_refl) as [Hs1 Hv]. cbn [fst snd]. eauto.
  - apply Hhandler.
Qed.
End CheckpointFacts.

(** C9, as the code has it.  For every index but the last of a catalog of
    [total] entries, and on a browser where loading the checkpoint URL goes
    through, dismissing popups and reading the ready state do not navigate:
    after the steps of the entry and the return, the driver is on the
    checkpoint URL, whether the entry was applied to, failed, or raised. *)
Theorem returning_reaches_checkpoint {W} (wd : webdriver W) (url : string)
    (close_button : elem -> Prop)
    (step_4 : Z -> M W value) (step_8 step_9 step_10 : M W value)
    (title : string) (loc : option string) (total job_index : Z) (t : tally) (s : st W) :
  (forall w, (get wd url w).1 = Ok tt /\ current_url wd (get wd url w).2 = Ok url) ->
  (forall w selector buttons,
      selector ∈ popup_close_selectors ->
      find_elements wd selector w = Ok buttons -> Forall close_button buttons) ->
  (forall w b, close_button b -> current_url wd w = Ok url ->
               current_url wd (execute_script wd js_click [b] w).2 = Ok url) ->
  (forall w, current_url wd w = Ok url ->
             current_url wd (execute_script wd js_ready_state [] w).2 = Ok url) ->
  (job_index < total - 1)%Z ->
  current_url wd
    (world (process_job wd step_4 (step_5_loop_return wd) step_8 step_9 step_10
              title loc url total job_index t s).2)
  = Ok url.
Proof.
  intros Hload Hfound Hclose Hready Hnotlast.
  assert (Hrecover : forall s1,
    current_url wd (world (recover wd url job_index total s1).2) = Ok url).
  { intros s1. unfold recover. apply Z.ltb_lt in Hnotlast. rewrite Hnotlast.
    unfold try_except, tell. destruct (Hload (world s1)) as [Hok Hurl].
    destruct (get wd url (world s1)) as [r w1]. cbn [fst snd] in *. by subst r. }
  unfold process_job.
  destruct (apply_steps step_4 step_8 step_9 step_10 title loc job_index t s)
    as [[[u|e] t'] s1]; cbn [snd]; [|apply Hrecover].
  destruct (step_5_lands wd url close_button Hload Hfound Hclose Hready s1)
    as (Hat & v & Hv & d & -> & Hd).
  unfold return_to_results. apply Z.ltb_lt in Hnotlast. rewrite Hnotlast.
  unfold bind at 1.
  destruct (step_5_loop_return wd url s1) as [r5 s5]. cbn [fst snd] in *. subst r5.
  assert (Ht : truthy (VDict d) = true).
  { simpl. case_bool_decide as E; [|done]. subst d. by rewrite lookup_empty in Hd. }
  unfold bind, lift, and_get. rewrite Ht. unfold vget. rewrite Hd. cbn. exact Hat.
Qed.

Lemma no_close_button_on_listings u selector buttons :
  selector ∈ popup_close_selectors ->
  find_elements (pinned_wd abc_listings_page) selector u = Ok buttons ->
  Forall (fun _ => False) buttons.
Proof.
  intros Hsel Hfind.
  assert (buttons = []) as ->; [|constructor].
  revert Hfind. unfold pinned_wd, find_elements, sim_wd, sim_find_elements, sim_dom,
    pinned, sim_goto, abc_listings_page, site_with. cbn [sim_site sim_url].
  unfold popup_close_selectors in Hsel.
  destruct (String.eqb u results_url);
    repeat (apply elem_of_cons in Hsel as [->|Hsel]; [by intros [= <-]|]);
    by apply elem_of_nil in Hsel.
Qed.

Lemma returning_reaches_checkpoint_witness :
  current_url (pinned_wd abc_listings_page)
    (world (process_job (pinned_wd abc_listings_page)
              (step_4_apply_to_job_index (pinned_wd abc_listings_page))
              (step_5_loop_return (pinned_wd abc_listings_page))
              (ret (VBool true)) (ret (VBool true)) (ret confirmed)
              "Engineer" None results_url 3 0 (0%Z, []) (fresh results_url)).2)
  = Ok results_url.
Proof.
  apply (returning_reaches_checkpoint (pinned_wd abc_listings_page) results_url
           (fun _ => False)).
  - intros u. split; reflexivity.
  - apply no_close_button_on_listings.
  - intros u b [].
  - intros u H. exact H.
  - lia.
Defined.

(** C9, as stated, fails at the last index: no return is made after it.
    With a single listing the loop ends on the job page it applied from. *)
Lemma last_entry_is_not_returned_from :
  let after :=
    (process_job sim_wd (step_4_apply_to_job_index sim_wd) (step_5_loop_return sim_wd)
       (ret (VBool true)) (ret (VBool true)) (ret confirmed)
       "Engineer" None results_url 1 0 (0%Z, []) (fresh one_listing_page)) in
  after.1 = (1%Z, [applied_job "Engineer" None 0])
  /\ current_url sim_wd (world (fresh one_listing_page)) = Ok results_url
  /\ current_url sim_wd (world after.2) = Ok (job_url "a")
  /\ job_url "a" <> results_url.
Proof. cbv zeta. vm_compute. repeat split; discriminate. Qed.

(** The same run on the three-listing page: after the first and the second
    entry the driver is back on the checkpoint, after the third it is not. *)
Example urls_between_entries :
  let step := process_job sim_wd (step_4_apply_to_job_index sim_wd)
                (step_5_loop_return sim_wd) (step_unless "b" (VBool true))
                (ret (VBool true)) (ret confirmed) "Engineer" None results_url 3 in
  let s1 := (step 0%Z (0%Z, []) (fresh abc_listings_page)).2 in
  let s2 := (step 1%Z (0%Z, []) s1).2 in
  let s3 := (step 2%Z (0%Z, []) s2).2 in
  sim_url (world s1) = results_url /\ sim_url (world s2) = results_url
  /\ sim_url (world s3) = job_url "c".
Proof. vm_compute. repeat split. Qed.

(** ** The element resolvers *)

Section ResolverFacts.
Context {W : Type} (wd : webdriver W).









End ResolverFacts.

Section SubmitButtonFacts.
Context {W : Type} (wd : webdriver W).
(** The explicit wait raises nothing but its timeout. *)
Hypothesis wait_only_times_out :
  forall w e, (wait_clickable wd submit_wait_xpath w).1 = Raise e -> e = TimeoutException.

End SubmitButtonFacts.




(** The form filler likewise: the phone input is present, visible and
    enabled, but reads back empty, and the fill is reported failed. *)
Example filler_wants_a_readback :
  spec_resolve sim_wd deaf_phone_page phone_selectors = Some 0%nat
  /\ (_fill_field_by_multiple_strategies sim_wd "555-0100" phone_selectors
        (fresh deaf_phone_page)).1 = Ok false.
Proof. vm_compute. split; reflexivity. Qed.

(** The explicit wait is the one place that lets an exception out: on a
    browser where everything raises, [_find_submit_button] raises. *)
Example find_submit_button_can_raise :
  (_find_submit_button dead_wd (fresh tt)).1 = Raise WebDriverException.
Proof. vm_compute. reflexivity. Qed.

(** * Further properties of the code *)

(** Equations between traces: reassociate. *)
Ltac trace_eq :=
  repeat (rewrite <- app_assoc || rewrite <- app_comm_cons); cbn [app]; done.

(** ** Substrings *)

Lemma prefix_app n a b : String.prefix n a = true -> String.prefix n (a ++ b) = true.
Proof.
  revert a. induction n as [|c n IH]; intros a; [intros _; by destruct (a ++ b)|].
  destruct a as [|c' a]; [done|].
  change (String c' a ++ b) with (String c' (a ++ b)). cbn.
  destruct (Ascii.ascii_dec c c'); [apply IH | done].
Qed.

Lemma str_in_app_l n a b : str_in n a = true -> str_in n (a ++ b) = true.
Proof.
  induction a as [|c a IH].
  - cbn. rewrite orb_false_r. destruct n; [|done]. intros _. by destruct b.
  - cbn [str_in]. intros [Hp | Hin]%orb_true_iff.
    + pose proof (prefix_app _ _ b Hp) as Hp'.
      change (String c a ++ b) with (String c (a ++ b)) in *.
      cbn [str_in]. by rewrite Hp'.
    + change (String c a ++ b) with (String c (a ++ b)).
      cbn [str_in]. rewrite (IH Hin). apply orb_true_r.
Qed.

(** ** The application loop: what it counts *)

Section LoopInvariant.
Context {W : Type} (wd : webdriver W).
Variable step_4 : Z -> M W value.
Variable step_5 : string -> M W value.
Variable step_8 step_9 step_10 : M W value.
Variable title : string.
Variable loc : option string.

End LoopInvariant.


(** ** [run_automation]: the driver's life *)

(** X2.  Whatever the steps do, once [_create_robust_driver] has returned
    a driver the run returns a dictionary (no exception leaves the [try])
    and the last command sent is [quit]; when the run ends without a
    driver, no driver was returned, and the answer is an error dictionary or
    the [AttributeError] of a non-string field of [user_data]. *)
Theorem run_automation_quits_the_driver {W} (wd : webdriver W)
    (step_2_login : string -> M W value) (step_3 : M W value)
    (step_4 : Z -> M W value) (step_5 : string -> M W value)
    (step_8 step_9 step_10 : M W value) (create_driver : res (st W))
    (user_email : option string) (user_data : value) :
  match run_automation wd step_2_login step_3 step_4 step_5 step_8 step_9 step_10
          create_driver user_email user_data with
  | (r, Some s) =>
      (exists v, r = Ok v)
      /\ exists s0 before, create_driver = Ok s0 /\ trace s = (before ++ [EQuit])%list
  | (r, None) =>
      r = Raise AttributeError \/ exists msg, r = Ok (failure msg)
  end.
Proof.
  assert (Hquit : forall s1 : st W,
            exists before, trace (quit_quietly wd s1).2 = (before ++ [EQuit])%list).
  { intros s1. exists (trace s1). unfold quit_quietly, try_except, tell, ret.
    by destruct (quit wd (world s1)) as [[u|e] w']. }
  unfold run_automation.
  destruct user_data as [| | | | |d]; try (right; by eexists).
  destruct (truthy (VDict d)); cbn [negb]; [|right; by eexists].
  destruct (default (VStr "") (d !! "jobTitle")) as [| | |jt| |]; try by left.
  destruct (default (VStr "") (d !! "location")) as [| | |lc| |];
    try (destruct (truthy_str (strip jt)); cbn [negb]; [by left | right; by eexists]).
  destruct (truthy_str (strip jt)); cbn [negb]; [|right; by eexists].
  destruct create_driver as [s0|e]; [|right; by eexists].
  destruct (automation_body _ _ _ _ _ _ _ _ _ _ _ s0) as [[v|e] s1];
    (split; [by eexists|]); destruct (Hquit s1) as [before Hb]; by exists s0, before.
Qed.



(** ** Tier 1 *)

Lemma tier1_url_filters title loc :
  str_in "filters.easyApply=true" (tier1_url title loc) = true
  /\ str_in "filters.postedDate=ONE" (tier1_url title loc) = true.
Proof.
  assert (H : forall rest,
            str_in "filters.easyApply=true" (tier2_url ++ rest) = true
            /\ str_in "filters.postedDate=ONE" (tier2_url ++ rest) = true).
  { intros rest. split; apply str_in_app_l; vm_compute; reflexivity. }
  unfold tier1_url. destruct loc as [l|]; [|apply H].
  destruct (truthy_str l && truthy_str (strip l)); apply H.
Qed.

(** X4.  The Tier 1 URL carries both filters whatever the job title and the
    location are, and [_validate_job_page_success] accepts a URL with both
    filters without looking at the page: when the browser loads the Tier 1
    URL and shows it, Tier 1 succeeds, listing or no listing. *)
Theorem tier1_succeeds_on_its_own_url {W} (wd : webdriver W) (title : string)
    (loc : option string) (s : st W) (w' : W) :
  get wd (tier1_url title loc) (world s) = (Ok tt, w') ->
  current_url wd w' = Ok (tier1_url title loc) ->
  _tier1_optimization wd title loc s
  = (Ok true, mkSt w' (original_window s) (trace s ++ [EGet (tier1_url title loc)])).
Proof.
  intros Hget Hurl.
  unfold _tier1_optimization, try_except, bind, tell, ask. rewrite Hget.
  cbn [world]. unfold _validate_job_page_success. rewrite Hurl.
  destruct (tier1_url_filters title loc) as [-> ->]. done.
Qed.

Lemma tier1_succeeds_on_its_own_url_witness :
  exists s',
    _tier1_optimization sim_wd "Engineer" None (fresh empty_results_page) = (Ok true, s')
    /\ find_elements sim_wd (CSS_SELECTOR, generic_job_selector) (world s') = Ok [].
Proof.
  eexists. split.
  - apply (tier1_succeeds_on_its_own_url sim_wd "Engineer" None
             (fresh empty_results_page) (sim_goto (tier1_url "Engineer" None)
                                                  empty_results_page)).
    + vm_compute. reflexivity.
    + vm_compute. reflexivity.
  - vm_compute. reflexivity.
Defined.

(** ** Step 3 and step 4 on the same page *)

Lemma catalog_result_total n url filters :
  vindex (catalog_result n url filters) "total_jobs" = Ok (VInt n).
Proof. unfold catalog_result, vindex, dict_of. simpl. by simplify_map_eq. Qed.

Lemma py_index_in_range {A} (l : list A) i :
  (0 <= i < Z.of_nat (length l))%Z -> is_Some (py_index l i).
Proof.
  intros Hi. unfold py_index.
  assert ((0 <=? i)%Z = true) as -> by (apply Z.leb_le; lia).
  apply lookup_lt_is_Some. lia.
Qed.

(** X5.  The [total_jobs] that step 3 reports never exceeds the number of
    job elements that step 4 collects on the page step 3 leaves behind (it
    is that number, or 0 after a timeout or an error), so every index of
    [range(total_jobs)] has a target element there. *)
Theorem catalog_total_is_within_step_4_range {W} (wd : webdriver W) (s s1 : st W)
    (v : value) :
  step_3_catalog_jobs wd s = (Ok v, s1) ->
  exists n,
    vindex v "total_jobs" = Ok (VInt n)
    /\ (0 <= n <= Z.of_nat (length (_find_all_job_elements wd (world s1))))%Z
    /\ forall i, (0 <= i < n)%Z ->
         is_Some (py_index (_find_all_job_elements wd (world s1)) i).
Proof.
  intros Hrun.
  assert (G : exists n url filters,
             v = catalog_result n url filters
             /\ (0 <= n <= Z.of_nat (length (_find_all_job_elements wd (world s1))))%Z).
  { revert Hrun.
    unfold step_3_catalog_jobs, except_timeout, try_except, bind, ask, ret, raise, tell.
    destruct (current_url wd (world s)) as [url|e] eqn:Hu; [|by rewrite Hu].
    destruct (wait_presence wd (CSS_SELECTOR, generic_job_selector) (world s))
      as [[found|e] w1]; cbn [negb world].
    - destruct (_find_all_job_elements wd w1) as [|e0 els] eqn:E;
        intros [= <- <-]; cbn [world]; rewrite E; eexists _, _, _;
        (split; [reflexivity|]); cbn [length]; lia.
    - destruct e; cbn [negb world];
        try (destruct (current_url wd w1) as [url1|e1]; [|done]);
        intros [= <- <-]; eexists _, _, _; (split; [reflexivity|]); lia. }
  destruct G as (n & url & filters & -> & Hn). exists n.
  split; [apply catalog_result_total|]. split; [done|].
  intros i Hi. apply py_index_in_range. lia.
Qed.

Lemma catalog_total_is_within_step_4_range_witness :
  exists n,
    vindex (catalog_result 3 results_url true) "total_jobs" = Ok (VInt n)
    /\ (0 <= n <= 3)%Z
    /\ forall i, (0 <= i < n)%Z ->
         is_Some (py_index (_find_all_job_elements sim_wd abc_listings_page) i).
Proof.
  apply (catalog_total_is_within_step_4_range sim_wd (fresh abc_listings_page)
           (mkSt abc_listings_page None
                 [EWaitPresence (CSS_SELECTOR, generic_job_selector)])
           (catalog_result 3 results_url true)).
  vm_compute. reflexivity.
Defined.

(** ** Step 4: a success has clicked *)

Section Step4Facts.
Context {W : Type} (wd : webdriver W).

Lemma step4_failure_not_success i err :
  vget (step4_failure i err) "success" VNone = Ok (VBool false).
Proof. unfold step4_failure, vget, dict_of. simpl. by simplify_map_eq. Qed.

Lemma try_click_strategy_logs P e m : logs P m -> logs P (try_click_strategy wd e m).
Proof.
  intros Hm. apply logs_try_except; [|intros _; apply logs_ret].
  apply logs_bind; [done|intros _]. apply logs_bind; [apply logs_ask|intros url].
  apply logs_bind; [apply logs_ask|intros href]. apply logs_ret.
Qed.

Lemma run_click_strategies_logs P e strategies :
  Forall (logs P) strategies -> logs P (run_click_strategies wd e strategies).
Proof.
  induction 1 as [|m ms Hm _ IH]; [apply logs_ret|].
  cbn [run_click_strategies]. apply logs_bind; [by apply try_click_strategy_logs|].
  intros [|]; [apply logs_ret|done].
Qed.

Lemma click_strategies_log e : Forall (logs any_event) (click_strategies wd e).
Proof.
  unfold click_strategies, _click_with_action_chains, _click_parent_element.
  repeat apply Forall_cons_2; [| | | |apply Forall_nil_2].
  - apply logs_bind; [by apply logs_tell|intros _; apply logs_ret].
  - by apply logs_tell.
  - by apply logs_tell.
  - apply logs_bind; [apply logs_ask|intros p].
    apply logs_bind; [by apply logs_tell|intros _; apply logs_ret].
Qed.

(** The first strategy sends its click, raising or not. *)
Lemma first_click_strategy_trace e s :
  exists moved w',
    try_click_strategy wd e
      (do* tell (EScript js_click [e]) (execute_script wd js_click [e]) in ret tt) s
    = (Ok moved, mkSt w' (original_window s) (trace s ++ [EScript js_click [e]])).
Proof.
  unfold try_click_strategy, try_except, bind, tell, ask, ret.
  destruct (execute_script wd js_click [e] (world s)) as [[v|e0] w1]; cbn [world];
    [|by eexists _, _].
  destruct (current_url wd w1); [|by eexists _, _].
  destruct (get_attribute wd e "href" w1); by eexists _, _.
Qed.

(** [_click_job_element] only adds to the trace, and a [True] from it
    means the click script was sent to the element. *)
Lemma click_job_element_clicks e s b s2 :
  _click_job_element wd e s = (Ok b, s2) ->
  exists extra,
    trace s2 = (trace s ++ extra)%list
    /\ (b = true -> In (EScript js_click [e]) extra).
Proof.
  unfold _click_job_element, try_except at 1, bind at 1, tell at 1.
  destruct (execute_script wd js_scroll_center [e] (world s)) as [[v|e0] w1]; cbn [ret].
  2: { intros [= <- <-]. eexists [_]. split; [reflexivity|done]. }
  set (s1 := mkSt w1 (original_window s) (trace s ++ [EScript js_scroll_center [e]])).
  unfold bind at 1.
  match goal with
  | |- context [try_except ?m ?h s1] =>
      assert (Hhl : logs any_event (try_except m h));
        [|destruct (Hhl s1) as (x1 & Hx1 & _);
          destruct (try_except m h s1) as [[u|e1] s1']]
  end.
  { apply logs_try_except; [|intros _; apply logs_ret].
    repeat (apply logs_bind; [by apply logs_tell|intros _]). apply logs_ret. }
  2: { intros [= <- <-]. cbn [snd] in Hx1. exists (EScript js_scroll_center [e] :: x1).
       split; [|done]. rewrite Hx1. unfold s1. cbn [trace]. by rewrite <- app_assoc. }
  cbn [snd] in Hx1.
  pose proof (click_strategies_log e) as Hall. unfold click_strategies in *.
  apply Forall_cons in Hall as [_ Hrest].
  apply (run_click_strategies_logs any_event e) in Hrest.
  match type of Hrest with
  | logs _ (run_click_strategies _ _ ?rest) => set (rs := rest) in *; clearbody rs
  end.
  cbn [run_click_strategies]. unfold bind at 1.
  destruct (first_click_strategy_trace e s1') as (moved & w2 & ->).
  set (s2' := mkSt w2 (original_window s1') (trace s1' ++ [EScript js_click [e]])).
  assert (Ht2 : trace s2'
                = (trace s ++ EScript js_scroll_center [e] :: x1 ++ [EScript js_click [e]])%list).
  { unfold s2'. cbn [trace]. rewrite Hx1. unfold s1. cbn [trace].
    by rewrite <- !app_assoc. }
  destruct moved.
  - intros [= <- <-]. eexists. split; [exact Ht2|]. intros _.
    right. apply in_or_app. right. by left.
  - destruct (Hrest s2') as (x2 & Hx2 & _).
    destruct (run_click_strategies wd e rs s2') as [[b'|e'] s3]; cbn [snd] in Hx2;
      unfold ret; intros [= <- <-];
      exists (EScript js_scroll_center [e] :: x1 ++ [EScript js_click [e]] ++ x2)%list;
      (split; [rewrite Hx2, Ht2; trace_eq|]); intros _;
      right; apply in_or_app; right; by left.
Qed.
End Step4Facts.

(** X6.  Step 4 never reports success without having clicked: when
    [step_4_apply_to_job_index] answers [success: True], the index had a
    target among the job elements of the page, the already-applied check
    said no, the commands it sent were added to the trace, and the click
    script on that target is among them. *)
Theorem step_4_success_needs_a_click {W} (wd : webdriver W) (job_index : Z)
    (s s' : st W) (v : value) :
  step_4_apply_to_job_index wd job_index s = (Ok v, s') ->
  vget v "success" VNone = Ok (VBool true) ->
  exists target extra,
    py_index (_find_all_job_elements wd (world s)) job_index = Some target
    /\ _check_if_already_applied wd (world s) target = false
    /\ trace s' = (trace s ++ extra)%list
    /\ In (EScript js_click [target]) extra.
Proof.
  intros Hrun Hsucc.
  assert (Hfail : forall err, v = step4_failure job_index err -> False).
  { intros err ->. rewrite step4_failure_not_success in Hsucc. discriminate. }
  assert (Hnone : v = VNone -> False) by (intros ->; discriminate).
  revert Hrun.
  unfold step_4_apply_to_job_index, try_except, bind, ask, ret, raise.
  destruct (current_window_handle wd (world s)) as [ow|e];
    [|intros [= <- <-]; by destruct (Hfail _ eq_refl)].
  destruct (window_handles wd (world s)) as [ows|e];
    [|intros [= <- <-]; by destruct (Hfail _ eq_refl)].
  destruct (current_url wd (world s)) as [url|e];
    [|intros [= <- <-]; by destruct (Hfail _ eq_refl)].
  destruct (_find_all_job_elements wd (world s)) as [|e0 els];
    [intros [= <- <-]; by destruct (Hfail _ eq_refl)|].
  destruct (Z.of_nat (length (e0 :: els)) <=? job_index)%Z;
    [intros [= <- <-]; by destruct (Hfail _ eq_refl)|].
  destruct (py_index (e0 :: els) job_index) as [target|];
    [|intros [= <- <-]; by destruct (Hfail _ eq_refl)].
  destruct (_check_if_already_applied wd (world s) target) eqn:Happlied;
    [intros [= <- <-]; by destruct (Hfail _ eq_refl)|].
  destruct (_click_job_element wd target s) as [[b|e] s2] eqn:Hclick;
    [|intros [= <- <-]; by destruct (Hfail _ eq_refl)].
  destruct (click_job_element_clicks wd target s b s2 Hclick) as (x & Hx & Hin).
  destruct b; cbn [negb]; [|intros [= <- <-]; by destruct (Hfail _ eq_refl)].
  specialize (Hin eq_refl).
  destruct (window_handles wd (world s2)) as [nws|e];
    [|intros [= <- <-]; by destruct (Hfail _ eq_refl)].
  destruct (length ows <? length nws)%nat.
  - destruct (first_new_window nws ows) as [nw|]; [|intros [= <- <-]; by destruct Hnone].
    destruct (truthy_str nw); [|intros [= <- <-]; by destruct Hnone].
    unfold tell.
    destruct (switch_to_window wd nw (world s2)) as [[u|e] w3]; cbn [world];
      [|intros [= <- <-]; by destruct (Hfail _ eq_refl)].
    destruct (current_url wd w3) as [nurl|e];
      [|intros [= <- <-]; by destruct (Hfail _ eq_refl)].
    destruct (str_in "/job-detail/" nurl).
    + unfold set_original_window. cbn [world trace]. intros [= <- <-].
      exists target, (x ++ [ESwitch nw])%list. cbn [trace]. rewrite Hx, <- app_assoc.
      repeat split; try done. apply in_or_app. by left.
    + cbn [world]. destruct (switch_to_window wd ow w3) as [[u'|e] w4];
        intros [= <- <-]; by destruct (Hfail _ eq_refl).
  - destruct (current_url wd (world s2)) as [nurl|e];
      [|intros [= <- <-]; by destruct (Hfail _ eq_refl)].
    destruct (negb (nurl =? url)%string && str_in "/job-detail/" nurl);
      [intros [= <- <-]; by exists target, x|].
    destruct (negb (nurl =? url)%string);
      [intros [= <- <-]; by exists target, x|].
    intros [= <- <-]; by destruct (Hfail _ eq_refl).
Qed.

Lemma step_4_success_needs_a_click_witness :
  exists target extra,
    py_index (_find_all_job_elements sim_wd abc_listings_page) 1 = Some target
    /\ _check_if_already_applied sim_wd abc_listings_page target = false
    /\ trace (step_4_apply_to_job_index sim_wd 1 (fresh abc_listings_page)).2
       = ([] ++ extra)%list
    /\ In (EScript js_click [target]) extra.
Proof.
  apply (step_4_success_needs_a_click sim_wd 1 (fresh abc_listings_page)
           (step_4_apply_to_job_index sim_wd 1 (fresh abc_listings_page)).2
           (step4_success 1 (job_url "b"))).
  - vm_compute. reflexivity.
  - vm_compute. reflexivity.
Defined.

(** ** Step 5: windows *)

Section LogsAt.
Context {W : Type}.

Lemma logs_at_of_logs P {A} (m : M W A) s : logs P m -> logs_at P m s.
Proof. intros H. apply H. Qed.

Lemma logs_at_bind_ask P {A B} (q : W -> res A) (k : A -> M W B) s :
  (forall a, q (world s) = Ok a -> logs_at P (k a) s) ->
  logs_at P (bind (ask q) k) s.
Proof.
  intros Hk. unfold logs_at, bind, ask in *.
  destruct (q (world s)) as [a|e]; [by apply Hk|].
  exists []. by rewrite app_nil_r.
Qed.

Lemma logs_at_try_except P {A} (m : M W A) h s :
  logs_at P m s -> (forall e, logs P (h e)) -> logs_at P (try_except m h) s.
Proof.
  intros (x1 & H1 & P1) Hh. unfold logs_at, try_except in *.
  destruct (m s) as [[a|e] s1]; cbn [snd] in *; [by exists x1|].
  destruct (Hh e s1) as (x2 & H2 & P2). exists (x1 ++ x2)%list.
  rewrite H2, H1, app_assoc. split; [done|by apply Forall_app].
Qed.
End LogsAt.

Section Step5Facts.
Context {W : Type} (wd : webdriver W).
Variable P : event -> Prop.
Hypothesis P_script : forall script args, P (EScript script args).
Hypothesis P_get : forall url, P (EGet url).

Lemma click_close_buttons_logs buttons : logs P (click_close_buttons wd buttons).
Proof using P_script.
  induction buttons as [|b rest IH]; [apply logs_ret|].
  cbn [click_close_buttons].
  apply logs_bind; [apply logs_ask|intros d].
  apply logs_bind; [destruct d; [apply logs_ask|apply logs_ret]|intros en].
  apply logs_bind; [|intros _; exact IH].
  destruct (d && en); [|apply logs_ret].
  apply logs_try_except; [|intros _; apply logs_ret].
  apply logs_bind; [by apply logs_tell|intros _; apply logs_ret].
Qed.

Lemma handle_popup_selectors_logs selectors :
  logs P (handle_popup_selectors wd selectors).
Proof using P_script.
  induction selectors as [|sel rest IH]; [apply logs_ret|].
  cbn [handle_popup_selectors]. apply logs_bind; [|intros _; exact IH].
  apply logs_try_except; [|intros _; apply logs_ret].
  apply logs_bind; [apply logs_ask|intros bs]. apply click_close_buttons_logs.
Qed.

Lemma handle_popups_logs : logs P (_handle_popups wd).
Proof using P_script.
  apply logs_try_except; [apply handle_popup_selectors_logs|intros _; apply logs_ret].
Qed.

Lemma verify_ready_logs : logs P (_verify_ready_for_next_job wd).
Proof using P_script.
  apply logs_try_except; [|intros _; apply logs_ret].
  apply logs_bind; [by apply logs_tell|intros ready_state].
  cbv zeta.
  match goal with |- context [negb ?c] => destruct c end; cbn [negb]; [|apply logs_ret].
  apply logs_bind; [apply logs_ask|intros [|]]; [apply logs_ret|].
  apply logs_bind; [apply logs_ask|intros [|l ls]]; apply logs_ret.
Qed.

Lemma current_url_or_unknown_logs : logs P (current_url_or_unknown wd).
Proof.
  apply logs_try_except; [apply logs_ask|].
  intros e. destruct e; (apply logs_ret || apply logs_raise).
Qed.

(** What step 5 does once the windows are dealt with, and its handler. *)
Lemma step_5_after_windows_logs url s :
  (forall handles, window_handles wd (world s) = Ok handles -> (length handles <= 1)%nat) ->
  logs_at P (step_5_loop_return wd url) s.
Proof using P_script P_get.
  intros Hone. unfold step_5_loop_return.
  apply logs_at_try_except.
  - apply logs_at_bind_ask. intros _ _. apply logs_at_bind_ask. intros handles Hh.
    assert ((1 <? length handles)%nat = false) as ->
      by (apply Nat.ltb_ge, (Hone _ Hh)).
    apply logs_at_of_logs. apply logs_bind; [apply logs_ret|intros _].
    apply logs_bind; [apply logs_ask|intros here].
    apply logs_bind;
      [destruct (String.eqb here url); [apply logs_ret|by apply logs_tell]|intros _].
    apply logs_bind; [apply logs_ask|intros [|]].
    + apply logs_bind; [apply handle_popups_logs|intros _].
      apply logs_bind; [apply verify_ready_logs|intros _].
      apply logs_bind; [apply logs_ask|intros u]. apply logs_ret.
    + apply logs_bind; [by apply logs_tell|intros _].
      apply logs_bind; [apply logs_ask|intros u]. apply logs_ret.
  - intros e. apply logs_try_except.
    + apply logs_bind; [by apply logs_tell|intros _].
      apply logs_bind; [apply logs_ask|intros u]. apply logs_ret.
    + intros _. apply logs_bind; [apply current_url_or_unknown_logs|intros u].
      apply logs_ret.
Qed.
End Step5Facts.

(** X7.  With one window open (or none that can be listed), step 5 leaves
    the windows alone: whatever else happens, the commands it sends contain
    no [close] and no [switch_to.window], so it cannot close the window the
    loop runs in. *)
Theorem step_5_leaves_a_single_window_open {W} (wd : webdriver W) (url : string)
    (s : st W) :
  (forall handles, window_handles wd (world s) = Ok handles -> (length handles <= 1)%nat) ->
  exists extra,
    trace (step_5_loop_return wd url s).2 = (trace s ++ extra)%list
    /\ Forall not_window_command extra.
Proof. intros Hone. by apply (step_5_after_windows_logs wd not_window_command). Qed.

Lemma step_5_leaves_a_single_window_open_witness :
  exists extra,
    trace (step_5_loop_return sim_wd results_url
             (mkSt (sim_goto (job_url "a") one_listing_page) None [])).2
    = ([] ++ extra)%list
    /\ Forall not_window_command extra.
Proof.
  apply (step_5_leaves_a_single_window_open sim_wd results_url
           (mkSt (sim_goto (job_url "a") one_listing_page) None [])).
  intros handles [= <-]. cbn. lia.
Defined.

(** ** Subscription tiers *)

Lemma tier_limits_range t weekly max_boards :
  tier_limits !! t = Some (weekly, max_boards) -> (2 <= max_boards <= 10)%Z.
Proof.
  intros H. apply elem_of_list_to_map_2 in H.
  repeat (apply elem_of_cons in H as [[= -> -> ->]|H]; [lia|]).
  by apply elem_of_nil in H.
Qed.

(** X8.  [check_tier_limits] always answers, whatever the tier name is
    (unknown, empty, [None], any case): two boards are allowed under every
    name, more than ten under none, and what is allowed for a number of
    boards is allowed for every smaller number. *)
Theorem tier_limits_floor_and_ceiling (user_tier : option string) (n : Z) :
  exists allowed message,
    check_tier_limits user_tier n = Ok (allowed, message)
    /\ ((n <= 2)%Z -> allowed = true)
    /\ ((10 < n)%Z -> allowed = false)
    /\ forall m, (m <= n)%Z -> allowed = true ->
         check_tier_limits user_tier m = Ok (true, "Within limits").
Proof.
  unfold check_tier_limits.
  set (t0 := match user_tier with
             | Some t => if truthy_str t then lower t else "basic"
             | None => "basic"
             end).
  set (t := if bool_decide (is_Some (tier_limits !! t0)) then t0 else "basic").
  assert (Ht : is_Some (tier_limits !! t)).
  { unfold t. case_bool_decide; [done|]. exists (5, 2)%Z. by vm_compute. }
  destruct Ht as [[weekly max_boards] Ht]. rewrite Ht.
  pose proof (tier_limits_range _ _ _ Ht) as Hr.
  destruct (max_boards <? n)%Z eqn:E.
  - apply Z.ltb_lt in E. eexists _, _. split; [reflexivity|].
    split; [lia|]. split; [done|]. intros m _ [=].
  - apply Z.ltb_ge in E. eexists _, _. split; [reflexivity|].
    split; [done|]. split; [lia|]. intros m Hm _.
    assert ((max_boards <? m)%Z = false) as -> by (apply Z.ltb_ge; lia). done.
Qed.

(** X9.  The rejection of [start_automation] looks the limits up under
    the tier name of the session, not under the name [check_tier_limits]
    fell back to: for a tier name outside the table, more than two boards
    make the check raise [KeyError] instead of answering with the 400
    response, while two boards or fewer pass. *)
Theorem unknown_tier_rejection_raises (t : string) (n : Z) :
  tier_limits !! lower t = None ->
  start_automation_tier_check (Some t) n
  = if (2 <? n)%Z then Raise KeyError else Ok None.
Proof.
  intros Hunknown. unfold start_automation_tier_check, check_tier_limits.
  assert (bool_decide (is_Some (@None (Z * Z))) = false) as Hno.
  { apply bool_decide_eq_false. by intros [x Hx]. }
  assert (bool_decide (is_Some (tier_limits !! "basic")) = true) as Hyes.
  { apply bool_decide_eq_true. exists (5, 2)%Z. by vm_compute. }
  destruct (truthy_str t); rewrite ?Hunknown, ?Hno, ?Hyes;
    change (tier_limits !! "basic") with (Some (5, 2)%Z);
    cbv beta iota; by destruct (2 <? n)%Z.
Qed.

Lemma unknown_tier_rejection_raises_witness :
  start_automation_tier_check (Some "Gold") 3 = Raise KeyError
  /\ start_automation_tier_check (Some "Gold") 2 = Ok None.
Proof.
  split.
  - apply (unknown_tier_rejection_raises "Gold" 3). by vm_compute.
  - apply (unknown_tier_rejection_raises "Gold" 2). by vm_compute.
Defined.

(** ** Rows written by the job-board assistant *)



Lemma rows_added_app e e' rows :
  application_stats (db e') = (application_stats (db e) ++ rows)%list ->
  rows_added e e' = rows.
Proof. intros H. unfold rows_added. by rewrite H, drop_app_length. Qed.

Lemma record_boards_rows user_id industry boards e :
  exists rows,
    application_stats (db (record_boards user_id industry boards e))
    = (application_stats (db e) ++ rows)%list
    /\ Forall2 (fun (b : board) r =>
                  row_user_id r = user_id
                  /\ row_status r = "submitted"
                  /\ row_platform r = "job-board-" ++ dash_spaces (lower b.1)
                  /\ row_company r = default "Agency" b.2
                  /\ row_job_title r = industry ++ " Position") boards rows
    /\ map row_id rows
       = map (fun i => (next_id (db e) + Z.of_nat i)%Z) (seq 0 (length boards))
    /\ drawn (record_boards user_id industry boards e)
       = (drawn e + 8 * length boards)%nat.
Proof.
  revert e. induction boards as [|[site agency] boards IH]; intros e.
  - exists []. cbn [record_boards length seq map]. rewrite app_nil_r.
    repeat split; [constructor | lia].
  - cbn [record_boards].
    match goal with
    | |- context [record_boards _ _ _ ?e1] =>
        destruct (IH e1) as (rows & Hrows & Hall & Hids & Hdrawn)
    end.
    rewrite Hrows, Hdrawn.
    cbn [db application_stats insert_application snd next_id drawn] in *.
    eexists (_ :: rows). rewrite <- app_assoc. split; [reflexivity|].
    split; [by constructor|]. split; [|cbn [length]; lia].
    cbn [length seq map row_id]. f_equal; [lia|].
    rewrite Hids, <- seq_shift, map_map. apply map_ext. intros i. lia.
Qed.



(** ** Titles and companies of logged applications *)

Lemma substring_length m s :
  String.length (substring 0 m s) = Nat.min m (String.length s).
Proof.
  revert s. induction m as [|m IH]; intros [|c s]; cbn; try done.
  by rewrite IH.
Qed.

Lemma clip255_fits s : (1 <= String.length (clip255 s) <= 255)%nat.
Proof.
  unfold clip255. destruct s as [x|]; [|cbn; lia].
  destruct (truthy_str x) eqn:E; [|cbn; lia].
  rewrite substring_length. destruct x as [|c x]; [done|]. cbn [String.length]. lia.
Qed.

(** X11.  [log_application] cuts the job title and the company to 255
    characters and replaces an empty or missing one by [Not Specified]: if
    every row of [application_stats] has a title and a company of 1 to 255
    characters, so has every row after the call, whatever was passed. *)
Theorem logged_applications_fit_the_columns (user_email platform : string)
    (job_title company : option string) (status : string) (e : env) :
  Forall fits_the_columns (application_stats (db e)) ->
  Forall fits_the_columns
    (application_stats
       (db (log_application user_email platform job_title company status e).2)).
Proof.
  intros Hold. unfold log_application.
  destruct (reachable (db e)); cbn [negb]; [|done].
  destruct (select_user_id (db e) user_email) as [user_id|]; [|done].
  cbn [generate_simple_ref insert_application snd db application_stats].
  apply Forall_app. split; [done|]. constructor; [|constructor].
  split; apply clip255_fits.
Qed.

Lemma logged_applications_fit_the_columns_witness :
  Forall fits_the_columns
    (application_stats
       (db (log_application "ada@example.com" "dice" (Some "") None "submitted"
              tracker_env).2)).
Proof.
  apply (logged_applications_fit_the_columns "ada@example.com" "dice" (Some "") None
           "submitted" tracker_env).
  constructor.
Defined.

(** ** The orchestration thread of the job-board assistant *)

Lemma record_failed_run_row user_email industry job_title company e user_id :
  reachable (db e) = true ->
  select_user_id (db e) user_email = Some user_id ->
  exists ref,
    rows_added e (record_failed_run true user_email industry job_title company e)
    = [ mkRow (next_id (db e)) user_id ref ("job-board-" ++ lower industry) job_title
              company "failed" ].
Proof.
  intros Hup Huser. unfold record_failed_run. rewrite Hup, Huser. cbn [negb].
  eexists. by apply rows_added_app.
Qed.

(** X12.  When no assistant can be created for the industry nothing is
    submitted, and the thread still records every selected board: for a
    known user the rows added are one per board, all with status
    [submitted], and the environment is left exactly as after a run that
    reported success. *)
Theorem missing_assistant_is_recorded_as_submitted (user_email industry : string)
    (boards : list board) (e : env) (user_id : Z) :
  reachable (db e) = true ->
  select_user_id (db e) user_email = Some user_id ->
  let e' := _run_industry_orchestration true None user_email industry boards e in
  length (rows_added e e') = length boards
  /\ Forall (fun r => row_status r = "submitted" /\ row_user_id r = user_id)
            (rows_added e e')
  /\ forall result,
       vget result "success" VNone = Ok (VBool true) ->
       _run_industry_orchestration true (Some (Ok result)) user_email industry boards e
       = e'.
Proof.
  intros Hup Huser e'.
  destruct (record_boards_rows user_id industry boards e)
    as (rows & Hrows & Hall & _).
  assert (Hrun : record_board_submissions true user_email industry boards e
                 = (true, record_boards user_id industry boards e)).
  { unfold record_board_submissions. by rewrite Hup, Huser. }
  assert (e' = record_boards user_id industry boards e) as ->
    by (unfold e', _run_industry_orchestration; by rewrite Hrun).
  rewrite (rows_added_app _ _ _ Hrows).
  split; [symmetry; by eapply Forall2_length|]. split.
  - clear -Hall. induction Hall as [|b r bs rs (Hu & Hs & _) _ IH]; by constructor.
  - intros result Hres. unfold _run_industry_orchestration. by rewrite Hres, Hrun.
Qed.

Lemma missing_assistant_is_recorded_as_submitted_witness :
  let boards := [aps_board; ("Magnum Staffing", None)] in
  let e' := _run_industry_orchestration true None "ada@example.com" "Manufacturing"
              boards tracker_env in
  length (rows_added tracker_env e') = 2%nat
  /\ Forall (fun r => row_status r = "submitted" /\ row_user_id r = 7%Z)
            (rows_added tracker_env e')
  /\ forall result,
       vget result "success" VNone = Ok (VBool true) ->
       _run_industry_orchestration true (Some (Ok result)) "ada@example.com"
         "Manufacturing" boards tracker_env
       = e'.
Proof.
  apply (missing_assistant_is_recorded_as_submitted "ada@example.com"
           "Manufacturing" [aps_board; ("Magnum Staffing", None)] tracker_env 7).
  - reflexivity.
  - reflexivity.
Defined.

(** X13.  A run that reports no success, or that raises, is recorded once
    whatever the number of boards: for a known user the thread adds exactly
    one row, with status [failed] and the platform [job-board-<industry>]
    in lower case. *)
Theorem failed_run_is_recorded_once (user_email industry : string)
    (boards : list board) (e : env) (user_id : Z) (outcome : res value) :
  reachable (db e) = true ->
  select_user_id (db e) user_email = Some user_id ->
  match outcome with
  | Ok result => forall v, vget result "success" VNone = Ok v -> truthy v = false
  | Raise _ => True
  end ->
  exists r,
    rows_added e (_run_industry_orchestration true (Some outcome) user_email industry
                    boards e) = [r]
    /\ row_status r = "failed"
    /\ row_platform r = "job-board-" ++ lower industry
    /\ row_user_id r = user_id.
Proof.
  intros Hup Huser Hout. unfold _run_industry_orchestration.
  assert (G : forall job_title company,
             exists r,
               rows_added e (record_failed_run true user_email industry job_title
                               company e) = [r]
               /\ row_status r = "failed"
               /\ row_platform r = "job-board-" ++ lower industry
               /\ row_user_id r = user_id).
  { intros job_title company.
    destruct (record_failed_run_row user_email industry job_title company e user_id
                Hup Huser) as [ref ->]. by eexists. }
  destruct outcome as [result|ex]; [|apply G].
  destruct (vget result "success" VNone) as [v|ex]; [|apply G].
  rewrite (Hout v eq_refl). apply G.
Qed.

Lemma failed_run_is_recorded_once_witness :
  exists r,
    rows_added tracker_env
      (_run_industry_orchestration true
         (Some (Ok (VDict (dict_of [ ("success", VBool false) ]))))
         "ada@example.com" "Manufacturing" [aps_board; ("Magnum Staffing", None)]
         tracker_env) = [r]
    /\ row_status r = "failed"
    /\ row_platform r = "job-board-" ++ lower "Manufacturing"
    /\ row_user_id r = 7%Z.
Proof.
  apply (failed_run_is_recorded_once "ada@example.com" "Manufacturing"
           [aps_board; ("Magnum Staffing", None)] tracker_env 7
           (Ok (VDict (dict_of [ ("success", VBool false) ])))).
  - reflexivity.
  - reflexivity.
  - intros v. vm_compute. intros [= <-]. reflexivity.
Defined.

(** ** Tracking what the platforms report *)

Lemma text_arg_str s : text_arg (VStr s) = Ok (if truthy_str s then Some s else None).
Proof. unfold text_arg, truthy_str. cbn [truthy]. by destruct (negb (s =? "")%string). Qed.

Lemma clip255_truthy s : clip255 (if truthy_str s then Some s else None) = clip255 (Some s).
Proof. unfold clip255. by destruct (truthy_str s) eqn:E; rewrite ?E. Qed.

Section TrackingFacts.
Variable user_email : string.
Variable user_id : Z.

(** One tracked application, with a title and a company that are strings,
    is one row. *)
Lemma track_application_row platform jt c status e :
  known_user user_email user_id e ->
  exists v e',
    _track_application user_email platform (VStr jt) (VStr c) status e = (Ok v, e')
    /\ known_user user_email user_id e'
    /\ exists ref,
         application_stats (db e')
         = (application_stats (db e)
            ++ [mkRow (next_id (db e)) user_id ref platform (clip255 (Some jt))
                      (clip255 (Some c)) status])%list.
Proof.
  intros [Hup Huser]. unfold _track_application. rewrite !text_arg_str.
  unfold log_application. rewrite Hup, Huser. cbn [negb].
  cbn [generate_simple_ref insert_application]. rewrite !clip255_truthy.
  eexists _, _. split; [reflexivity|]. split; [by split|]. by eexists.
Qed.

Lemma track_generic_rows platform jt prefix indices e :
  known_user user_email user_id e ->
  exists e' rows,
    track_generic user_email platform (VStr jt) prefix indices e = (Ok tt, e')
    /\ known_user user_email user_id e'
    /\ application_stats (db e') = (application_stats (db e) ++ rows)%list
    /\ length rows = length indices
    /\ Forall (fun r => row_platform r = platform
                        /\ row_status r = "submitted"
                        /\ row_job_title r = clip255 (Some jt)
                        /\ row_user_id r = user_id) rows.
Proof.
  revert e. induction indices as [|i rest IH]; intros e Hk.
  - exists e, []. cbn. by rewrite app_nil_r.
  - cbn [track_generic]. unfold tbind at 1.
    destruct (track_application_row platform jt (prefix ++ show_Z (i + 1)) "submitted"
                e Hk) as (v & e1 & -> & Hk1 & ref & Hrow).
    destruct (IH e1 Hk1) as (e' & rows & -> & Hk' & Hrows & Hlen & Hall).
    eexists e', (_ :: rows). split; [done|]. split; [done|].
    split; [rewrite Hrows, Hrow, <- app_assoc; reflexivity|].
    split; [cbn; by rewrite Hlen|]. by constructor.
Qed.
End TrackingFacts.

Lemma run_summary_reports title loc tier n jobs :
  exists sd,
    run_summary title loc tier (loop_result n jobs) = Ok (VDict sd)
    /\ sd !! "success" = Some (VBool true)
    /\ sd !! "total_applications" = Some (VInt n)
    /\ sd !! "applied_jobs" = Some (VList jobs)
    /\ sd !! "jobs_applied" = None.
Proof.
  unfold run_summary, loop_result, vindex, dict_of. simpl. simplify_map_eq.
  eexists. split; [reflexivity|]. repeat split; by simplify_map_eq.
Qed.

(** X14.  The Dice assistant reports its entries under [applied_jobs];
    [_dice_automation] and [_run_automation] both look for [jobs_applied],
    find nothing, and both track the run generically.  For a known user and
    a Dice run that reports [n] applications, whatever entries it lists, the
    orchestrator adds [2 * n] rows: [n] by [_dice_automation] and [n] more by
    [_run_automation], all for platform [dice], with status [submitted] and
    the searched title as job title. *)
Theorem dice_applications_are_tracked_twice (dice_assistant_path : string)
    (dice_run_automation : value -> res value) (d : gmap string value)
    (user_email : string) (user_id : Z) (name : value) (job_title : string)
    (title : string) (loc : option string) (tier : string) (n : Z)
    (jobs : list value) (e : env) :
  reachable (db e) = true ->
  select_user_id (db e) user_email = Some user_id ->
  d !! "name" = Some name ->
  d !! "jobTitle" = Some (VStr job_title) ->
  dice_run_automation (VDict d) = run_summary title loc tier (loop_result n jobs) ->
  let e' := _run_automation true dice_assistant_path dice_run_automation (VDict d)
              ["dice"] user_email e in
  length (rows_added e e') = (2 * Z.to_nat n)%nat
  /\ Forall (fun r => row_platform r = "dice"
                      /\ row_status r = "submitted"
                      /\ row_job_title r = clip255 (Some job_title)
                      /\ row_user_id r = user_id) (rows_added e e').
Proof.
  intros Hup Huser Hname Htitle Hrun e'.
  destruct (run_summary_reports title loc tier n jobs)
    as (sd & Hsd & Hsucc & Htotal & _ & Hnone).
  rewrite Hsd in Hrun.
  assert (Hk : known_user user_email user_id e) by done.
  destruct (track_generic_rows user_email user_id "dice" job_title "Dice Company "
              (py_range n) e Hk) as (e1 & rows1 & Ht1 & Hk1 & Hrows1 & Hlen1 & Hall1).
  destruct (track_generic_rows user_email user_id "dice" job_title "Company "
              (py_range n) e1 Hk1) as (e2 & rows2 & Ht2 & Hk2 & Hrows2 & Hlen2 & Hall2).
  assert (He' : e' = e2).
  { unfold e', _run_automation. cbn [run_platforms].
    unfold run_platform, _dice_automation, ttry, tbind, tlift, tret, vget, vindex,
      as_count.
    change ("dice" =? "indeed")%string with false.
    change ("dice" =? "dice")%string with true.
    repeat (progress (cbn [negb default id truthy as_int fst snd];
                      rewrite ?Hname, ?Hrun, ?Hsucc, ?Hnone, ?Htitle, ?Htotal,
                        ?Ht1, ?Ht2)).
    done. }
  rewrite He'.
  rewrite (rows_added_app e e2 (rows1 ++ rows2)%list)
    by (rewrite Hrows2, Hrows1; by rewrite <- app_assoc).
  split.
  - rewrite length_app, Hlen1, Hlen2. unfold py_range.
    rewrite length_map, length_seq. lia.
  - by apply Forall_app.
Qed.

Lemma dice_applications_are_tracked_twice_witness :
  let dice := fun user_data =>
    (dice_run sim_wd login_ok (step_unless "b" (VBool true)) (ret (VBool true))
       (ret confirmed) (Ok (fresh abc_listings_page)) (Some "ada@example.com")
       user_data).1 in
  let user_data := dict_of [ ("name", VStr "Ada"); ("jobTitle", VStr "Engineer") ] in
  let e' := _run_automation true "dice-assistant.py" dice (VDict user_data) ["dice"]
              "ada@example.com" tracker_env in
  length (rows_added tracker_env e') = 4%nat
  /\ Forall (fun r => row_platform r = "dice"
                      /\ row_status r = "submitted"
                      /\ row_job_title r = clip255 (Some "Engineer")
                      /\ row_user_id r = 7%Z) (rows_added tracker_env e').
Proof.
  apply (dice_applications_are_tracked_twice "dice-assistant.py"
           (fun user_data =>
              (dice_run sim_wd login_ok (step_unless "b" (VBool true)) (ret (VBool true))
                 (ret confirmed) (Ok (fresh abc_listings_page)) (Some "ada@example.com")
                 user_data).1)
           (dict_of [ ("name", VStr "Ada"); ("jobTitle", VStr "Engineer") ])
           "ada@example.com" 7 (VStr "Ada") "Engineer" "Engineer" None "Tier 1" 2
           [applied_job "Engineer" None 0; applied_job "Engineer" None 2] tracker_env).
  - reflexivity.
  - reflexivity.
  - vm_compute. reflexivity.
  - vm_compute. reflexivity.
  - vm_compute. reflexivity.
Defined.

Lemma failure_not_success msg : vget (failure msg) "success" VNone = Ok (VBool false).
Proof. unfold failure, vget, dict_of. simpl. by simplify_map_eq. Qed.

Section UnimplementedPlatforms.
Variable dice_assistant_exists : bool.
Variable dice_assistant_path : string.
Variable dice_run_automation : value -> res value.
Variable d : gmap string value.
Variable user_email : string.
Variable user_id : Z.
Variable job_title : string.
Hypothesis has_title : d !! "jobTitle" = Some (VStr job_title).

Lemma run_platform_unimplemented platform e :
  known_user user_email user_id e ->
  platform <> "indeed" -> platform <> "dice" ->
  exists e' ref,
    run_platform dice_assistant_exists dice_assistant_path dice_run_automation
      (VDict d) user_email platform e = (Ok tt, e')
    /\ known_user user_email user_id e'
    /\ application_stats (db e')
       = (application_stats (db e)
          ++ [mkRow (next_id (db e)) user_id ref platform (clip255 (Some job_title))
                    "N/A" "failed"])%list.
Proof using has_title.
  intros Hk Hi Hd.
  destruct (track_application_row user_email user_id platform job_title "N/A" "failed"
              e Hk) as (v & e' & Ht & Hk' & ref & Hrow).
  exists e', ref. split; [|by split].
  unfold run_platform.
  apply String.eqb_neq in Hi, Hd. rewrite Hi, Hd.
  unfold _glassdoor_automation, _ziprecruiter_automation.
  assert (G : forall msg,
             ttry
               (let+ result := tret (failure msg) in
                let+ success := tlift (vget result "success" VNone) in
                let+ title := tlift (vget (VDict d) "jobTitle" (VStr "Not Specified")) in
                if truthy success
                then
                  let+ applications := tlift (vget result "total_applications" (VInt 0)) in
                  let+ n := tlift (as_count applications) in
                  let+ jobs_applied := tlift (vget result "jobs_applied" VNone) in
                  if truthy jobs_applied
                  then
                    let+ jobs := tlift (as_jobs jobs_applied) in
                    track_jobs user_email platform title "Various" jobs
                  else track_generic user_email platform title "Company " (py_range n)
                else
                  do+ _track_application user_email platform title (VStr "N/A")
                        "failed" in
                  tret tt)
               (fun _ =>
                  let+ title := tlift (vget (VDict d) "jobTitle" (VStr "Not Specified")) in
                  do+ _track_application user_email platform title (VStr "N/A")
                        "failed" in
                  tret tt) e
             = (Ok tt, e')).
  { intros msg. unfold ttry, tbind, tlift, tret. rewrite failure_not_success.
    unfold vget. rewrite has_title. cbn [default id truthy]. by rewrite Ht. }
  destruct (platform =? "glassdoor")%string; [apply G|].
  destruct (platform =? "ziprecruiter")%string; apply G.
Qed.

Lemma run_platforms_unimplemented platforms e :
  known_user user_email user_id e ->
  Forall (fun p => p <> "indeed" /\ p <> "dice") platforms ->
  exists e' rows,
    run_platforms dice_assistant_exists dice_assistant_path dice_run_automation
      (VDict d) user_email platforms e = (Ok tt, e')
    /\ application_stats (db e') = (application_stats (db e) ++ rows)%list
    /\ map (fun r => (row_platform r, row_status r, row_company r)) rows
       = map (fun p => (p, "failed", "N/A")) platforms
    /\ Forall (fun r => row_user_id r = user_id
                        /\ row_job_title r = clip255 (Some job_title)) rows.
Proof using has_title.
  intros Hk Hall. revert e Hk.
  induction Hall as [|p ps [Hi Hd] _ IH]; intros e Hk.
  - exists e, []. cbn. by rewrite app_nil_r.
  - cbn [run_platforms]. unfold tbind at 1.
    destruct (run_platform_unimplemented p e Hk Hi Hd) as (e1 & ref & -> & Hk1 & Hrow).
    destruct (IH e1 Hk1) as (e' & rows & -> & Hrows & Hmap & Hu).
    eexists e', (_ :: rows). split; [done|].
    split; [rewrite Hrows, Hrow, <- app_assoc; reflexivity|].
    split; [cbn [map row_platform row_status row_company]; by rewrite Hmap|].
    by constructor.
Qed.
End UnimplementedPlatforms.

(** X15.  A platform other than Indeed and Dice is never run: Glassdoor,
    ZipRecruiter and every unknown name answer a failure at once, and the
    orchestrator tracks it.  For a known user the rows added are one per
    selected platform, in order, each with status [failed], company [N/A]
    and the requested title. *)
Theorem other_platforms_are_tracked_as_failed (dice_assistant_exists : bool)
    (dice_assistant_path : string) (dice_run_automation : value -> res value)
    (d : gmap string value) (user_email : string) (user_id : Z) (job_title : string)
    (platforms : list string) (e : env) :
  reachable (db e) = true ->
  select_user_id (db e) user_email = Some user_id ->
  d !! "jobTitle" = Some (VStr job_title) ->
  Forall (fun p => p <> "indeed" /\ p <> "dice") platforms ->
  let e' := _run_automation dice_assistant_exists dice_assistant_path
              dice_run_automation (VDict d) platforms user_email e in
  map (fun r => (row_platform r, row_status r, row_company r)) (rows_added e e')
  = map (fun p => (p, "failed", "N/A")) platforms
  /\ Forall (fun r => row_user_id r = user_id
                      /\ row_job_title r = clip255 (Some job_title)) (rows_added e e').
Proof.
  intros Hup Huser Htitle Hall e'.
  destruct (run_platforms_unimplemented dice_assistant_exists dice_assistant_path
              dice_run_automation d user_email user_id job_title Htitle platforms e
              (conj Hup Huser) Hall) as (e1 & rows & Hrun & Hrows & Hmap & Hu).
  assert (e' = e1) as -> by (unfold e', _run_automation; by rewrite Hrun).
  by rewrite (rows_added_app _ _ _ Hrows).
Qed.

Lemma other_platforms_are_tracked_as_failed_witness :
  let e' := _run_automation true "dice-assistant.py" (fun _ => Raise WebDriverException)
              (VDict (dict_of [ ("name", VStr "Ada"); ("jobTitle", VStr "Engineer") ]))
              ["glassdoor"; "linkedin"] "ada@example.com" tracker_env in
  map (fun r => (row_platform r, row_status r, row_company r)) (rows_added tracker_env e')
  = [ ("glassdoor", "failed", "N/A"); ("linkedin", "failed", "N/A") ]
  /\ Forall (fun r => row_user_id r = 7%Z
                      /\ row_job_title r = clip255 (Some "Engineer"))
            (rows_added tracker_env e').
Proof.
  apply (other_platforms_are_tracked_as_failed true "dice-assistant.py"
           (fun _ => Raise WebDriverException)
           (dict_of [ ("name", VStr "Ada"); ("jobTitle", VStr "Engineer") ])
           "ada@example.com" 7 "Engineer" ["glassdoor"; "linkedin"] tracker_env).
  - reflexivity.
  - reflexivity.
  - vm_compute. reflexivity.
  - repeat constructor; discriminate.
Defined.

(** ** Step 10: confirmation and return *)

Lemma first_indicator_some page_text indicators indicator :
  first_indicator page_text indicators = Some indicator ->
  In indicator indicators /\ str_in indicator page_text = true.
Proof.
  induction indicators as [|i rest IH]; [done|]. cbn [first_indicator].
  destruct (str_in i page_text) eqn:E.
  - intros [= <-]. split; [by left|done].
  - intros H. destruct (IH H). split; [by right|done].
Qed.

(** X16.  [_check_confirmation] sets a message only together with
    [confirmed]: when the answer carries a message, the application counts
    as confirmed, the message is one of the six success phrases, and the
    page source, in lower case, contains it.  And a URL that changed to one
    holding [success], [confirm] or [thank] confirms whatever the reads
    after it do, raising included. *)
Theorem confirmation_message_means_confirmed {W} (wd : webdriver W) (w : W)
    (previous_url : string) :
  (forall indicator,
      (_check_confirmation wd w previous_url).2 = Some indicator ->
      (_check_confirmation wd w previous_url).1 = true
      /\ In indicator success_indicators
      /\ exists source,
           page_source wd w = Ok source /\ str_in indicator (lower source) = true)
  /\ (forall url,
        current_url wd w = Ok url ->
        url <> previous_url ->
        any_in confirmation_url_terms (lower url) = true ->
        (_check_confirmation wd w previous_url).1 = true).
Proof.
  unfold _check_confirmation. split.
  - intros indicator. destruct (current_url wd w) as [url|e]; [|done].
    destruct (page_source wd w) as [source|e]; [|done]. cbn [fst snd].
    intros Hfound. rewrite Hfound.
    destruct (first_indicator_some _ _ _ Hfound) as [Hin Hstr].
    split; [by destruct (any_confirmation_element wd w confirmation_selectors)|].
    split; [done|]. by exists source.
  - intros url -> Hne Hterm. rewrite Hterm.
    apply String.eqb_neq in Hne. rewrite Hne. cbn [negb andb].
    destruct (page_source wd w) as [source|e]; [|done]. cbn [fst].
    destruct (any_confirmation_element wd w confirmation_selectors); [done|].
    by destruct (first_indicator (lower source) success_indicators).
Qed.

Section ReturnFacts.
Context {W : Type} (wd : webdriver W).

(** One XPath of [_return_to_job_search]: at most one click is sent, and a
    [True] means one was sent and did not raise. *)
Lemma click_first_displayed_trace elements s :
  exists clicks,
    trace (click_first_displayed wd elements s).2 = (trace s ++ map EClick clicks)%list
    /\ (length clicks <= 1)%nat
    /\ ((click_first_displayed wd elements s).1 = Ok true -> length clicks = 1%nat).
Proof.
  induction elements as [|el rest IH].
  - exists []. cbn. rewrite app_nil_r. repeat split; [lia|done].
  - cbn [click_first_displayed]. unfold bind, ask.
    destruct (is_displayed wd el (world s)) as [[|]|e].
    + exists [el]. unfold tell, ret.
      destruct (click wd el (world s)) as [[u|e] w1]; cbn; repeat split; lia || done.
    + exact IH.
    + exists []. cbn. rewrite app_nil_r. repeat split; [lia|done].
Qed.

Lemma try_return_links_trace xpaths s :
  exists b clicks,
    (try_return_links wd xpaths s).1 = Ok b
    /\ trace (try_return_links wd xpaths s).2 = (trace s ++ map EClick clicks)%list
    /\ (length clicks <= length xpaths)%nat.
Proof.
  revert s. induction xpaths as [|xpath rest IH]; intros s.
  - exists false, []. cbn. by rewrite app_nil_r.
  - cbn [try_return_links]. unfold bind, try_except, ask.
    destruct (find_elements wd (XPATH, xpath) (world s)) as [elements|e].
    + destruct (click_first_displayed_trace elements s) as (c1 & Ht1 & Hl1 & _).
      destruct (click_first_displayed wd elements s) as [[[|]|e] s1]; cbn [fst snd] in *.
      * exists true, c1. cbn [length]. repeat split; [done|lia].
      * destruct (IH s1) as (b & c2 & Hb & Ht2 & Hl2). exists b, (c1 ++ c2)%list.
        split; [done|]. rewrite Ht2, Ht1, map_app, length_app, <- app_assoc.
        cbn [length]. split; [done|lia].
      * cbn [ret]. destruct (IH s1) as (b & c2 & Hb & Ht2 & Hl2).
        exists b, (c1 ++ c2)%list.
        split; [done|]. rewrite Ht2, Ht1, map_app, length_app, <- app_assoc.
        cbn [length]. split; [done|lia].
    + cbn [ret]. destruct (IH s) as (b & c2 & Hb & Ht2 & Hl2). exists b, c2.
      cbn [length]. repeat split; [done|done|lia].
Qed.
End ReturnFacts.

(** X17.  [_return_to_job_search] never raises.  The commands it sends
    are clicks on return links, at most one per XPath, followed by at most
    one navigation, to the jobs page; it navigates only when no click went
    through, and it answers [False] only after that navigation. *)
Theorem return_to_job_search_clicks_or_navigates {W} (wd : webdriver W) (s : st W) :
  exists b clicks nav,
    (_return_to_job_search wd s).1 = Ok b
    /\ trace (_return_to_job_search wd s).2 = (trace s ++ map EClick clicks ++ nav)%list
    /\ (length clicks <= 4)%nat
    /\ ((nav = [] /\ b = true) \/ nav = [EGet jobs_page_url]).
Proof.
  unfold _return_to_job_search, try_except, bind.
  destruct (try_return_links_trace wd return_xpath_selectors s)
    as (b & clicks & Hb & Ht & Hl).
  change (length return_xpath_selectors) with 4%nat in Hl.
  destruct (try_return_links wd return_xpath_selectors s) as [r s1].
  cbn [fst snd] in *. subst r. destruct b.
  - exists true, clicks, []. rewrite app_nil_r. unfold ret. cbn [fst snd].
    split; [done|]. split; [done|]. split; [lia|by left].
  - unfold tell, ret.
    destruct (get wd jobs_page_url (world s1)) as [[u|e] w1]; cbn [fst snd trace];
      eexists _, clicks, [EGet jobs_page_url]; rewrite Ht, <- app_assoc;
      (split; [reflexivity|]); (split; [done|]); (split; [lia|by right]).
Qed.

(** ** Step 10: what it answers *)





Lemma confirmation_message_means_confirmed_witness :
  (_check_confirmation sim_wd thank_you_page "https://www.dice.com/apply/1").1 = true.
Proof.
  refine (proj1 (proj1 (confirmation_message_means_confirmed sim_wd thank_you_page
                          "https://www.dice.com/apply/1")
                       "thank you for applying" _)).
  vm_compute. reflexivity.
Defined.


(** ** Steps 8 and 9: the click helpers *)

Section SendsFirst.
Context {W : Type}.

Lemma sends_first_tell ev {A} (c : W -> res A * W) : sends_first ev (tell ev c).
Proof. intros s. exists []. unfold tell. by destruct (c (world s)). Qed.

Lemma sends_first_bind ev {A B} (m : M W A) (k : A -> M W B) :
  sends_first ev m -> (forall a, logs any_event (k a)) -> sends_first ev (bind m k).
Proof.
  intros Hm Hk s. unfold bind. destruct (Hm s) as (x1 & H1).
  destruct (m s) as [[a|e] s1]; cbn [snd] in *; [|by exists x1].
  destruct (Hk a s1) as (x2 & H2 & _). exists (x1 ++ x2)%list. rewrite H2, H1. trace_eq.
Qed.

Lemma sends_first_try_except ev {A} (m : M W A) h :
  sends_first ev m -> (forall e, logs any_event (h e)) -> sends_first ev (try_except m h).
Proof.
  intros Hm Hh s. unfold try_except. destruct (Hm s) as (x1 & H1).
  destruct (m s) as [[a|e] s1]; cbn [snd] in *; [by exists x1|].
  destruct (Hh e s1) as (x2 & H2 & _). exists (x1 ++ x2)%list. rewrite H2, H1. trace_eq.
Qed.

Lemma logs_any {A} (P : event -> Prop) (m : M W A) : logs P m -> logs any_event m.
Proof.
  intros H s. destruct (H s) as (x & Hx & _). exists x. split; [done|].
  by apply Forall_forall.
Qed.
End SendsFirst.

Section Step9Facts.
Context {W : Type} (wd : webdriver W).

Lemma try_click_method_9_total button m s :
  exists b, (try_click_method_9 wd button m s).1 = Ok b.
Proof.
  apply (total_try_except (W:=W)). intros _. apply total_ret.
Qed.

Lemma run_click_methods_9_true button methods s :
  (run_click_methods_9 wd button methods s).1 = Ok true.
Proof.
  revert s. induction methods as [|m methods IH]; intros s; [done|].
  cbn [run_click_methods_9]. unfold bind.
  destruct (try_click_method_9_total button m s) as [b Hb].
  destruct (try_click_method_9 wd button m s) as [r s1]. cbn [fst] in Hb. subst r.
  destruct b; [done|]. apply IH.
Qed.

Lemma click_methods_log button : Forall (logs any_event) (click_methods wd button).
Proof.
  unfold click_methods. repeat apply Forall_cons_2; [| | | |apply Forall_nil_2].
  - apply logs_bind; [by apply logs_tell|intros _; apply logs_ret].
  - apply logs_bind; [by apply logs_tell|intros _; apply logs_ret].
  - by apply logs_tell.
  - repeat (apply logs_bind; [by apply logs_tell|intros _]). apply logs_ret.
Qed.

Lemma after_click_9_logs button (u : unit) :
  logs any_event
    (let* gone :=
       try_except
         (let* shown := ask (is_displayed wd button) in
          ret (negb shown))
         (fun _ => ret true) in
     if gone then ret true
     else
       let* loading_indicators := ask (find_elements wd loading_selector) in
       ask (fun w => any_displayed wd w loading_indicators)).
Proof.
  apply logs_bind.
  - apply logs_try_except; [|intros _; apply logs_ret].
    apply logs_bind; [apply logs_ask|intros shown; apply logs_ret].
  - intros [|]; [apply logs_ret|].
    apply logs_bind; [apply logs_ask|intros l; apply logs_ask].
Qed.

Lemma try_click_method_9_logs button m :
  logs any_event m -> logs any_event (try_click_method_9 wd button m).
Proof.
  intros Hm. apply logs_try_except; [|intros _; apply logs_ret].
  apply logs_bind; [done|]. intros u. apply (after_click_9_logs button u).
Qed.

Lemma run_click_methods_9_logs button methods :
  Forall (logs any_event) methods ->
  logs any_event (run_click_methods_9 wd button methods).
Proof.
  induction 1 as [|m ms Hm _ IH]; [apply logs_ret|].
  cbn [run_click_methods_9]. apply logs_bind; [by apply try_click_method_9_logs|].
  intros [|]; [apply logs_ret|done].
Qed.

(** The click helper of step 9 starts with the JavaScript click. *)
Lemma click_button_safely_9_sends button :
  sends_first (EScript js_click [button]) (_click_button_safely_9 wd button).
Proof.
  pose proof (click_methods_log button) as Hall.
  unfold _click_button_safely_9, click_methods in *.
  apply Forall_cons in Hall as [_ Hrest].
  apply (run_click_methods_9_logs button) in Hrest.
  match type of Hrest with
  | logs _ (run_click_methods_9 _ _ ?rest) => set (rs := rest) in *; clearbody rs
  end.
  cbn [run_click_methods_9]. apply sends_first_bind.
  - unfold try_click_method_9. apply sends_first_try_except; [|intros _; apply logs_ret].
    apply sends_first_bind; [|intros u; apply (after_click_9_logs button u)].
    apply sends_first_bind; [apply sends_first_tell|intros _; apply logs_ret].
  - intros [|]; [apply logs_ret|done].
Qed.

Lemma find_next_button_logs : logs any_event (_find_next_button wd).
Proof.
  unfold _find_next_button.
  apply logs_bind; [apply logs_ask|intros [b|]]; [apply logs_ret|].
  apply logs_bind; [apply logs_ask|intros [b|]]; [apply logs_ret|].
  apply logs_bind.
  - unfold except_timeout. apply logs_try_except.
    + apply logs_bind; [by apply logs_tell|intros b; apply logs_ret].
    + intros e. destruct e; (apply logs_ret || apply logs_raise).
  - intros [b|]; [apply logs_ret|apply logs_ask].
Qed.
End Step9Facts.

(** X19.  The click helper of step 9 answers [True] from every state,
    confirmed or not, so step 9's own failure branch for it is dead.
    [step_9_submit_application] never raises and always answers a Boolean,
    and a [True] means that a Next button was found and that the JavaScript
    click on it is among the commands sent. *)
Theorem step_9_answers_after_a_click {W} (wd : webdriver W) (s : st W) :
  (forall button s', (_click_button_safely_9 wd button s').1 = Ok true)
  /\ exists b extra,
       (step_9_submit_application wd s).1 = Ok (VBool b)
       /\ trace (step_9_submit_application wd s).2 = (trace s ++ extra)%list
       /\ (b = true -> exists button, In (EScript js_click [button]) extra).
Proof.
  split; [intros button s'; apply run_click_methods_9_true|].
  unfold step_9_submit_application, try_except, bind, ask, ret.
  destruct (current_url wd (world s)) as [url|e].
  2: { exists false, []. rewrite app_nil_r. done. }
  destruct (find_next_button_logs wd s) as (x0 & H0 & _).
  destruct (_find_next_button wd s) as [[[button|]|e] s1]; cbn [snd] in H0.
  2, 3: exists false, x0; done.
  unfold tell.
  destruct (execute_script wd js_scroll_center [button] (world s1)) as [[r|e] w2].
  2: { exists false, (x0 ++ [EScript js_scroll_center [button]])%list. cbn [fst snd trace].
       rewrite H0. split; [done|]. split; [trace_eq|done]. }
  set (s2 := mkSt w2 (original_window s1) (trace s1 ++ [EScript js_scroll_center [button]])).
  pose proof (run_click_methods_9_true wd button (click_methods wd button) s2) as Hok.
  destruct (click_button_safely_9_sends wd button s2) as (x3 & H3).
  unfold _click_button_safely_9 in *.
  destruct (run_click_methods_9 wd button (click_methods wd button) s2) as [r3 s3].
  cbn [fst snd] in *. subst r3.
  assert (Ht : trace s3
               = (trace s ++ x0 ++ EScript js_scroll_center [button]
                    :: EScript js_click [button] :: x3)%list).
  { rewrite H3. unfold s2. cbn [trace]. rewrite H0. trace_eq. }
  assert (Hin : In (EScript js_click [button])
                  (x0 ++ EScript js_scroll_center [button]
                      :: EScript js_click [button] :: x3)).
  { apply in_or_app. right. right. by left. }
  destruct (current_url wd (world s3)) as [new_url|e]; cbn [fst snd].
  - eexists true, _. split; [done|]. split; [exact Ht|]. intros _. by exists button.
  - eexists false, _. split; [done|]. split; [exact Ht|]. done.
Qed.

Section Step8Facts.
Context {W : Type} (wd : webdriver W).


End Step8Facts.


(** On a browser where every command raises the helper of step 8 answers
    [False] where those of steps 9 and 10 answer [True]. *)
Example click_helpers_on_a_dead_browser :
  (_click_element_safely dead_wd 0%nat (fresh tt)).1 = Ok false
  /\ (_click_button_safely_9 dead_wd 0%nat (fresh tt)).1 = Ok true
  /\ (_click_button_safely dead_wd 0%nat (fresh tt)).1 = Ok true.
Proof. vm_compute. repeat split; reflexivity. Qed.

(** ** Credentials: who sees a change *)

Lemma both_set_some email password :
  email <> "" -> password <> "" ->
  both_set (Some email, Some password)
  = Some (list_to_map [ ("email", email); ("password", password) ]).
Proof.
  intros He Hp. unfold both_set, truthy_str.
  apply String.eqb_neq in He, Hp. by rewrite He, Hp.
Qed.

Lemma lookup_credentials_pair objs table u ref d p email password :
  table !! u = Some ref ->
  objs !! ref = Some d ->
  d !! p = Some (list_to_map [ ("email", email); ("password", password) ]) ->
  lookup_credentials objs table u p = Ok (Some (email, password)).
Proof.
  intros Hu Hr Hp. unfold lookup_credentials. rewrite Hu, Hr, Hp.
  cbn [list_to_map foldr uncurry fst snd]. by simplify_map_eq.
Qed.

(** X21.  A manager copies the module-level table of references, not the
    per-user dictionaries: an environment override that applies (both
    values set and not empty, user in the table) is written into the
    dictionary the module-level table refers to, so the table itself, and
    with it every manager made later, gives the overriding credentials. *)
Theorem overrides_write_through_to_the_module_table (c : cred_state)
    (user_email platform email password : string) (ref : nat) (d : platforms) :
  USER_PLATFORM_CREDENTIALS c !! user_email = Some ref ->
  objects c !! ref = Some d ->
  email <> "" -> password <> "" ->
  let c' := CredentialsManager [ (user_email, [ (platform, (Some email, Some password)) ]) ]
              c in
  USER_PLATFORM_CREDENTIALS c' = USER_PLATFORM_CREDENTIALS c
  /\ get_platform_credentials c' user_email platform = Ok (Some (email, password))
  /\ lookup_credentials (objects c') (USER_PLATFORM_CREDENTIALS c') user_email platform
     = Ok (Some (email, password))
  /\ get_platform_credentials (CredentialsManager [] c') user_email platform
     = Ok (Some (email, password)).
Proof.
  intros Hu Hr He Hp c'.
  assert (Hc' : c' = mkCreds (alter (fun d => <[platform :=
                                list_to_map [ ("email", email); ("password", password) ]]> d)
                                ref (objects c))
                       (USER_PLATFORM_CREDENTIALS c) (USER_PLATFORM_CREDENTIALS c)).
  { unfold c', CredentialsManager. cbn [_apply_environment_overrides user_credentials].
    rewrite Hu. cbn [override_platforms objects USER_PLATFORM_CREDENTIALS user_credentials].
    by rewrite (both_set_some _ _ He Hp). }
  assert (Hlook : lookup_credentials (objects c') (USER_PLATFORM_CREDENTIALS c)
                    user_email platform = Ok (Some (email, password))).
  { rewrite Hc'. cbn [objects].
    eapply lookup_credentials_pair; [exact Hu| |].
    - rewrite lookup_alter_eq, Hr. reflexivity.
    - cbv beta. by simplify_map_eq. }
  rewrite Hc' in *. cbn [USER_PLATFORM_CREDENTIALS user_credentials objects] in *.
  split; [done|]. split; [exact Hlook|]. split; exact Hlook.
Qed.

Lemma overrides_write_through_to_the_module_table_witness :
  lookup_credentials (objects demo_credentials)
    (USER_PLATFORM_CREDENTIALS demo_credentials) "demo@jobbot.com" "dice"
  = Ok (Some ("demo.user@dice.com", "secret"))
  /\ let c' := CredentialsManager
                 [ ("demo@jobbot.com",
                    [ ("dice", (Some "prod.user@dice.com", Some "other")) ]) ]
                 demo_credentials in
     lookup_credentials (objects c') (USER_PLATFORM_CREDENTIALS c') "demo@jobbot.com" "dice"
     = Ok (Some ("prod.user@dice.com", "other")).
Proof.
  split; [vm_compute; reflexivity|].
  refine (proj1 (proj2 (proj2
    (overrides_write_through_to_the_module_table demo_credentials "demo@jobbot.com"
       "dice" "prod.user@dice.com" "other" 0%nat
       {[ "dice" := list_to_map [ ("email", "demo.user@dice.com");
                                  ("password", "secret") ] ]} _ _ _ _)))).
  - vm_compute. reflexivity.
  - vm_compute. reflexivity.
  - discriminate.
  - discriminate.
Defined.

(** X22.  [add_user_credentials] stays with the manager: the dictionary
    passed in becomes a new object, so the module-level table gives what
    it gave before for every user and platform, the manager's other users
    are untouched, and the platforms of the added user are exactly the
    keys passed in, whatever the user had before. *)
Theorem added_credentials_stay_with_the_manager (c : cred_state) (user_email : string)
    (platform_credentials : gmap string (gmap string string)) :
  well_formed c ->
  let c' := add_user_credentials user_email platform_credentials c in
  (forall u p,
      lookup_credentials (objects c') (USER_PLATFORM_CREDENTIALS c') u p
      = lookup_credentials (objects c) (USER_PLATFORM_CREDENTIALS c) u p)
  /\ (forall u p, u <> user_email ->
        get_platform_credentials c' u p = get_platform_credentials c u p)
  /\ get_supported_platforms c' user_email = dom platform_credentials
  /\ well_formed c'.
Proof.
  intros [Hmod Hman] c'.
  set (ref := stdpp.base.fresh (dom (objects c))).
  assert (Hfresh : objects c !! ref = None).
  { apply not_elem_of_dom. apply is_fresh. }
  assert (Hold : forall r, is_Some (objects c !! r) ->
                   <[ref := platform_credentials]> (objects c) !! r = objects c !! r).
  { intros r [x Hx]. apply lookup_insert_ne. intros ->. congruence. }
  unfold c', add_user_credentials. fold ref.
  cbn [objects USER_PLATFORM_CREDENTIALS user_credentials].
  split; [|split; [|split]].
  - intros u p. unfold lookup_credentials.
    destruct (USER_PLATFORM_CREDENTIALS c !! u) as [r|] eqn:E; [|done].
    by rewrite (Hold r (Hmod u r E)).
  - intros u p Hne. unfold get_platform_credentials, lookup_credentials.
    cbn [objects user_credentials]. rewrite lookup_insert_ne by done.
    destruct (user_credentials c !! u) as [r|] eqn:E; [|done].
    by rewrite (Hold r (Hman u r E)).
  - unfold get_supported_platforms. cbn [objects user_credentials].
    by rewrite !lookup_insert_eq.
  - split; cbn [objects USER_PLATFORM_CREDENTIALS user_credentials].
    + intros u r E. rewrite (Hold r (Hmod u r E)). by apply (Hmod u).
    + intros u r E. destruct (decide (u = user_email)) as [->|Hne].
      * rewrite lookup_insert_eq in E. injection E as <-. by rewrite lookup_insert_eq.
      * rewrite lookup_insert_ne in E by done.
        rewrite (Hold r (Hman u r E)). by apply (Hman u).
Qed.

Lemma added_credentials_stay_with_the_manager_witness :
  let c := CredentialsManager [] demo_credentials in
  let c' := add_user_credentials "demo@jobbot.com" {[ "indeed" := ∅ ]} c in
  lookup_credentials (objects c') (USER_PLATFORM_CREDENTIALS c') "demo@jobbot.com" "dice"
  = lookup_credentials (objects c) (USER_PLATFORM_CREDENTIALS c) "demo@jobbot.com" "dice"
  /\ get_supported_platforms c' "demo@jobbot.com" = {[ "indeed" ]}.
Proof.
  destruct (added_credentials_stay_with_the_manager
              (CredentialsManager [] demo_credentials) "demo@jobbot.com"
              {[ "indeed" := ∅ ]}) as (Hmod & _ & Hsup & _).
  - split; intros u r; cbn; intros H;
      apply lookup_singleton_Some in H as [_ <-]; by eexists.
  - split; [apply Hmod|]. rewrite Hsup. apply dom_singleton_L.
Defined.

(** X23.  [validate_user_access] agrees with [get_supported_platforms]:
    when it answers, the answer is whether the platform is among the
    user's platforms; it raises, with [KeyError], only for a platform
    that is among them and whose dictionary lacks [email] or [password]. *)
Theorem access_is_membership (c : cred_state) (user_email platform : string) :
  match validate_user_access c user_email platform with
  | Ok b => b = bool_decide (platform ∈ get_supported_platforms c user_email)
  | Raise e => e = KeyError /\ platform ∈ get_supported_platforms c user_email
  end.
Proof.
  unfold validate_user_access, get_platform_credentials, lookup_credentials,
    get_supported_platforms.
  destruct (user_credentials c !! user_email) as [ref|];
    [|symmetry; apply bool_decide_eq_false; set_solver].
  destruct (objects c !! ref) as [d|];
    [|symmetry; apply bool_decide_eq_false; set_solver].
  destruct (d !! platform) as [creds|] eqn:E.
  - assert (Hin : platform ∈ dom d) by (apply elem_of_dom; by eexists).
    destruct (creds !! "email"), (creds !! "password"); try done.
    transitivity true;
      [apply bool_decide_eq_true_2; by eexists
      |symmetry; by apply bool_decide_eq_true_2].
  - apply not_elem_of_dom in E.
    transitivity false;
      [apply bool_decide_eq_false_2; by intros [x Hx]
      |symmetry; by apply bool_decide_eq_false_2].
Qed.

Section APSSubmitFacts.
Context {W : Type} (wd : webdriver W).
Variable path_exists : string -> bool.
Variable abspath : string -> string.

Lemma logs_no_event {A} (m : M W A) s :
  logs no_event m -> trace (m s).2 = trace s.
Proof.
  intros H. destruct (H s) as (extra & -> & Hx).
  destruct extra as [|ev extra]; [by rewrite app_nil_r|].
  by apply Forall_cons in Hx as [[] _].
Qed.

Lemma confirmation_element_shown_quiet selectors :
  logs no_event (confirmation_element_shown wd selectors).
Proof.
  induction selectors as [|selector rest IH]; [apply logs_ret|].
  cbn [confirmation_element_shown]. apply logs_bind; [apply logs_ask|].
  intros [|first others]; [exact IH|].
  apply logs_bind; [apply logs_ask|]. intros [|]; [apply logs_ret|exact IH].
Qed.

Lemma form_shows_confirmation_quiet : logs no_event (form_shows_confirmation wd).
Proof.
  unfold form_shows_confirmation.
  repeat (apply logs_bind; [apply logs_ask|intros ?]).
  match goal with |- logs _ (match ?x with _ => _ end) => destruct x end;
    [apply logs_ret|apply logs_raise].
Qed.

Lemma check_submission_success_quiet s :
  exists b, (_check_submission_success wd s).1 = Ok b
            /\ trace (_check_submission_success wd s).2 = trace s.
Proof.
  assert (Ht : total (_check_submission_success wd))
    by (apply total_try_except; intros _; apply total_ret).
  destruct (Ht s) as [b Hb]. exists b. split; [done|].
  apply logs_no_event. unfold _check_submission_success.
  apply logs_try_except; [|intros _; apply logs_ret].
  apply logs_bind; [apply confirmation_element_shown_quiet|].
  intros [|]; [apply logs_ret|].
  apply logs_bind; [apply logs_ask|]. intros source.
  destruct (any_in _ _); [apply logs_ret|].
  apply logs_try_except; [apply form_shows_confirmation_quiet|intros _; apply logs_ret].
Qed.

Lemma click_submit_trace s :
  exists b extra,
    (click_submit wd s).1 = Ok b
    /\ trace (click_submit wd s).2 = (trace s ++ extra)%list
    /\ (b = true ->
        exists before script args,
          extra = (before ++ [EScript script args])%list /\ submit_script script args).
Proof.
  unfold click_submit, try_except, bind, tell, ret.
  destruct (wait_clickable wd submit_button_55 (world s)) as [[button|e] w1]; cbn [world trace].
  - destruct (execute_script wd js_enable_button [button] w1) as [[v|e] w2]; cbn [world trace].
    + destruct (execute_script wd js_gform_submit [button] w2) as [[v'|e] w3]; cbn [world trace].
      * eexists true, _. split; [done|]. split; [trace_eq|]. intros _.
        exists [EWaitClickable submit_button_55; EScript js_enable_button [button]],
          js_gform_submit, [button].
        split; [done|]. left. split; [done|by eexists].
      * destruct (execute_script wd js_form_submit [] w3) as [[v'|e'] w4]; cbn [fst snd trace];
          eexists _, _; (split; [done|]); (split; [trace_eq|]); [intros _|done].
        exists [EWaitClickable submit_button_55; EScript js_enable_button [button];
                EScript js_gform_submit [button]], js_form_submit, [].
        split; [done|]. by right.
    + destruct (execute_script wd js_form_submit [] w2) as [[v'|e'] w4]; cbn [fst snd trace];
        eexists _, _; (split; [done|]); (split; [trace_eq|]); [intros _|done].
      exists [EWaitClickable submit_button_55; EScript js_enable_button [button]],
        js_form_submit, [].
      split; [done|]. by right.
  - destruct (execute_script wd js_form_submit [] w1) as [[v'|e'] w4]; cbn [fst snd trace];
      eexists _, _; (split; [done|]); (split; [trace_eq|]); [intros _|done].
    exists [EWaitClickable submit_button_55], js_form_submit, [].
    split; [done|]. by right.
Qed.

Lemma trigger_form_validation_trace s :
  exists w',
    _trigger_form_validation wd s
    = (Ok tt, mkSt w' (original_window s) (trace s ++ [EScript js_trigger_validation []])%list).
Proof.
  unfold _trigger_form_validation, try_except, bind, tell, ret.
  destruct (execute_script wd js_trigger_validation [] (world s)) as [[v|e] w']; by exists w'.
Qed.

Lemma submit_form_trace s :
  exists b s' extra,
    _submit_form wd s = (Ok b, s')
    /\ trace s' = (trace s ++ extra)%list
    /\ (b = true ->
        exists before script args,
          extra = (before ++ [EScript script args; EScript js_ajax_complete []])%list
          /\ submit_script script args).
Proof.
  unfold _submit_form, try_except, bind.
  destruct (trigger_form_validation_trace s) as (w1 & ->).
  unfold tell at 1, ret. cbn [world trace original_window].
  destruct (execute_script wd js_scroll_bottom [] w1) as [[v|e] w2];
    [|eexists false, _, _; split; [done|]; split; [cbn [trace]; trace_eq|done]].
  match goal with |- context [click_submit wd ?s2] =>
    destruct (click_submit_trace s2) as (clicked & x & Hb & Ht & Hx);
    destruct (click_submit wd s2) as [r s3] end.
  cbn [fst snd trace] in Hb, Ht. subst r.
  destruct clicked; cbn [negb];
    [|eexists false, _, _; split; [done|]; split; [rewrite Ht; trace_eq|done]].
  destruct (Hx eq_refl) as (before & script & args & -> & Hscript).
  unfold tell. destruct (execute_script wd js_ajax_complete [] (world s3)) as [[v'|e] w4];
    [|eexists false, _, _; split; [done|]; split; [cbn [trace]; rewrite Ht; trace_eq|done]].
  match goal with |- context [_check_submission_success wd ?s4] =>
    destruct (check_submission_success_quiet s4) as (b & Hc & Hq);
    destruct (_check_submission_success wd s4) as [r s5] end.
  cbn [fst snd trace] in Hc, Hq. subst r.
  exists b, s5, ((EScript js_trigger_validation [] :: EScript js_scroll_bottom [] :: before)
                 ++ [EScript script args; EScript js_ajax_complete []])%list.
  split; [done|]. split; [rewrite Hq, Ht; trace_eq|].
  intros _. by eexists _, script, args.
Qed.

Lemma try_fill_with_logs v selector : logs any_event (try_fill_with wd v selector).
Proof.
  unfold try_fill_with. apply logs_try_except; [|intros _; apply logs_ret].
  apply logs_bind; [by apply logs_tell|]. intros element.
  apply logs_bind; [apply logs_ask|]. intros [|]; [|apply logs_ret].
  do 3 (apply logs_bind; [by apply logs_tell|intros ?]).
  apply logs_bind; [apply logs_ask|]. intros [x|]; apply logs_ret.
Qed.

Lemma fill_field_logs v selectors :
  logs any_event (_fill_field_by_multiple_strategies wd v selectors).
Proof.
  unfold _fill_field_by_multiple_strategies.
  destruct (negb (truthy_str v)); [apply logs_ret|].
  induction selectors as [|selector rest IH]; [apply logs_ret|].
  cbn [fill_with_selectors]. apply logs_bind; [apply try_fill_with_logs|].
  intros [|]; [apply logs_ret|exact IH].
Qed.

Lemma upload_to_elements_logs path elements :
  logs any_event (upload_to_elements wd path elements).
Proof.
  induction elements as [|element rest IH]; [apply logs_ret|].
  cbn [upload_to_elements]. apply logs_bind; [|intros [|]; [apply logs_ret|exact IH]].
  unfold try_upload_to. apply logs_try_except; [|intros _; apply logs_ret].
  do 2 (apply logs_bind; [by apply logs_tell|intros ?]).
  apply logs_bind; [apply logs_ask|]. intros [x|]; apply logs_ret.
Qed.

Lemma upload_resume_logs path :
  logs any_event (_upload_resume wd path_exists abspath path).
Proof.
  unfold _upload_resume. apply logs_try_except; [|intros _; apply logs_ret].
  destruct (negb (path_exists path)); [apply logs_ret|].
  induction file_selectors as [|selector rest IH]; [apply logs_ret|].
  cbn [upload_with_selectors].
  apply logs_bind; [|intros [|]; [apply logs_ret|exact IH]].
  apply logs_try_except; [|intros _; apply logs_ret].
  apply logs_bind; [apply logs_ask|]. intros elements. apply upload_to_elements_logs.
Qed.

Lemma fill_all_fields_logs user_profile job_board :
  logs any_event (fill_all_fields wd path_exists abspath user_profile job_board).
Proof.
  unfold fill_all_fields.
  repeat (apply logs_bind; [apply fill_field_logs|intros ?]).
  destruct (truthy_str _); [|apply logs_ret].
  apply logs_bind; [apply upload_resume_logs|intros ?; apply logs_ret].
Qed.

Lemma fill_form_waits_first user_profile job_board stop :
  sends_first (EWaitPresence (ID, "gform_55"))
    (_fill_job_candidate_form wd path_exists abspath user_profile job_board stop).
Proof.
  unfold _fill_job_candidate_form.
  apply sends_first_try_except; [|intros _; apply logs_ret].
  apply sends_first_bind; [apply sends_first_tell|]. intros _.
  apply logs_bind; [apply fill_all_fields_logs|]. intros filled.
  apply logs_bind; [destruct stop; [apply logs_lift|apply logs_ret]|].
  intros [|]; apply logs_ret.
Qed.

Lemma stop_requested_state stop n (s : st W) :
  exists r, stop_requested stop n s = (r, s).
Proof. unfold stop_requested. destruct (stop_call stop n); by eexists. Qed.

Lemma submit_steps_trace base_url job_board user_profile stop s0 :
  exists r s1 extra,
    submit_steps wd path_exists abspath base_url job_board user_profile stop s0 = (r, s1)
    /\ trace s1 = (trace s0 ++ extra)%list
    /\ (forall answer, r = Ok answer -> answer.1 = true ->
          answer.2 = "Application submitted successfully to APS"
          /\ exists before script args,
               extra = (EGet base_url :: EWaitPresence (ID, "gform_55") :: before
                          ++ [EScript script args; EScript js_ajax_complete []])%list
               /\ submit_script script args).
Proof.
  unfold submit_steps, bind.
  destruct (stop_requested_state stop 0 s0) as [r0 ->].
  destruct r0 as [[|]|e];
    try (eexists _, _, []; split; [done|]; split; [by rewrite app_nil_r|];
         by intros ? [= <-]).
  unfold tell, ret. destruct (get wd base_url (world s0)) as [[u|e] w1];
    [|eexists _, _, _; split; [done|]; split; [done|]; by intros ? [=]].
  match goal with |- context [_fill_job_candidate_form _ _ _ _ _ ?c ?s] =>
    destruct (fill_form_waits_first user_profile job_board c s) as (x1 & H1);
    destruct (_fill_job_candidate_form wd path_exists abspath user_profile job_board c s)
      as [r1 s2] end.
  cbn [snd trace] in H1.
  destruct r1 as [[|]|e]; cbn [negb];
    try (eexists _, _, _; split; [done|]; split; [rewrite H1; trace_eq|]; by intros ? [= <-]).
  destruct (stop_requested_state stop 2 s2) as [r2 ->].
  destruct r2 as [[|]|e];
    try (eexists _, _, _; split; [done|]; split; [rewrite H1; trace_eq|]; by intros ? [= <-]).
  cbv beta iota.
  destruct (submit_form_trace s2) as (b & s3 & x2 & -> & H2 & Hx).
  destruct b.
  - destruct (Hx eq_refl) as (before & script & args & -> & Hscript).
    eexists _, _, _. split; [done|]. split; [rewrite H2, H1; trace_eq|].
    intros ? [= <-] _. split; [done|].
    exists (x1 ++ before)%list, script, args. split; [trace_eq|done].
  - eexists _, _, _. split; [done|]. split; [rewrite H2, H1; trace_eq|].
    by intros ? [= <-].
Qed.

Lemma confirmation_element_shown_state selectors s :
  (confirmation_element_shown wd selectors s).2 = s.
Proof.
  induction selectors as [|selector rest IH]; [done|].
  cbn [confirmation_element_shown]. unfold bind, ask, ret.
  destruct (find_elements wd (CSS_SELECTOR, selector) (world s)) as [[|first others]|e];
    [exact IH| |done].
  destruct (is_displayed wd first (world s)) as [[|]|e]; [done|exact IH|done].
Qed.

Lemma quit_quietly_trace s : trace (quit_quietly wd s).2 = (trace s ++ [EQuit])%list.
Proof.
  unfold quit_quietly, try_except, tell, ret.
  by destruct (quit wd (world s)) as [[u|e] w'].
Qed.
End APSSubmitFacts.

(** X24.  [submit_application] quits the driver it created, whatever
    happened in between: when a driver was made, [quit] is the last command
    sent to it and nothing the run sent before is lost.  Without a driver
    the answer is a failure: no URL under [site_url], [url] or
    [website_url] (or an empty one), or [_create_driver] raised. *)
Theorem submit_application_quits_its_driver {W} (wd : webdriver W)
    (path_exists : string -> bool) (abspath : string -> string)
    (create_driver : res (st W)) (job_board user_profile : gmap string string)
    (stop_check_callback : option (nat -> res bool)) :
  match submit_application wd path_exists abspath create_driver job_board user_profile
          stop_check_callback with
  | (answer, Some s') =>
      exists s0 extra,
        create_driver = Ok s0 /\ trace s' = (trace s0 ++ extra ++ [EQuit])%list
  | (answer, None) =>
      answer.1 = false
      /\ (answer.2 = "No URL provided for job board" \/ exists e, create_driver = Raise e)
  end.
Proof.
  unfold submit_application.
  destruct (aps_base_url job_board) as [base_url|]; [|by split; [|left]].
  destruct (negb (truthy_str base_url)); [by split; [|left]|].
  destruct create_driver as [s0|e].
  - destruct (submit_steps_trace wd path_exists abspath base_url job_board user_profile
                stop_check_callback s0) as (r & s1 & extra & -> & Ht & _).
    destruct r as [answer|e]; exists s0, extra;
      (split; [done|]); rewrite quit_quietly_trace, Ht; trace_eq.
  - split; [by destruct e|right; by exists e].
Qed.

(** X25.  [submit_application] answers success only with the message
    [Application submitted successfully to APS], and only after a run of
    this shape: the first command is the navigation to the board's URL,
    the second the wait for the form [gform_55], and the last three are a
    submit script (the Gravity Forms one on the submit button, or the
    plain form submit), the script that asks whether the AJAX submission is
    complete, and [quit]. *)
Theorem aps_success_ends_with_a_submission {W} (wd : webdriver W)
    (path_exists : string -> bool) (abspath : string -> string)
    (create_driver : res (st W)) (job_board user_profile : gmap string string)
    (stop_check_callback : option (nat -> res bool)) :
  let run := submit_application wd path_exists abspath create_driver job_board
               user_profile stop_check_callback in
  run.1.1 = true ->
  run.1.2 = "Application submitted successfully to APS"
  /\ exists base_url s0 s' before script args,
       aps_base_url job_board = Some base_url
       /\ create_driver = Ok s0
       /\ run.2 = Some s'
       /\ trace s' = (trace s0 ++ EGet base_url :: EWaitPresence (ID, "gform_55") :: before
                        ++ [EScript script args; EScript js_ajax_complete []; EQuit])%list
       /\ submit_script script args.
Proof.
  unfold submit_application. cbv zeta.
  destruct (aps_base_url job_board) as [base_url|]; [|done].
  destruct (negb (truthy_str base_url)); [done|].
  destruct create_driver as [s0|e]; [|by destruct e].
  destruct (submit_steps_trace wd path_exists abspath base_url job_board user_profile
              stop_check_callback s0) as (r & s1 & extra & -> & Ht & Hr).
  destruct r as [answer|e]; [|by destruct e].
  cbn [fst snd]. intros Hyes.
  destruct (Hr answer eq_refl Hyes) as (Hmsg & before & script & args & -> & Hscript).
  split; [done|]. eexists base_url, s0, _, before, script, args.
  repeat (split; [done|]). split; [|done].
  rewrite quit_quietly_trace, Ht. trace_eq.
Qed.

Lemma aps_success_ends_with_a_submission_witness :
  let run := submit_application sim_wd (fun _ => true) (fun p => p)
               (Ok (fresh aps_form_site)) aps_job_board ada_profile None in
  run.1.2 = "Application submitted successfully to APS"
  /\ exists base_url s0 s' before script args,
       aps_base_url aps_job_board = Some base_url
       /\ Ok (fresh aps_form_site) = Ok s0
       /\ run.2 = Some s'
       /\ trace s' = (trace s0 ++ EGet base_url :: EWaitPresence (ID, "gform_55") :: before
                        ++ [EScript script args; EScript js_ajax_complete []; EQuit])%list
       /\ submit_script script args.
Proof.
  apply (aps_success_ends_with_a_submission sim_wd (fun _ => true) (fun p => p)
           (Ok (fresh aps_form_site)) aps_job_board ada_profile None).
  vm_compute. reflexivity.
Defined.

(** X26.  Once the confirmation selectors and the page text show nothing,
    [_check_submission_success] answers [False] in one case only: the form
    [gform_55] and the wrapper [gform_wrapper_55] are both found and the
    wrapper's [innerHTML] is read and mentions neither [confirmation] nor
    [thank you].  In every other case (a missing form, a missing wrapper,
    a read that raises) it answers [True]. *)
Theorem kept_form_is_the_only_failure {W} (wd : webdriver W) (s : st W)
    (source : string) :
  (confirmation_element_shown wd aps_confirmation_selectors s).1 = Ok false ->
  page_source wd (world s) = Ok source ->
  any_in aps_success_indicators (lower source) = false ->
  let kept :=
    exists form wrapper html,
      find_element wd (ID, "gform_55") (world s) = Ok form
      /\ find_element wd (ID, "gform_wrapper_55") (world s) = Ok wrapper
      /\ get_attribute wd wrapper "innerHTML" (world s) = Ok (Some html)
      /\ str_in "confirmation" (lower html) = false
      /\ str_in "thank you" (lower html) = false in
  ((_check_submission_success wd s).1 = Ok false <-> kept)
  /\ (~ kept -> (_check_submission_success wd s).1 = Ok true).
Proof.
  intros Hshown Hsource Hnone kept.
  assert (Hcases : forall answer, answer = (_check_submission_success wd s).1 ->
                   (kept /\ answer = Ok false) \/ (~ kept /\ answer = Ok true)).
  { unfold _check_submission_success, try_except, bind.
    pose proof (confirmation_element_shown_state wd aps_confirmation_selectors s) as Hs.
    destruct (confirmation_element_shown wd aps_confirmation_selectors s) as [r s1].
    cbn [fst snd] in Hshown, Hs. subst r s1.
    unfold ask at 1. rewrite Hsource, Hnone.
    unfold form_shows_confirmation, bind, ask, ret, raise. subst kept.
    destruct (find_element wd (ID, "gform_55") (world s)) as [form|e];
      [|intros ? ->; right; split; [by intros (? & ? & ? & [=] & _)|done]].
    destruct (find_element wd (ID, "gform_wrapper_55") (world s)) as [wrapper|e];
      [|intros ? ->; right; split; [by intros (? & ? & ? & _ & [=] & _)|done]].
    destruct (get_attribute wd wrapper "innerHTML" (world s)) as [[html|]|e] eqn:Hhtml;
      try (intros ? ->; right; split; [|done];
           intros (? & ? & ? & _ & [= <-] & Hh & _); rewrite Hhtml in Hh; discriminate Hh).
    destruct (str_in "confirmation" (lower html)) eqn:Hc;
      [intros ? ->; right; split; [|done];
       intros (? & ? & ? & _ & [= <-] & Hh & Hc' & _);
       rewrite Hhtml in Hh; injection Hh as <-; congruence|].
    destruct (str_in "thank you" (lower html)) eqn:Hty;
      [intros ? ->; right; split; [|done];
       intros (? & ? & ? & _ & [= <-] & Hh & _ & Hty');
       rewrite Hhtml in Hh; injection Hh as <-; congruence|].
    intros ? ->. left. split; [|done]. by exists form, wrapper, html. }
  destruct (Hcases _ eq_refl) as [[Hk Hr]|[Hk Hr]].
  - split; [done|]. by intros Hn.
  - split; [|done]. rewrite Hr. split; [done|]. intros Hk'. by destruct Hk.
Qed.

Lemma kept_form_is_the_only_failure_witness :
  (_check_submission_success sim_wd (fresh (sim_goto aps_form_url aps_form_site))).1
  = Ok true.
Proof.
  refine (proj2 (kept_form_is_the_only_failure sim_wd
                   (fresh (sim_goto aps_form_url aps_form_site))
                   "<form id='gform_55'></form>" _ _ _) _).
  - vm_compute. reflexivity.
  - vm_compute. reflexivity.
  - vm_compute. reflexivity.
  - intros (form & wrapper & html & _ & Hw & _). vm_compute in Hw. discriminate Hw.
Defined.
